(** * glpi-sdk-python: the session/transport layer and the resource router

    A shallow embedding of [glpi/glpi.py] (classes [GlpiService] and [GLPI])
    and of [glpi/glpi_auth.py].  Python values are a small universe of
    JSON-like values, exceptions are an explicit result type, and the two
    objects are records threaded through a state-and-error monad together
    with the outside world (the log of HTTP requests issued so far and what
    was printed). *)

From Stdlib Require Import ZArith String Ascii List Bool Lia DecimalString.
From stdpp Require Import base gmap strings list.

Local Open Scope string_scope.
Local Open Scope Z_scope.

#[local] Set Warnings "-register-all".

(** ** Python values and exceptions *)

(** A float, by what the code can observe of it: the integer [int(x)]
    that ["%d"] prints, whether it is zero, and its text [str(x)]; or an
    infinity; or a NaN. *)
Inductive PyFloat : Type :=
| Finite (int_part : Z) (is_zero : bool) (text : string)
| Infinity (negative : bool)
| NaN.

(** The values the SDK manipulates: what [json] produces, plus sets.
    Dictionaries keep their insertion order, as iteration in [get_payload]
    depends on it; their keys are strings. *)
Inductive PyVal : Type :=
| PNone
| PBool (b : bool)
| PInt (z : Z)
| PStr (s : string)
| PList (l : list PyVal)
| PDict (d : list (string * PyVal))
| PSet (l : list PyVal)
| PFloat (x : PyFloat).

(** The exception classes that occur.  [GlpiInvalidArgument] is a subclass
    of [GlpiException]; [KeyError] and [IndexError] are subclasses of the
    built-in [LookupError]. *)
Inductive PyExn : Type :=
| GlpiException (msg : string)
| GlpiInvalidArgument (msg : string)
| Exception (msg : string)
| KeyError (key : string)
| IndexError
| TypeError
| AttributeError
| ValueError
| OverflowError
| ConnectionError.

Definition is_GlpiException (e : PyExn) : bool :=
  match e with
  | GlpiException _ | GlpiInvalidArgument _ => true
  | _ => false
  end.

Definition is_LookupError (e : PyExn) : bool :=
  match e with
  | KeyError _ | IndexError => true
  | _ => false
  end.

(** [str(e)] for the exceptions that are formatted into messages. *)
Definition exn_str (e : PyExn) : string :=
  match e with
  | GlpiException m | GlpiInvalidArgument m | Exception m => m
  | KeyError k => "'" +:+ k +:+ "'"
  | _ => ""
  end.

Inductive Res (A : Type) : Type :=
| Ok (a : A)
| Raise (e : PyExn).
Arguments Ok {A} a.
Arguments Raise {A} e.

(** ** Strings, the way the Python built-ins treat them *)

Module PyString.

(** [s.startswith(p)] *)
Fixpoint startswith (s p : string) {struct p} : bool :=
  match p with
  | EmptyString => true
  | String a p' =>
      match s with
      | EmptyString => false
      | String b s' => (Ascii.eqb a b && startswith s' p')%bool
      end
  end.

(** [s.split(sep)] for a one-character separator. *)
Fixpoint split_aux (sep : ascii) (cur : string) (s : string) : list string :=
  match s with
  | EmptyString => [String.rev cur]
  | String c s' =>
      if Ascii.eqb c sep then String.rev cur :: split_aux sep EmptyString s'
      else split_aux sep (String c cur) s'
  end.

Definition split (sep : ascii) (s : string) : list string :=
  split_aux sep EmptyString s.

Fixpoint lstrip (p : ascii -> bool) (s : string) : string :=
  match s with
  | EmptyString => EmptyString
  | String c s' => if p c then lstrip p s' else s
  end.

Definition rstrip (p : ascii -> bool) (s : string) : string :=
  String.rev (lstrip p (String.rev s)).

Definition strip (p : ascii -> bool) (s : string) : string :=
  rstrip p (lstrip p s).

Definition is_slash (c : ascii) : bool := Ascii.eqb c "/"%char.

Definition lower_char (c : ascii) : ascii :=
  let n := nat_of_ascii c in
  if (Nat.leb 65 n && Nat.leb n 90)%bool then ascii_of_nat (n + 32) else c.

(** The lower-casing of the letters A to Z, which is what [str.lower()]
    does to ASCII text. *)
Fixpoint lower (s : string) : string :=
  match s with
  | EmptyString => EmptyString
  | String c s' => String (lower_char c) (lower s')
  end.

(** [sub in s] on two strings: [sub] occurs somewhere in [s]. *)
Fixpoint contains (sub s : string) : bool :=
  (startswith s sub ||
   match s with
   | EmptyString => false
   | String _ s' => contains sub s'
   end)%bool.

(** [s.replace(c, new)] for a one-character [c]. *)
Fixpoint replace_char (c : ascii) (new : string) (s : string) : string :=
  match s with
  | EmptyString => EmptyString
  | String a s' =>
      if Ascii.eqb a c then new +:+ replace_char c new s'
      else String a (replace_char c new s')
  end.

(** The text holds ASCII characters only. *)
Fixpoint is_ascii (s : string) : bool :=
  match s with
  | EmptyString => true
  | String a s' => (Nat.ltb (nat_of_ascii a) 128 && is_ascii s')%bool
  end.

Definition of_Z (z : Z) : string := NilEmpty.string_of_int (Z.to_int z).

Definition spaces (n : nat) : string :=
  string_of_list_ascii (repeat " "%char n).

End PyString.

(** ** Dictionaries and the operations the code applies to values *)

Fixpoint dict_get {A} (d : list (string * A)) (k : string) : option A :=
  match d with
  | [] => None
  | (k', v) :: d' => if String.eqb k' k then Some v else dict_get d' k
  end.

(** [d.update({k: v})] and [d[k] = v]: replace in place, or append. *)
Fixpoint dict_set {A} (d : list (string * A)) (k : string) (v : A)
  : list (string * A) :=
  match d with
  | [] => [(k, v)]
  | (k', v') :: d' =>
      if String.eqb k' k then (k, v) :: d' else (k', v') :: dict_set d' k v
  end.

Definition is_None (v : PyVal) : bool :=
  match v with PNone => true | _ => false end.

(** [isinstance(v, int)]: [bool] is a subclass of [int]. *)
Definition isinstance_int (v : PyVal) : bool :=
  match v with PInt _ | PBool _ => true | _ => false end.

(** [v] is a number: what ["%d"] accepts. *)
Definition is_number (v : PyVal) : bool :=
  match v with PInt _ | PBool _ | PFloat _ => true | _ => false end.

Definition isinstance_str (v : PyVal) : bool :=
  match v with PStr _ => true | _ => false end.

Definition isinstance_dict (v : PyVal) : bool :=
  match v with PDict _ => true | _ => false end.

(** [v == s] for a string literal [s]. *)
Definition eq_str (v : PyVal) (s : string) : bool :=
  match v with PStr s' => String.eqb s' s | _ => false end.

(** Truth value of [v], as [if v:] and [not v] take it. *)
Definition truthy (v : PyVal) : bool :=
  match v with
  | PNone => false
  | PBool b => b
  | PInt z => negb (Z.eqb z 0)
  | PStr s => negb (String.eqb s "")
  | PList l | PSet l => match l with [] => false | _ => true end
  | PDict d => match d with [] => false | _ => true end
  | PFloat (Finite _ zero _) => negb zero
  | PFloat _ => true
  end.

(** [v[k]].  A dictionary has string keys, so any other hashable key is
    absent from it and an unhashable one is a [TypeError]. *)
Definition getitem (v k : PyVal) : Res PyVal :=
  match v, k with
  | PDict d, PStr key =>
      match dict_get d key with Some x => Ok x | None => Raise (KeyError key) end
  | PDict d, (PList _ | PDict _ | PSet _) => Raise TypeError
  | PDict d, _ => Raise (KeyError "")
  | PList l, (PInt _ | PBool _) =>
      let i := match k with PInt z => z | PBool true => 1 | _ => 0 end in
      let j := if i <? 0 then i + Z.of_nat (length l) else i in
      if j <? 0 then Raise IndexError
      else match nth_error l (Z.to_nat j) with
           | Some x => Ok x
           | None => Raise IndexError
           end
  | PStr s, (PInt _ | PBool _) =>
      let i := match k with PInt z => z | PBool true => 1 | _ => 0 end in
      let n := String.length s in
      let j := if i <? 0 then i + Z.of_nat n else i in
      if j <? 0 then Raise IndexError
      else match String.get (Z.to_nat j) s with
           | Some c => Ok (PStr (String c EmptyString))
           | None => Raise IndexError
           end
  | _, _ => Raise TypeError
  end.

(** The elements [for x in v] runs over. *)
Definition iterate (v : PyVal) : Res (list PyVal) :=
  match v with
  | PList l | PSet l => Ok l
  | PDict d => Ok (map (fun kv => PStr (fst kv)) d)
  | PStr s => Ok (map (fun c => PStr (String c EmptyString)) (list_ascii_of_string s))
  | _ => Raise TypeError
  end.

(** ["%d" % v]: a number is printed as the integer [int(v)], which a NaN
    and an infinity do not have; anything else is a [TypeError]. *)
Definition format_d (v : PyVal) : Res string :=
  match v with
  | PInt z => Ok (PyString.of_Z z)
  | PBool b => Ok (if b then "1" else "0")
  | PFloat (Finite z _ _) => Ok (PyString.of_Z z)
  | PFloat (Infinity _) => Raise OverflowError
  | PFloat NaN => Raise ValueError
  | _ => Raise TypeError
  end.

(** [str(x)] of a float. *)
Definition float_str (x : PyFloat) : string :=
  match x with
  | Finite _ _ text => text
  | Infinity false => "inf"
  | Infinity true => "-inf"
  | NaN => "nan"
  end.

(** ** The outside world *)

(** The [auth] argument handed to [requests]: a [GLpiAuth] object built from
    a string token (it sets the header [Authorization: user_token <token>]),
    a caller-supplied auth object passed through, or a (user, password)
    pair for basic authentication. *)
Inductive Auth : Type :=
| GLpiAuth (auth_token : string)
| AuthObject (obj : PyVal)
| BasicAuth (username password : PyVal).

Record HttpRequest : Type := {
  req_method : string;
  req_url : string;
  req_auth : option Auth;
  req_headers : list (string * PyVal);
  req_params : list (string * PyVal);
  req_data : option string;
  req_verify : bool
}.

(** A [requests.Response]: its status, its raw body, and the body parsed
    as JSON when it is JSON ([json()] raises [ValueError] otherwise). *)
Record HttpResponse : Type := {
  status_code : Z;
  content : string;
  json_body : option PyVal
}.

Definition json (r : HttpResponse) : Res PyVal :=
  match json_body r with
  | Some v => Ok v
  | None => Raise ValueError
  end.

Record World : Type := {
  http_log : list HttpRequest;   (* requests issued so far, oldest first *)
  stdout : list string           (* what [print] wrote *)
}.

(** What the program takes from its environment. *)
Class Platform : Type := {
  (** [__version__], from the package's [version] module *)
  sdk_version : string;
  (** [repr] of a value, used when a container is formatted with [%s] *)
  py_repr : PyVal -> string;
  (** [str.lower()] on text, with Python's case mapping of every letter;
      on ASCII text it maps the letters A to Z and nothing else *)
  str_lower : string -> string;
  str_lower_ascii :
    forall s, PyString.is_ascii s = true -> str_lower s = PyString.lower s;
  (** [str.strip()] on text, which removes what Python counts as white
      space from both ends *)
  str_strip : string -> string;
  (** the text chunks [HTMLParser.feed] reports to [handle_data] for a
      response body; [None] when [feed] raises [TypeError], as it does
      where the body is [bytes] (Python 3) *)
  html_feed : string -> option (list string);
  (** the environment variable [VCAP_SERVICES], parsed, when it is set *)
  vcap_services_env : option (list (string * PyVal));
  (** the server: its answer to a request, given the requests before it;
      [None] is a transport failure ([requests] raises) *)
  http_server : list HttpRequest -> HttpRequest -> option HttpResponse
}.

(** ** A state-and-error monad *)

(** A computation over a mutable object of type [S] and the world.  It
    always returns the state it reached, also when it raises. *)
Definition M (S A : Type) : Type := S -> World -> Res A * S * World.

Definition ret {S A} (a : A) : M S A := fun s w => (Ok a, s, w).

Definition raise {S A} (e : PyExn) : M S A := fun s w => (Raise e, s, w).

Definition bind {S A B} (m : M S A) (k : A -> M S B) : M S B :=
  fun s w =>
    match m s w with
    | (Ok a, s', w') => k a s' w'
    | (Raise e, s', w') => (Raise e, s', w')
    end.

Definition lift_res {S A} (r : Res A) : M S A :=
  match r with Ok a => ret a | Raise e => raise e end.

Definition get_state {S} : M S S := fun s w => (Ok s, s, w).

Definition put_state {S} (s : S) : M S unit := fun _ w => (Ok tt, s, w).

(** [try: m except GlpiException as e: h e] *)
Definition try_except_Glpi {S A} (m : M S A) (h : PyExn -> M S A) : M S A :=
  fun s w =>
    match m s w with
    | (Raise e, s', w') =>
        if is_GlpiException e then h e s' w' else (Raise e, s', w')
    | r => r
    end.

(** [try: m except Exception: h]; every exception of the model is one. *)
Definition try_except_any {S A} (m : M S A) (h : M S A) : M S A :=
  fun s w =>
    match m s w with
    | (Raise e, s', w') => h s' w'
    | r => r
    end.

Declare Scope py_scope.
Delimit Scope py_scope with py.
Notation "x <- m ;; k" := (bind m (fun x => k))
  (at level 100, m at next level, right associativity) : py_scope.
Notation "m ;;; k" := (bind m (fun _ => k))
  (at level 100, right associativity) : py_scope.
Local Open Scope py_scope.

(** A loop [for x in l: acc = body acc x] that touches neither the object
    nor the world. *)
Fixpoint fold_res {A B} (l : list B) (body : A -> B -> Res A) (acc : A) : Res A :=
  match l with
  | [] => Ok acc
  | x :: l' =>
      match body acc x with
      | Ok acc' => fold_res l' body acc'
      | Raise e => Raise e
      end
  end.

Definition res_bind {A B} (r : Res A) (k : A -> Res B) : Res B :=
  match r with Ok a => k a | Raise e => Raise e end.

(** [requests.request(...)]: the request is logged, the server answers. *)
Definition requests_request {S} (rq : HttpRequest) `{Platform} : M S HttpResponse :=
  fun s w =>
    let w' := {| http_log := (http_log w ++ [rq])%list; stdout := stdout w |} in
    match http_server (http_log w) rq with
    | Some r => (Ok r, s, w')
    | None => (Raise ConnectionError, s, w')
    end.

Definition print {S} (line : string) : M S unit :=
  fun s w =>
    (Ok tt, s, {| http_log := http_log w; stdout := (stdout w ++ [line])%list |}).

(** ** Module-level helpers of [glpi.py] *)

Section Helpers.
Context `{Platform}.

(** [str(v)], as [%s] and [format] use it. *)
Definition py_str (v : PyVal) : string :=
  match v with
  | PNone => "None"
  | PBool true => "True"
  | PBool false => "False"
  | PInt z => PyString.of_Z z
  | PStr s => s
  | PFloat x => float_str x
  | _ => py_repr v
  end.

Definition str_opt (o : option string) : string :=
  match o with Some s => s | None => "None" end.

(** [load_from_vcap_services] *)
Definition load_from_vcap_services (service_name : PyVal) : Res PyVal :=
  match vcap_services_env with
  | Some services =>
      match service_name with
      | PStr n =>
          match dict_get services n with
          | Some svc =>
              res_bind (getitem svc (PInt 0)) (fun first =>
              getitem first (PStr "credentials"))
          | None => Ok PNone
          end
      | _ => Ok PNone
      end
  | None => Ok PNone
  end.

(** [_remove_null_values] on a dictionary *)
Definition _remove_null_values (dictionary : list (string * PyVal))
  : list (string * PyVal) :=
  List.filter (fun kv => negb (is_None (snd kv))) dictionary.

(** [_cleanup_param_value] *)
Definition _cleanup_param_value (value : PyVal) : PyVal :=
  match value with
  | PBool b => PStr (if b then "true" else "false")
  | _ => value
  end.

(** [_cleanup_param_values] on a dictionary *)
Definition _cleanup_param_values (dictionary : list (string * PyVal))
  : list (string * PyVal) :=
  map (fun kv => (fst kv, _cleanup_param_value (snd kv))) dictionary.

(** [v.lower()]: only strings have the method. *)
Definition lower_method (v : PyVal) : Res string :=
  match v with
  | PStr s => Ok (str_lower s)
  | _ => Raise AttributeError
  end.

(** [_glpi_html_parser]: [feed] runs in the constructor, [handle_data]
    keeps the stripped, non-empty chunks, [get_data_clear] drops those
    that start with a slash. *)
Definition _glpi_html_parser (content : string) : Res (list string) :=
  match html_feed content with
  | None => Raise TypeError
  | Some chunks =>
      let data :=
        List.filter (fun d => negb (String.eqb d "")) (map str_strip chunks) in
      Ok (List.filter (fun r => negb (PyString.startswith r "/")) data)
  end.

(** ["%s" % err] for the list of tokens *)
Definition str_tokens (err : list string) : string :=
  py_repr (PList (map PStr err)).

End Helpers.

Section CaseInsensitiveDict.
Context `{Platform}.

(** A [requests.structures.CaseInsensitiveDict], which files an entry
    under [key.lower()]: [h[k] = v] replaces the entry whose key equals [k]
    up to case, key included. *)
Fixpoint ci_set (h : list (string * PyVal)) (k : string) (v : PyVal)
  : list (string * PyVal) :=
  match h with
  | [] => [(k, v)]
  | (k', v') :: h' =>
      if String.eqb (str_lower k') (str_lower k) then (k, v) :: h'
      else (k', v') :: ci_set h' k v
  end.

Definition ci_update (h upd : list (string * PyVal)) : list (string * PyVal) :=
  fold_left (fun acc kv => ci_set acc (fst kv) (snd kv)) upd h.

(** [h[k]] on such a dictionary, [None] standing for the [KeyError]. *)
Fixpoint ci_get (h : list (string * PyVal)) (k : string) : option PyVal :=
  match h with
  | [] => None
  | (k', v') :: h' =>
      if String.eqb (str_lower k') (str_lower k) then Some v'
      else ci_get h' k
  end.

(** [GLpiAuth.__call__] of [glpi_auth.py], on the headers of the request it
    is given (a case-insensitive dictionary):
    [r.headers['Authorization'] = 'user_token ' + self.auth_token]. *)
Definition GLpiAuth_call (auth_token : string) (headers : list (string * PyVal))
  : list (string * PyVal) :=
  ci_set headers "Authorization" (PStr ("user_token " +:+ auth_token)).

End CaseInsensitiveDict.

(** The double quote, which the payload templates are full of. *)
Definition dq : string := String (ascii_of_nat 34) EmptyString.
Definition backslash : ascii := ascii_of_nat 92.
Definition newline : ascii := ascii_of_nat 10.
Definition carriage_return : ascii := ascii_of_nat 13.

(** ** class GlpiService *)

Record GlpiService : Type := {
  url : PyVal;
  app_token : PyVal;
  uri : option string;
  username : PyVal;
  password : PyVal;
  token_auth : PyVal;
  sslverify : bool;
  writable : bool;
  session : PyVal
}.

Module Service.

Definition with_url (s : GlpiService) (v : PyVal) : GlpiService :=
  {| url := v; app_token := app_token s; uri := uri s; username := username s;
     password := password s; token_auth := token_auth s;
     sslverify := sslverify s; writable := writable s; session := session s |}.

Definition with_app_token (s : GlpiService) (v : PyVal) : GlpiService :=
  {| url := url s; app_token := v; uri := uri s; username := username s;
     password := password s; token_auth := token_auth s;
     sslverify := sslverify s; writable := writable s; session := session s |}.

Definition with_uri (s : GlpiService) (v : option string) : GlpiService :=
  {| url := url s; app_token := app_token s; uri := v; username := username s;
     password := password s; token_auth := token_auth s;
     sslverify := sslverify s; writable := writable s; session := session s |}.

Definition with_username (s : GlpiService) (v : PyVal) : GlpiService :=
  {| url := url s; app_token := app_token s; uri := uri s; username := v;
     password := password s; token_auth := token_auth s;
     sslverify := sslverify s; writable := writable s; session := session s |}.

Definition with_password (s : GlpiService) (v : PyVal) : GlpiService :=
  {| url := url s; app_token := app_token s; uri := uri s; username := username s;
     password := v; token_auth := token_auth s;
     sslverify := sslverify s; writable := writable s; session := session s |}.

Definition with_token_auth (s : GlpiService) (v : PyVal) : GlpiService :=
  {| url := url s; app_token := app_token s; uri := uri s; username := username s;
     password := password s; token_auth := v;
     sslverify := sslverify s; writable := writable s; session := session s |}.

Definition with_session (s : GlpiService) (v : PyVal) : GlpiService :=
  {| url := url s; app_token := app_token s; uri := uri s; username := username s;
     password := password s; token_auth := token_auth s;
     sslverify := sslverify s; writable := writable s; session := v |}.

Definition modify (f : GlpiService -> GlpiService) : M GlpiService unit :=
  fun s w => (Ok tt, f s, w).

Section Methods.
Context `{Platform}.

(** [set_username_and_password] *)
Definition set_username_and_password (username_ password_ : PyVal)
  : M GlpiService unit :=
  let username_ :=
    if eq_str username_ "YOUR SERVICE USERNAME" then PNone else username_ in
  let password_ :=
    if eq_str password_ "YOUR SERVICE PASSWORD" then PNone else password_ in
  modify (fun s => with_password (with_username s username_) password_).

(** [set_token_auth] *)
Definition set_token_auth (token_auth_ : PyVal) : M GlpiService unit :=
  let token_auth_ :=
    if eq_str token_auth_ "YOUR AUTH TOKEN" then PNone else token_auth_ in
  modify (fun s => with_token_auth s token_auth_).

(** [set_uri] *)
Definition set_uri (uri_ : option string) : M GlpiService unit :=
  modify (fun s => with_uri s uri_).

(** The attributes before [__init__] has assigned any. *)
Definition blank : GlpiService :=
  {| url := PNone; app_token := PNone; uri := None; username := PNone;
     password := PNone; token_auth := PNone; sslverify := false;
     writable := false; session := PNone |}.

(** The credentials of the environment's bundle override the object's. *)
Definition apply_vcap_credentials (creds : list (string * PyVal))
  : M GlpiService unit :=
  u <- lift_res (getitem (PDict creds) (PStr "url")) ;;
  modify (fun s => with_url s u) ;;;
  (match dict_get creds "username" with
   | Some v => modify (fun s => with_username s v)
   | None => ret tt
   end) ;;;
  (match dict_get creds "password" with
   | Some v => modify (fun s => with_password s v)
   | None => ret tt
   end) ;;;
  (match dict_get creds "token_auth" with
   | Some v => modify (fun s => with_token_auth s v)
   | None => ret tt
   end) ;;;
  (match dict_get creds "app_token" with
   | Some v => modify (fun s => with_app_token s v)
   | None => ret tt
   end).

(** [GlpiService.__init__], run on the object under construction.
    The arguments carry a trailing underscore where an attribute has
    the same name. *)
Definition __init__ (url_apirest token_app : PyVal) (uri_ : option string)
    (username_ password_ token_auth_ : PyVal)
    (use_vcap_services : bool) (vcap_services_name : PyVal)
    (sslverify_ writable_ : bool) : M GlpiService unit :=
  put_state
    {| url := url_apirest; app_token := token_app; uri := uri_;
       username := username_; password := password_;
       token_auth := token_auth_; sslverify := sslverify_;
       writable := writable_; session := PNone |} ;;;
  (if negb (is_None token_auth_) then
     if (negb (is_None username_) || negb (is_None password_))%bool then
       raise (GlpiInvalidArgument
                "Cannot set token_auth and username and password together")
     else set_token_auth token_auth_
   else set_username_and_password username_ password_) ;;;
  s <- get_state ;;
  (if (use_vcap_services && negb (truthy (username s))
       && negb (truthy (token_auth s)))%bool
   then
     creds <- lift_res (load_from_vcap_services vcap_services_name) ;;
     match creds with
     | PDict d => apply_vcap_credentials d
     | _ => ret tt
     end
   else ret tt) ;;;
  s <- get_state ;;
  (if is_None (app_token s) then
     raise (GlpiException
              "You must specify GLPI API-Token(app_token) to make API calls")
   else ret tt) ;;;
  (if ((is_None (username s) || is_None (password s))
       && is_None (token_auth s))%bool
   then
     raise (GlpiException
       "You must specify your username and password, or token_authservice credentials ")
   else ret tt).

(** [get_version] *)
Definition get_version : M GlpiService string := ret sdk_version.

(** [set_session_token]: the [initSession] call.  The request is issued
    outside the [try], so a transport failure is not converted. *)
Definition set_session_token : M GlpiService bool :=
  s <- get_state ;;
  base <- (match url s with
           | PStr u => ret u
           | _ => raise TypeError
           end) ;;
  let full_url := base +:+ "/initSession" in
  let full_url :=
    if writable s then full_url +:+ "?session_write=true" else full_url in
  let headers := [("App-Token", app_token s);
                  ("Content-Type", PStr "application/json")] in
  let auth :=
    if negb (is_None (token_auth s)) then
      match token_auth s with
      | PStr t => GLpiAuth t
      | other => AuthObject other
      end
    else BasicAuth (username s) (password s) in
  r <- requests_request
         {| req_method := "GET"; req_url := full_url; req_auth := Some auth;
            req_headers := headers; req_params := []; req_data := None;
            req_verify := sslverify s |} ;;
  try_except_any
    (if status_code r =? 200 then
       body <- lift_res (json r) ;;
       tok <- lift_res (getitem body (PStr "session_token")) ;;
       modify (fun s => with_session s tok) ;;;
       ret true
     else
       err <- lift_res (_glpi_html_parser (content r)) ;;
       raise (GlpiException
                ("Init session to GLPI server fails: " +:+ str_tokens err)))
    (err <- lift_res (_glpi_html_parser (content r)) ;;
     raise (GlpiException
              ("ERROR when try to init session in GLPI"
               +:+ PyString.spaces 32 +:+ "server:" +:+ str_tokens err))).

(** [get_session_token] *)
Definition get_session_token : M GlpiService PyVal :=
  s <- get_state ;;
  if negb (is_None (session s)) then ret (session s)
  else
    try_except_Glpi
      (set_session_token ;;;
       s <- get_state ;;
       ret (session s))
      (fun e => raise e).

(** [update_session_token] *)
Definition update_session_token (session_id : PyVal) : M GlpiService PyVal :=
  (if truthy session_id then modify (fun s => with_session s session_id)
   else ret tt) ;;;
  s <- get_state ;;
  ret (session s).

(** [request].  The callers of this file pass [method], [url],
    [accept_json], [params] and [data]; [headers] is kept as well. *)
Definition request (method : string) (url_ : option string)
    (accept_json : bool) (headers : list (string * PyVal))
    (params : list (string * PyVal)) (data : option string)
  : M GlpiService HttpResponse :=
  s <- get_state ;;
  path <- (match url_ with
           | Some p => ret p
           | None => raise AttributeError
           end) ;;
  let full_url :=
    py_str (url s) +:+ "/" +:+ PyString.strip PyString.is_slash path in
  let input_headers :=
    match headers with [] => [] | _ => _remove_null_values headers end in
  let headers :=
    [("user-agent", PStr ("glpi-sdk-python-" +:+ sdk_version))] in
  let headers :=
    if accept_json then ci_set headers "accept" (PStr "application/json")
    else headers in
  headers <-
    try_except_Glpi
      ((if is_None (session s) then set_session_token ;;; ret tt
        else ret tt) ;;;
       s <- get_state ;;
       ret (ci_update headers [("Session-Token", session s)]))
      (fun e => raise (GlpiException
                         ("Unable to get Session token. "
                          +:+ PyString.spaces 32 +:+ "ERROR: "
                          +:+ exn_str e))) ;;
  s <- get_state ;;
  let headers :=
    if negb (is_None (app_token s))
    then ci_update headers [("App-Token", app_token s)] else headers in
  let headers := ci_update headers input_headers in
  let params := _cleanup_param_values (_remove_null_values params) in
  requests_request
    {| req_method := method; req_url := full_url; req_auth := None;
       req_headers := headers; req_params := params; req_data := data;
       req_verify := sslverify s |}.

(** [get_payload] *)
Definition get_payload (data_json : list (string * PyVal)) : Res string :=
  res_bind
    (fold_res (map fst data_json)
       (fun data_str k =>
          let data_str :=
            if negb (String.eqb data_str "") then data_str +:+ ","
            else data_str in
          match dict_get data_json k with
          | None => Raise (KeyError k)
          | Some PNone =>
              Ok (data_str +:+ " " +:+ dq +:+ k +:+ dq +:+ ": null")
          | Some (PStr v) =>
              Ok (data_str +:+ " " +:+ dq +:+ k +:+ dq +:+ ": "
                  +:+ dq +:+ v +:+ dq)
          | Some v =>
              Ok (data_str +:+ " " +:+ dq +:+ k +:+ dq +:+ ": " +:+ py_str v)
          end)
       "")
    (fun data_str =>
       Ok (PyString.replace_char carriage_return ""
             (PyString.replace_char newline (String backslash "n")
                (PyString.replace_char backslash
                   (String backslash (String backslash ""))
                   data_str)))).

Definition input_envelope (payload : string) : string :=
  "{" +:+ dq +:+ "input" +:+ dq +:+ ": { " +:+ payload +:+ " }}".

Definition expand_payload (expand_dropdowns : bool) : list (string * PyVal) :=
  if expand_dropdowns then [("expand_dropdowns", PStr "true")] else [].

(** [create] *)
Definition create (data_json : option (list (string * PyVal)))
  : M GlpiService PyVal :=
  match data_json with
  | None => ret (PStr "{ 'error_message' : 'Object not found.'}")
  | Some d =>
      p <- lift_res (get_payload d) ;;
      let payload := input_envelope p in
      print payload ;;;
      s <- get_state ;;
      response <- request "POST" (uri s) true [] [] (Some payload) ;;
      lift_res (json response)
  end.

(** [get_all] *)
Definition get_all (expand_dropdowns : bool) (uri_query : string)
  : M GlpiService PyVal :=
  let payload := expand_payload expand_dropdowns in
  s <- get_state ;;
  target <- (match uri s with
             | Some u => ret (u +:+ uri_query)
             | None => raise TypeError
             end) ;;
  res <- request "GET" (Some target) false [] payload None ;;
  lift_res (json res).

(** [get] *)
Definition get (item_id : PyVal) (expand_dropdowns : bool)
  : M GlpiService PyVal :=
  s <- get_state ;;
  if isinstance_int item_id then
    let payload := expand_payload expand_dropdowns in
    id <- lift_res (format_d item_id) ;;
    let uri_ := str_opt (uri s) +:+ "/" +:+ id in
    response <- request "GET" (Some uri_) false [] payload None ;;
    lift_res (json response)
  else
    ret (PDict [("error_message",
                 PStr ("Unale to get " +:+ str_opt (uri s) +:+ " ID ["
                       +:+ py_str item_id +:+ "]"))]).

(** [get_path] *)
Definition get_path (path : string) : M GlpiService PyVal :=
  response <- request "GET" (Some path) false [] [] None ;;
  lift_res (json response).

(** [search_options] *)
Definition search_options (item_name : string) : M GlpiService PyVal :=
  s <- get_state ;;
  let new_uri := str_opt (uri s) +:+ "/" +:+ item_name in
  response <- request "GET" (Some new_uri) true [] [] None ;;
  lift_res (json response).

(** [search_engine] *)
Definition search_engine (search_query : string) : M GlpiService PyVal :=
  s <- get_state ;;
  let new_uri := str_opt (uri s) +:+ "/" +:+ search_query in
  response <- request "GET" (Some new_uri) true [] [] None ;;
  lift_res (json response).

(** [update] *)
Definition update (data : list (string * PyVal)) : M GlpiService PyVal :=
  p <- lift_res (get_payload data) ;;
  let payload := input_envelope p in
  s <- get_state ;;
  id <- lift_res (res_bind (getitem (PDict data) (PStr "id")) format_d) ;;
  let new_url := str_opt (uri s) +:+ "/" +:+ id in
  response <- request "PUT" (Some new_url) true [] [] (Some payload) ;;
  lift_res (json response).

(** [delete] *)
Definition delete (item_id : PyVal) (force_purge : bool)
  : M GlpiService PyVal :=
  if negb (isinstance_int item_id) then
    ret (PDict [("message_error",
                 PStr "Please define item_id to be deleted.")])
  else
    id <- lift_res (format_d item_id) ;;
    let payload :=
      if force_purge then
        "{" +:+ dq +:+ "input" +:+ dq +:+ ": { " +:+ dq +:+ "id" +:+ dq
        +:+ ": " +:+ id +:+ " } " +:+ dq +:+ "force_purge" +:+ dq
        +:+ ": true}"
      else
        "{" +:+ dq +:+ "input" +:+ dq +:+ ": { " +:+ dq +:+ "id" +:+ dq
        +:+ ": " +:+ id +:+ " }}" in
    s <- get_state ;;
    response <- request "DELETE" (uri s) false [] [] (Some payload) ;;
    lift_res (json response).

(** [GlpiService(...)]: a new object, or the exception [__init__] raised.
    The caller's own state is untouched; the world is threaded through. *)
Definition new {S} (url_apirest token_app : PyVal) (uri_ : option string)
    (username_ password_ token_auth_ : PyVal)
    (use_vcap_services : bool) (vcap_services_name : PyVal)
    (sslverify_ writable_ : bool) : M S GlpiService :=
  fun st w =>
    match __init__ url_apirest token_app uri_ username_ password_
            token_auth_ use_vcap_services vcap_services_name
            sslverify_ writable_ blank w with
    | (Ok _, obj, w') => (Ok obj, st, w')
    | (Raise e, _, w') => (Raise e, st, w')
    end.

End Methods.
End Service.

(** ** class GLPI, the resource router *)

Record GLPI : Type := {
  glpi_url : PyVal;
  glpi_app_token : PyVal;
  auth_token : PyVal;
  glpi_sslverify : bool;
  glpi_writable : bool;
  item_uri : option string;
  item_map : gmap string string;
  api_rest : option GlpiService;
  api_session : PyVal
}.

Module Router.

Definition with_item_uri (g : GLPI) (v : option string) : GLPI :=
  {| glpi_url := glpi_url g; glpi_app_token := glpi_app_token g;
     auth_token := auth_token g; glpi_sslverify := glpi_sslverify g;
     glpi_writable := glpi_writable g; item_uri := v;
     item_map := item_map g; api_rest := api_rest g;
     api_session := api_session g |}.

Definition with_item_map (g : GLPI) (v : gmap string string) : GLPI :=
  {| glpi_url := glpi_url g; glpi_app_token := glpi_app_token g;
     auth_token := auth_token g; glpi_sslverify := glpi_sslverify g;
     glpi_writable := glpi_writable g; item_uri := item_uri g;
     item_map := v; api_rest := api_rest g;
     api_session := api_session g |}.

Definition with_api_rest (g : GLPI) (v : option GlpiService) : GLPI :=
  {| glpi_url := glpi_url g; glpi_app_token := glpi_app_token g;
     auth_token := auth_token g; glpi_sslverify := glpi_sslverify g;
     glpi_writable := glpi_writable g; item_uri := item_uri g;
     item_map := item_map g; api_rest := v;
     api_session := api_session g |}.

Definition with_api_session (g : GLPI) (v : PyVal) : GLPI :=
  {| glpi_url := glpi_url g; glpi_app_token := glpi_app_token g;
     auth_token := auth_token g; glpi_sslverify := glpi_sslverify g;
     glpi_writable := glpi_writable g; item_uri := item_uri g;
     item_map := item_map g; api_rest := api_rest g;
     api_session := v |}.

Definition modify (f : GLPI -> GLPI) : M GLPI unit :=
  fun g w => (Ok tt, f g, w).

(** A method call on [self.api_rest]; on [None] it is an [AttributeError]. *)
Definition on_api_rest {A} (m : M GlpiService A) : M GLPI A :=
  fun g w =>
    match api_rest g with
    | None => (Raise AttributeError, g, w)
    | Some svc =>
        match m svc w with
        | (r, svc', w') => (r, with_api_rest g (Some svc'), w')
        end
    end.

(** The map [__init__] seeds. *)
Definition seed_item_map : gmap string string :=
  list_to_map
    [("ticket", "/Ticket");
     ("knowbase", "/knowbaseitem");
     ("listSearchOptions", "/listSearchOptions");
     ("search", "/search");
     ("user", "user");
     ("getFullSession", "getFullSession");
     ("getActiveProfile", "getActiveProfile");
     ("getMyProfiles", "getMyProfiles");
     ("location", "location")].

(** [GLPI.__init__] *)
Definition __init__ (url_ app_token_ auth_token_ : PyVal)
    (item_map_ : option (gmap string string)) (sslverify_ writable_ : bool)
  : GLPI :=
  {| glpi_url := url_; glpi_app_token := app_token_;
     auth_token := auth_token_; glpi_sslverify := sslverify_;
     glpi_writable := writable_; item_uri := None;
     item_map := match item_map_ with
                 | Some m => m
                 | None => seed_item_map
                 end;
     api_rest := None; api_session := PNone |}.

(** The static table of [search_engine]. *)
Definition field_map : list (string * Z) :=
  [("name", 1); ("id", 2); ("location", 3); ("type", 4);
   ("serialnumber", 5); ("body", 6); ("processor", 17);
   ("lastupdate", 19); ("manufacturer", 23); ("status", 31);
   ("model", 40); ("tags", 10500); ("operatingsystem", 45)].

(** [field_map[k]] *)
Definition field_code (k : PyVal) : Res Z :=
  match k with
  | PStr f =>
      match dict_get field_map f with
      | Some code => Ok code
      | None => Raise (KeyError f)
      end
  | PList _ | PDict _ | PSet _ => Raise TypeError
  | _ => Raise (KeyError (""))
  end.

(** ['criteria' in c] and the like: key of a dictionary, element of a
    list or set, substring of a string. *)
Definition has_key (c : PyVal) (k : string) : Res bool :=
  match c with
  | PDict d => Ok (match dict_get d k with Some _ => true | None => false end)
  | PList l | PSet l => Ok (existsb (fun x => eq_str x k) l)
  | PStr s => Ok (PyString.contains k s)
  | _ => Raise TypeError
  end.

Section Methods.
Context `{Platform}.

(** [set_item] *)
Definition set_item (item_name : string) : M GLPI unit :=
  g <- get_state ;;
  match item_map g !! item_name with
  | Some path => modify (fun g => with_item_uri g (Some path))
  | None =>
      raise (Exception ("Key [" +:+ item_name +:+ "] not found in Item MAP"))
  end.

(** [help_item] *)
Definition help_item (g : GLPI) : list (string * gmap string string) :=
  [("available_items", item_map g)].

(** [set_item_map] *)
Definition set_item_map (item_map_ : gmap string string) : M GLPI unit :=
  modify (fun g => with_item_map g item_map_).

(** [set_api_uri] *)
Definition set_api_uri : M GLPI unit :=
  g <- get_state ;;
  on_api_rest (Service.set_uri (item_uri g)).

(** [update_uri] *)
Definition update_uri (item_name : string) : M GLPI unit :=
  g <- get_state ;;
  item_name <-
    (match item_map g !! item_name with
     | None =>
         if PyString.startswith item_name "/" then
           match nth_error (PyString.split "/"%char item_name) 1 with
           | Some item_name_real =>
               modify (fun g =>
                 with_item_map g (<[item_name_real := item_name]> (item_map g))) ;;;
               ret item_name_real
           | None => raise IndexError
           end
         else
           let _item_path := "/" +:+ item_name in
           modify (fun g =>
             with_item_map g (<[item_name := _item_path]> (item_map g))) ;;;
           ret item_name
     | Some _ => ret item_name
     end) ;;
  set_item item_name ;;;
  set_api_uri.

(** [init_api] *)
Definition init_api : M GLPI PyVal :=
  g <- get_state ;;
  svc <- Service.new (glpi_url g) (glpi_app_token g) None PNone PNone
           (auth_token g) false PNone (glpi_sslverify g) (glpi_writable g) ;;
  modify (fun g => with_api_rest g (Some svc)) ;;;
  try_except_Glpi
    (tok <- on_api_rest Service.get_session_token ;;
     modify (fun g => with_api_session g tok))
    (fun e => raise e) ;;;
  g <- get_state ;;
  if negb (is_None (api_session g)) then
    ret (PDict [("session_token", api_session g)])
  else
    ret (PDict [("message_error",
                 PStr "Unable to InitSession in GLPI Server.")]).

(** [api_has_session] *)
Definition api_has_session (g : GLPI) : bool :=
  negb (is_None (api_session g)).

Definition ensure_session : M GLPI unit :=
  g <- get_state ;;
  if negb (api_has_session g) then init_api ;;; ret tt else ret tt.

(** The handler every operation ends with:
    [except GlpiException as e: return {'{}'.format(e)}], a set display
    holding the formatted message. *)
Definition on_GlpiException (e : PyExn) : M GLPI PyVal :=
  ret (PSet [PStr (exn_str e)]).

(** [create] *)
Definition create (item_name : string)
    (item_data : option (list (string * PyVal))) : M GLPI PyVal :=
  try_except_Glpi
    (ensure_session ;;;
     update_uri item_name ;;;
     on_api_rest (Service.create item_data))
    on_GlpiException.

(** The query string [get_all] builds from [searchText].  The local
    [uri] is assigned in the loop and not used. *)
Definition get_all_query (searchText : PyVal) : Res string :=
  if negb (is_None searchText) then
    res_bind (getitem searchText (PStr "criteria")) (fun crit =>
    res_bind (iterate crit) (fun cs =>
    res_bind
      (fold_res cs
         (fun (acc : Z * string) c =>
            let '(s_index, uri_query) := acc in
            let uri := if s_index =? 0 then "" else "&" in
            res_bind (getitem c (PStr "field")) (fun f =>
            res_bind (getitem c (PStr "value")) (fun v =>
            let uri_query :=
              uri_query +:+ "searchText[" +:+ py_str f +:+ "]="
              +:+ py_str v in
            Ok (s_index + 1, uri_query))))
         (0, "?"))
      (fun acc => Ok (snd acc))))
  else Ok "?range=0-5000".

(** [get_all] *)
Definition get_all (item_name : string) (expand_dropdowns : bool)
    (searchText : PyVal) : M GLPI PyVal :=
  uri_query <- lift_res (get_all_query searchText) ;;
  try_except_Glpi
    (ensure_session ;;;
     update_uri item_name ;;;
     on_api_rest (Service.get_all expand_dropdowns uri_query))
    on_GlpiException.

(** [get] *)
Definition get (item_name : string) (item_id : PyVal)
    (expand_dropdowns : bool) : M GLPI PyVal :=
  try_except_Glpi
    (ensure_session ;;;
     update_uri item_name ;;;
     if is_None item_id then on_api_rest (Service.get_path item_name)
     else on_api_rest (Service.get item_id expand_dropdowns))
    on_GlpiException.

(** [search_options] *)
Definition search_options (item_name : string) : M GLPI PyVal :=
  try_except_Glpi
    (ensure_session ;;;
     update_uri "listSearchOptions" ;;;
     on_api_rest (Service.search_options item_name))
    on_GlpiException.

(** One criterion of [search_criteria]:
    [c['value'].lower() in d[c['field']].lower()] *)
Definition criterion_matches (d c : PyVal) : Res bool :=
  res_bind (getitem c (PStr "value")) (fun v =>
  res_bind (lower_method v) (fun needle =>
  res_bind (getitem c (PStr "field")) (fun f =>
  res_bind (getitem d f) (fun x =>
  res_bind (lower_method x) (fun hay =>
  Ok (PyString.contains needle hay)))))).

(** [search_criteria] *)
Definition search_criteria (data criteria : PyVal) : Res PyVal :=
  res_bind (iterate data) (fun ds =>
  res_bind
    (fold_res ds
       (fun result d =>
          res_bind (iterate criteria) (fun cs =>
          res_bind
            (fold_res cs
               (fun find c =>
                  res_bind (criterion_matches d c) (fun hit =>
                  Ok (if hit then true else find)))
               false)
            (fun find => Ok (if find then (result ++ [d])%list else result))))
       ([] : list PyVal))
    (fun result => Ok (PList result))).

(** [search_metacriteria] *)
Definition search_metacriteria (metacriteria : PyVal) : PyVal :=
  PDict [("message_info", PStr "Not implemented yet")].

(** [search] *)
Definition search (item_name : string) (criteria : PyVal)
    (expand_dropdowns : bool) : M GLPI PyVal :=
  has_criteria <- lift_res (has_key criteria "criteria") ;;
  if has_criteria : bool then
    data <- get_all item_name expand_dropdowns PNone ;;
    crit <- lift_res (getitem criteria (PStr "criteria")) ;;
    lift_res (search_criteria data crit)
  else
    has_meta <- lift_res (has_key criteria "metacriteria") ;;
    if has_meta : bool then
      meta <- lift_res (getitem criteria (PStr "metacriteria")) ;;
      ret (search_metacriteria meta)
    else
      ret (PDict [("message_error",
                   PStr "Unable to find a valid criteria.")]).

(** One round of the loop of [search_engine]. *)
Definition search_engine_step (acc : Z * string) (c : PyVal)
  : Res (Z * string) :=
  let '(s_index, uri_query) := acc in
  let uri := if s_index =? 0 then "" else "&" in
  let idx := PyString.of_Z s_index in
  res_bind (getitem c (PStr "field")) (fun f =>
  res_bind (field_code f) (fun code =>
  let uri :=
    uri +:+ "criteria[" +:+ idx +:+ "][field]=" +:+ PyString.of_Z code
    +:+ "&" in
  res_bind (getitem c (PStr "value")) (fun v =>
  let uri :=
    if is_None v then uri +:+ "criteria[" +:+ idx +:+ "][value]=&"
    else uri +:+ "criteria[" +:+ idx +:+ "][value]=" +:+ py_str v +:+ "&" in
  res_bind (getitem c (PStr "searchtype")) (fun t =>
  let uri :=
    uri +:+ "criteria[" +:+ idx +:+ "][searchtype]=" +:+ py_str t +:+ "&" in
  res_bind (getitem c (PStr "link")) (fun l =>
  let uri := uri +:+ "criteria[" +:+ idx +:+ "][link]=" +:+ py_str l in
  Ok (s_index + 1, uri_query +:+ uri)))))).

(** The query string [search_engine] builds before it touches the API. *)
Definition search_engine_query (item_name : string) (criteria : PyVal)
  : Res string :=
  res_bind (getitem criteria (PStr "criteria")) (fun crit =>
  res_bind (iterate crit) (fun cs =>
  res_bind (fold_res cs search_engine_step (0, item_name +:+ "?"))
    (fun acc => Ok (snd acc +:+ "&range=0-5000")))).

(** [search_engine] *)
Definition search_engine (item_name : string) (criteria : PyVal)
  : M GLPI PyVal :=
  uri_query <- lift_res (search_engine_query item_name criteria) ;;
  try_except_Glpi
    (ensure_session ;;;
     update_uri "search" ;;;
     on_api_rest (Service.search_options uri_query))
    on_GlpiException.

(** [update] *)
Definition update (item_name : string) (data : list (string * PyVal))
  : M GLPI PyVal :=
  try_except_Glpi
    (ensure_session ;;;
     update_uri item_name ;;;
     on_api_rest (Service.update data))
    on_GlpiException.

(** [delete] *)
Definition delete (item_name : string) (item_id : PyVal)
    (force_purge : bool) : M GLPI PyVal :=
  try_except_Glpi
    (ensure_session ;;;
     update_uri item_name ;;;
     on_api_rest (Service.delete item_id force_purge))
    on_GlpiException.

End Methods.
End Router.

(** ** A concrete platform, to run the model on *)

Module Demo.

Definition ok_response : HttpResponse :=
  {| status_code := 200; content := "";
     json_body := Some (PDict [("session_token", PStr "tok-1")]) |}.

Definition tickets : PyVal :=
  PList [PDict [("id", PInt 1); ("name", PStr "Mail Server down")];
         PDict [("id", PInt 2); ("name", PStr "Printer jam")];
         PDict [("id", PInt 3); ("name", PStr "new SERVER rack")]].

(** The white space of ASCII text: space, tab to carriage return, and
    the four separators 0x1c to 0x1f. *)
Definition is_space (c : ascii) : bool :=
  let n := nat_of_ascii c in
  (Nat.eqb n 32 || (Nat.leb 9 n && Nat.leb n 13)
   || (Nat.leb 28 n && Nat.leb n 31))%bool.

(** The platforms below answer [py_repr] with a fixed text: the runs made
    on them only format the list of tokens of an HTML error body.  Their
    [str_lower] and [str_strip] are those of ASCII text, which is all the
    runs contain. *)

(** A server that opens a session for everybody and lists three tickets. *)
Definition up : Platform :=
  {| sdk_version := "0.3.1";
     py_repr := fun _ => "[]";
     str_lower := PyString.lower;
     str_lower_ascii := fun _ _ => eq_refl;
     str_strip := PyString.strip is_space;
     html_feed := fun _ => Some [];
     vcap_services_env := None;
     http_server := fun _ rq =>
       if PyString.contains "/initSession" (req_url rq) then Some ok_response
       else Some {| status_code := 200; content := "";
                    json_body := Some tickets |} |}.

(** A server that refuses every session, seen from an interpreter where
    the body of a response is text. *)
Definition down : Platform :=
  {| sdk_version := "0.3.1";
     py_repr := fun _ => "['Unauthorized']";
     str_lower := PyString.lower;
     str_lower_ascii := fun _ _ => eq_refl;
     str_strip := PyString.strip is_space;
     html_feed := fun _ => Some ["Unauthorized"];
     vcap_services_env := None;
     http_server := fun _ _ =>
       Some {| status_code := 401; content := "<p>Unauthorized</p>";
               json_body := None |} |}.

(** The same server, seen from an interpreter where the body of a
    response is [bytes], which [HTMLParser.feed] does not take. *)
Definition down_bytes : Platform :=
  {| sdk_version := "0.3.1";
     py_repr := fun _ => "[]";
     str_lower := PyString.lower;
     str_lower_ascii := fun _ _ => eq_refl;
     str_strip := PyString.strip is_space;
     html_feed := fun _ => None;
     vcap_services_env := None;
     http_server := fun _ _ =>
       Some {| status_code := 401; content := "<p>Unauthorized</p>";
               json_body := None |} |}.

(** No server at all: every request is a transport failure. *)
Definition unreachable : Platform :=
  {| sdk_version := "0.3.1";
     py_repr := fun _ => "[]";
     str_lower := PyString.lower;
     str_lower_ascii := fun _ _ => eq_refl;
     str_strip := PyString.strip is_space;
     html_feed := fun _ => Some [];
     vcap_services_env := None;
     http_server := fun _ _ => None |}.

(** A server whose second ticket has no [name]. *)
Definition sparse : Platform :=
  {| sdk_version := "0.3.1";
     py_repr := fun _ => "[]";
     str_lower := PyString.lower;
     str_lower_ascii := fun _ _ => eq_refl;
     str_strip := PyString.strip is_space;
     html_feed := fun _ => Some [];
     vcap_services_env := None;
     http_server := fun _ rq =>
       if PyString.contains "/initSession" (req_url rq) then Some ok_response
       else Some {| status_code := 200; content := "";
                    json_body :=
                      Some (PList [PDict [("id", PInt 1);
                                          ("name", PStr "Mail Server down")];
                                   PDict [("id", PInt 2)]]) |} |}.

(** Text outside ASCII, in UTF-8: the letter E with an acute accent,
    capital and small. *)
Definition E_acute : string :=
  String (ascii_of_nat 195) (String (ascii_of_nat 137) "").
Definition e_acute : string :=
  String (ascii_of_nat 195) (String (ascii_of_nat 169) "").

(** [str.lower()] on text whose only letter outside ASCII is that one. *)
Fixpoint lower_latin (s : string) : string :=
  match s with
  | EmptyString => EmptyString
  | String a t =>
      match t with
      | String b s' =>
          if (Ascii.eqb a (ascii_of_nat 195) && Ascii.eqb b (ascii_of_nat 137))%bool
          then String a (String (ascii_of_nat 169) (lower_latin s'))
          else String (PyString.lower_char a) (lower_latin t)
      | EmptyString => String (PyString.lower_char a) EmptyString
      end
  end.

Definition lower_latin_ascii (s : string) :
  PyString.is_ascii s = true -> lower_latin s = PyString.lower s.
Proof.
  induction s as [|a t IH]; [reflexivity|].
  cbn [PyString.is_ascii]. intros Hs. apply andb_true_iff in Hs as [Ha Ht].
  cbn [lower_latin PyString.lower]. destruct t as [|b s'].
  - reflexivity.
  - destruct (Ascii.eqb a (ascii_of_nat 195)) eqn:E.
    + apply Ascii.eqb_eq in E. subst a. discriminate Ha.
    + cbn [andb]. rewrite (IH Ht). reflexivity.
Qed.

(** A server whose tickets have names outside ASCII. *)
Definition latin : Platform :=
  {| sdk_version := "0.3.1";
     py_repr := fun _ => "[]";
     str_lower := lower_latin;
     str_lower_ascii := lower_latin_ascii;
     str_strip := PyString.strip is_space;
     html_feed := fun _ => Some [];
     vcap_services_env := None;
     http_server := fun _ rq =>
       if PyString.contains "/initSession" (req_url rq) then Some ok_response
       else Some {| status_code := 200; content := "";
                    json_body :=
                      Some (PList [PDict [("name", PStr ("CAF" +:+ E_acute
                                                         +:+ " server"))];
                                   PDict [("name", PStr ("caf" +:+ e_acute))];
                                   PDict [("name", PStr "tea")]]) |} |}.

(** An environment that carries a credential bundle for the service
    ["glpi"]. *)
Definition cloud_credentials : list (string * PyVal) :=
  [("url", PStr "http://cloud/apirest.php");
   ("username", PStr "svc"); ("password", PStr "secret")].

Definition cloud : Platform :=
  {| sdk_version := "0.3.1";
     py_repr := fun _ => "[]";
     str_lower := PyString.lower;
     str_lower_ascii := fun _ _ => eq_refl;
     str_strip := PyString.strip is_space;
     html_feed := fun _ => Some [];
     vcap_services_env :=
       Some [("glpi", PList [PDict [("credentials", PDict cloud_credentials)]])];
     http_server := fun _ _ => None |}.

Definition world0 : World := {| http_log := []; stdout := [] |}.

(** A router that was given no application token. *)
Definition router_without_app_token : GLPI :=
  Router.__init__ (PStr "http://glpi/apirest.php") PNone
    (PStr "user-token") None true false.

Definition router0 : GLPI :=
  Router.__init__ (PStr "http://glpi/apirest.php") (PStr "app")
    (PStr "user-token") None true false.

(** The service object [init_api] builds for [router0], before and after
    the session is open. *)
Definition service0 : GlpiService :=
  {| url := PStr "http://glpi/apirest.php"; app_token := PStr "app";
     uri := None; username := PNone; password := PNone;
     token_auth := PStr "user-token"; sslverify := true;
     writable := false; session := PNone |}.

Definition service1 : GlpiService :=
  Service.with_session service0 (PStr "tok-1").

(** [router0] once [init_api] has run against [up]. *)
Definition router1 : GLPI :=
  Router.with_api_session
    (Router.with_api_rest router0 (Some service1)) (PStr "tok-1").

(** [service1] with the resource path of the tickets set. *)
Definition service2 : GlpiService := Service.with_uri service1 (Some "/Ticket").

Definition refusal : HttpResponse :=
  {| status_code := 401; content := "<p>Unauthorized</p>"; json_body := None |}.

End Demo.

(** ** Definitions used in the statements *)

(** The request [set_session_token] sends from a client whose base URL is
    the string [u]. *)
Definition initSession_request (s : GlpiService) (u : string) : HttpRequest :=
  {| req_method := "GET";
     req_url := if writable s
                then (u +:+ "/initSession") +:+ "?session_write=true"
                else u +:+ "/initSession";
     req_auth := Some (if negb (is_None (token_auth s)) then
                         match token_auth s with
                         | PStr t => GLpiAuth t
                         | other => AuthObject other
                         end
                       else BasicAuth (username s) (password s));
     req_headers := [("App-Token", app_token s);
                     ("Content-Type", PStr "application/json")];
     req_params := [];
     req_data := None;
     req_verify := sslverify s |}.

Definition add_request (w : World) (rq : HttpRequest) : World :=
  {| http_log := (http_log w ++ [rq])%list; stdout := stdout w |}.

(** [n] calls of [get_session_token] in a row, and what each returned. *)
Fixpoint get_session_token_times `{Platform} (n : nat)
  : M GlpiService (list PyVal) :=
  match n with
  | O => ret []
  | S n' =>
      t <- Service.get_session_token ;;
      ts <- get_session_token_times n' ;;
      ret (t :: ts)
  end.

(** The entry [update_uri] registers for a name that is not in the map:
    the name itself with a leading slash put in front, or, for a name that
    starts with a slash, what lies between its first and second slash,
    bound to the whole name. *)
Definition registered_key (item_name : string) : string :=
  if PyString.startswith item_name "/" then
    match nth_error (PyString.split "/"%char item_name) 1 with
    | Some item_name_real => item_name_real
    | None => item_name
    end
  else item_name.

Definition registered_path (item_name : string) : string :=
  if PyString.startswith item_name "/" then item_name else "/" +:+ item_name.

Definition item_map_after (m : gmap string string) (item_name : string)
  : gmap string string :=
  match m !! item_name with
  | Some _ => m
  | None => <[registered_key item_name := registered_path item_name]> m
  end.

(** The router after [update_uri item_name] has run against the service
    object [svc]. *)
Definition after_update_uri (g : GLPI) (item_name : string) (svc : GlpiService)
  : GLPI :=
  let m := item_map_after (item_map g) item_name in
  let key := match item_map g !! item_name with
             | Some _ => item_name
             | None => registered_key item_name
             end in
  {| glpi_url := glpi_url g; glpi_app_token := glpi_app_token g;
     auth_token := auth_token g; glpi_sslverify := glpi_sslverify g;
     glpi_writable := glpi_writable g;
     item_uri := m !! key;
     item_map := m;
     api_rest := Some (Service.with_uri svc (m !! key));
     api_session := api_session g |}.

(** A criterion of [search_engine] as the docstring describes it: a
    dictionary whose ["field"], when it has one, is a string. *)
Definition well_formed_criterion (c : PyVal) : bool :=
  match c with
  | PDict d =>
      match dict_get d "field" with
      | Some (PStr _) | None => true
      | Some _ => false
      end
  | _ => false
  end.

(** A criterion whose field name is not in the static table. *)
Definition unmapped_field (c : PyVal) : bool :=
  match c with
  | PDict d =>
      match dict_get d "field" with
      | Some (PStr f) =>
          match dict_get Router.field_map f with
          | Some _ => false
          | None => true
          end
      | _ => false
      end
  | _ => false
  end.

(** The [searchText] argument of [get_all] for a list of (field, value)
    pairs of strings, and the text the loop appends for one pair. *)
Definition searchText_of (pairs : list (string * string)) : PyVal :=
  PDict [("criteria",
          PList (map (fun fv => PDict [("field", PStr (fst fv));
                                       ("value", PStr (snd fv))]) pairs))].

Definition searchText_pair (fv : string * string) : string :=
  "searchText[" +:+ fst fv +:+ "]=" +:+ snd fv.

Definition join_strings (l : list string) : string :=
  fold_right String.append "" l.

(** The URLs of the requests a run has issued, oldest first. *)
Definition urls_requested {A S} (run : Res A * S * World) : list string :=
  map req_url (http_log (snd run)).

Definition result_of {A S} (run : Res A * S * World) : Res A := fst (fst run).


(** *** Client-side search, in the words of the specification *)

(** The field name and the value of a criterion that holds both as strings. *)
Definition criterion_field_value (c : PyVal) : option (string * string) :=
  match c with
  | PDict d =>
      match dict_get d "field", dict_get d "value" with
      | Some (PStr f), Some (PStr v) => Some (f, v)
      | _, _ => None
      end
  | _ => None
  end.

(** The field [f] of a record that is a dictionary and holds a string there. *)
Definition record_field (d : PyVal) (f : string) : option string :=
  match d with
  | PDict r =>
      match dict_get r f with
      | Some (PStr x) => Some x
      | _ => None
      end
  | _ => None
  end.

(** [v] is a case-insensitive substring of [x]: with the letters of both
    in lower case, [v] is a stretch of [x]. *)
Definition ci_substring `{Platform} (v x : string) : Prop :=
  exists pre post, str_lower x = pre +:+ str_lower v +:+ post.

(** At least one criterion's value is a case-insensitive substring of the
    record's field the criterion names. *)
Definition record_selected `{Platform} (cs : list PyVal) (d : PyVal) : Prop :=
  exists c f v x,
    In c cs /\ criterion_field_value c = Some (f, v)
    /\ record_field d f = Some x /\ ci_substring v x.

(** The same, as a test. *)
Definition record_selected_b `{Platform} (cs : list PyVal) (d : PyVal)
  : bool :=
  existsb
    (fun c =>
       match criterion_field_value c with
       | Some (f, v) =>
           match record_field d f with
           | Some x => PyString.contains (str_lower v) (str_lower x)
           | None => false
           end
       | None => false
       end) cs.

(** Every criterion is a (field, value) pair of strings and the record has
    a string in each of the fields named. *)
Definition criteria_apply_to (cs : list PyVal) (d : PyVal) : bool :=
  forallb
    (fun c =>
       match criterion_field_value c with
       | Some (f, _) =>
           match record_field d f with Some _ => true | None => false end
       | None => false
       end) cs.

(** *** Definitions for the further properties *)

(** The token an answer to [initSession] yields: status 200 and a JSON body
    that can be indexed with ["session_token"]. *)
Definition accepted_token (resp : HttpResponse) : option PyVal :=
  if status_code resp =? 200 then
    match json_body resp with
    | Some body =>
        match getitem body (PStr "session_token") with
        | Ok tok => Some tok
        | Raise _ => None
        end
    | None => None
    end
  else None.

(** The message of the [GlpiException] that [set_session_token] raises for
    an answer it cannot use and whose body yields the tokens [err]. *)
Definition initSession_error `{Platform} (err : list string) : string :=
  "ERROR when try to init session in GLPI" +:+ PyString.spaces 32
  +:+ "server:" +:+ str_tokens err.

(** What [set_session_token] raises for an answer it cannot use: that
    exception, or the [TypeError] of a body that cannot be parsed. *)
Definition initSession_failure `{Platform} (resp : HttpResponse) : PyExn :=
  match _glpi_html_parser (content resp) with
  | Ok err => GlpiException (initSession_error err)
  | Raise e => e
  end.

(** The requests issued between two worlds. *)
Definition requests_between (w w' : World) (l : list HttpRequest) : Prop :=
  http_log w' = (http_log w ++ l)%list.

(** A request of [GlpiService.request]: no [auth] argument (only
    [initSession] has one) and the given session token in its headers. *)
Definition plain_request `{Platform} (tok : PyVal) (rq : HttpRequest) : Prop :=
  req_auth rq = None /\ ci_get (req_headers rq) "Session-Token" = Some tok.

(** Nothing, or one plain request, was issued between [w] and [w']. *)
Definition at_most_one_plain_request `{Platform} (tok : PyVal)
    (w w' : World) : Prop :=
  requests_between w w' []
  \/ exists rq, requests_between w w' [rq] /\ plain_request tok rq.

(** A router whose session is open: it records a token and its service
    object holds that token. *)
Definition session_open (g : GLPI) : Prop :=
  api_session g <> PNone
  /\ exists svc, api_rest g = Some svc /\ session svc = api_session g.

(** A method of the service object that, on a client holding a token,
    leaves the client as it is and issues at most one plain request. *)
Definition quiet `{Platform} {A} (op : M GlpiService A) : Prop :=
  forall s w r s' w',
    session s <> PNone -> op s w = (r, s', w') ->
    s' = s /\ at_most_one_plain_request (session s) w w'.

Definition has_char (c : ascii) (s : string) : bool :=
  existsb (Ascii.eqb c) (list_ascii_of_string s).

(** The value the caller's headers give for the header [k]: that of the
    last entry whose name is [k] up to case. *)
Fixpoint ci_last `{Platform} (upd : list (string * PyVal)) (k : string)
  : option PyVal :=
  match upd with
  | [] => None
  | (k', v) :: upd' =>
      match ci_last upd' k with
      | Some v' => Some v'
      | None => if String.eqb (str_lower k') (str_lower k) then Some v else None
      end
  end.

Definition caller_header `{Platform} (headers : list (string * PyVal))
    (k : string) : option PyVal :=
  ci_last (_remove_null_values headers) k.

(** The value [GlpiService.request] itself gives the header [k], for a
    client that holds a session token. *)
Definition own_header `{Platform} (s : GlpiService) (accept_json : bool)
    (k : string) : option PyVal :=
  let name := str_lower k in
  if (String.eqb name "app-token" && negb (is_None (app_token s)))%bool
  then Some (app_token s)
  else if String.eqb name "session-token" then Some (session s)
  else if (String.eqb name "accept" && accept_json)%bool
  then Some (PStr "application/json")
  else if String.eqb name "user-agent"
  then Some (PStr ("glpi-sdk-python-" +:+ sdk_version))
  else None.

(** One entry of the payload of [get_payload]. *)
Definition payload_entry `{Platform} (kv : string * PyVal) : string :=
  " " +:+ dq +:+ fst kv +:+ dq +:+ ": "
  +:+ match snd kv with
      | PNone => "null"
      | PStr v => dq +:+ v +:+ dq
      | v => py_str v
      end.

(** The body of the loop of [get_payload]. *)
Definition payload_round `{Platform} (data_json : list (string * PyVal))
    (data_str k : string) : Res string :=
  let data_str :=
    if negb (String.eqb data_str "") then data_str +:+ "," else data_str in
  match dict_get data_json k with
  | None => Raise (KeyError k)
  | Some PNone => Ok (data_str +:+ " " +:+ dq +:+ k +:+ dq +:+ ": null")
  | Some (PStr v) =>
      Ok (data_str +:+ " " +:+ dq +:+ k +:+ dq +:+ ": " +:+ dq +:+ v +:+ dq)
  | Some v => Ok (data_str +:+ " " +:+ dq +:+ k +:+ dq +:+ ": " +:+ py_str v)
  end.

(** One round of the loop of [get_payload], for an entry whose lookup
    succeeds. *)
Definition payload_step `{Platform} (data_str : string) (kv : string * PyVal)
  : string :=
  (if negb (String.eqb data_str "") then data_str +:+ "," else data_str)
  +:+ payload_entry kv.

(** The three replacements [get_payload] ends with. *)
Definition escape_payload (data_str : string) : string :=
  PyString.replace_char carriage_return ""
    (PyString.replace_char newline (String backslash "n")
       (PyString.replace_char backslash
          (String backslash (String backslash "")) data_str)).

(** The request [GlpiService.request] sends for a client that holds a session
    token, when the caller passes no headers of its own. *)
Definition session_request `{Platform} (s : GlpiService) (method path : string)
    (accept_json : bool) (params : list (string * PyVal))
    (data : option string) : HttpRequest :=
  {| req_method := method;
     req_url := py_str (url s) +:+ "/" +:+ PyString.strip PyString.is_slash path;
     req_auth := None;
     req_headers :=
       (let h := [("user-agent", PStr ("glpi-sdk-python-" +:+ sdk_version))] in
        let h := if accept_json
                 then ci_set h "accept" (PStr "application/json") else h in
        let h := ci_update h [("Session-Token", session s)] in
        if negb (is_None (app_token s))
        then ci_update h [("App-Token", app_token s)] else h);
     req_params := _cleanup_param_values (_remove_null_values params);
     req_data := data;
     req_verify := sslverify s |}.

(** What [requests.request] hands back for the request [rq] in the world [w]. *)
Definition answer `{Platform} (w : World) (rq : HttpRequest) : Res HttpResponse :=
  match http_server (http_log w) rq with
  | Some r => Ok r
  | None => Raise ConnectionError
  end.

(** A call of one of the router's operations, and a caller that makes
    calls one after the other, going on whatever a call returns or raises. *)
Inductive RouterCall : Type :=
| CallCreate (item_name : string) (item_data : option (list (string * PyVal)))
| CallGetAll (item_name : string) (expand_dropdowns : bool) (searchText : PyVal)
| CallGet (item_name : string) (item_id : PyVal) (expand_dropdowns : bool)
| CallSearchOptions (item_name : string)
| CallSearch (item_name : string) (criteria : PyVal) (expand_dropdowns : bool)
| CallSearchEngine (item_name : string) (criteria : PyVal)
| CallUpdate (item_name : string) (data : list (string * PyVal))
| CallDelete (item_name : string) (item_id : PyVal) (force_purge : bool).

Definition run_call `{Platform} (c : RouterCall) : M GLPI PyVal :=
  match c with
  | CallCreate n d => Router.create n d
  | CallGetAll n e st => Router.get_all n e st
  | CallGet n i e => Router.get n i e
  | CallSearchOptions n => Router.search_options n
  | CallSearch n c e => Router.search n c e
  | CallSearchEngine n c => Router.search_engine n c
  | CallUpdate n d => Router.update n d
  | CallDelete n i f => Router.delete n i f
  end.

Fixpoint run_calls `{Platform} (cs : list RouterCall) (g : GLPI) (w : World)
  : GLPI * World :=
  match cs with
  | [] => (g, w)
  | c :: cs' =>
      match run_call c g w with
      | (_, g', w') => run_calls cs' g' w'
      end
  end.

(** A criterion of [search_engine] with its four keys, and the text the
    loop builds for the criterion numbered [i]. *)
Definition engine_criterion (c : string * PyVal * PyVal * PyVal) : PyVal :=
  let '(f, v, t, l) := c in
  PDict [("field", PStr f); ("value", v); ("searchtype", t); ("link", l)].

Definition render_engine_criterion `{Platform} (i : nat)
    (c : string * PyVal * PyVal * PyVal) : string :=
  let '(f, v, t, l) := c in
  let idx := PyString.of_Z (Z.of_nat i) in
  let code := match dict_get Router.field_map f with
              | Some code => code
              | None => 0
              end in
  "criteria[" +:+ idx +:+ "][field]=" +:+ PyString.of_Z code +:+ "&"
  +:+ "criteria[" +:+ idx +:+ "][value]="
  +:+ (if is_None v then "" else py_str v) +:+ "&"
  +:+ "criteria[" +:+ idx +:+ "][searchtype]=" +:+ py_str t +:+ "&"
  +:+ "criteria[" +:+ idx +:+ "][link]=" +:+ py_str l.

Fixpoint render_engine_criteria `{Platform} (i : nat)
    (cs : list (string * PyVal * PyVal * PyVal)) : list string :=
  match cs with
  | [] => []
  | c :: cs' => render_engine_criterion i c :: render_engine_criteria (S i) cs'
  end.

Definition mapped_field (c : string * PyVal * PyVal * PyVal) : bool :=
  let '(f, _, _, _) := c in
  match dict_get Router.field_map f with Some _ => true | None => false end.

(** The world after [print] has written a line. *)
Definition printed (w : World) (line : string) : World :=
  {| http_log := http_log w; stdout := (stdout w ++ [line])%list |}.

(** The service object [init_api] constructs for the router [g]. *)
Definition fresh_service (g : GLPI) : GlpiService :=
  {| url := glpi_url g; app_token := glpi_app_token g; uri := None;
     username := PNone; password := PNone; token_auth := auth_token g;
     sslverify := glpi_sslverify g; writable := glpi_writable g;
     session := PNone |}.

(** The router once [init_api] has opened a session with the token [tok]. *)
Definition opened (g : GLPI) (tok : PyVal) : GLPI :=
  Router.with_api_session
    (Router.with_api_rest g (Some (Service.with_session (fresh_service g) tok)))
    tok.

(** * Properties *)

(** ** Running the monad *)

Ltac unfold_monad :=
  unfold lift_res, get_state, put_state, try_except_Glpi,
    try_except_any, Service.modify, Router.modify, Router.on_api_rest,
    print in *;
  unfold bind, ret, raise in *.

Lemma bind_Ok {S A B} (m : M S A) (k : A -> M S B) s w a s' w' :
  m s w = (Ok a, s', w') -> bind m k s w = k a s' w'.
Proof. intros E. unfold bind. rewrite E. reflexivity. Qed.

Lemma bind_Raise {S A B} (m : M S A) (k : A -> M S B) s w e s' w' :
  m s w = (Raise e, s', w') -> bind m k s w = (Raise e, s', w').
Proof. intros E. unfold bind. rewrite E. reflexivity. Qed.

Lemma try_except_Glpi_Ok {S A} (m : M S A) h s w a s' w' :
  m s w = (Ok a, s', w') -> try_except_Glpi m h s w = (Ok a, s', w').
Proof. intros E. unfold try_except_Glpi. rewrite E. reflexivity. Qed.

Lemma try_except_Glpi_caught {S A} (m : M S A) h s w e s' w' :
  m s w = (Raise e, s', w') -> is_GlpiException e = true ->
  try_except_Glpi m h s w = h e s' w'.
Proof. intros E G. unfold try_except_Glpi. rewrite E, G. reflexivity. Qed.

Lemma try_except_Glpi_escapes {S A} (m : M S A) h s w e s' w' :
  m s w = (Raise e, s', w') -> is_GlpiException e = false ->
  try_except_Glpi m h s w = (Raise e, s', w').
Proof. intros E G. unfold try_except_Glpi. rewrite E, G. reflexivity. Qed.

Lemma bind_inv {S A B} (m : M S A) (k : A -> M S B) s w r s' w' :
  bind m k s w = (r, s', w') ->
  (exists a s1 w1, m s w = (Ok a, s1, w1) /\ k a s1 w1 = (r, s', w'))
  \/ (exists e, m s w = (Raise e, s', w') /\ r = Raise e).
Proof.
  unfold bind. destruct (m s w) as [[[a|e] s1] w1]; intros E.
  - left. eauto.
  - right. inversion E; subst. eauto.
Qed.

Lemma try_except_Glpi_inv {S A} (m : M S A) h s w r s' w' :
  try_except_Glpi m h s w = (r, s', w') ->
  (exists a, m s w = (Ok a, s', w') /\ r = Ok a)
  \/ (exists e, m s w = (Raise e, s', w') /\ r = Raise e
                /\ is_GlpiException e = false)
  \/ (exists e s1 w1, m s w = (Raise e, s1, w1)
                      /\ is_GlpiException e = true
                      /\ h e s1 w1 = (r, s', w')).
Proof.
  unfold try_except_Glpi. destruct (m s w) as [[[a|e] s1] w1]; intros E.
  - left. inversion E; subst. eauto.
  - destruct (is_GlpiException e) eqn:G.
    + right. right. eauto 10.
    + right. left. inversion E; subst. eauto.
Qed.

(** Re-raising what was caught is the same as not catching. *)
Lemma try_except_Glpi_reraise {S A} (m : M S A) s w :
  try_except_Glpi m (fun e => raise e) s w = m s w.
Proof.
  unfold try_except_Glpi, raise.
  destruct (m s w) as [[[a|e] s'] w']; [reflexivity|].
  destruct (is_GlpiException e); reflexivity.
Qed.

Lemma is_None_false (v : PyVal) : is_None v = false <-> v <> PNone.
Proof. destruct v; simpl; split; congruence. Qed.

Lemma is_None_true (v : PyVal) : is_None v = true <-> v = PNone.
Proof. destruct v; simpl; split; congruence. Qed.

(** ** The transport layer *)

Section ServiceFacts.
Context `{Platform}.

(** C9. [GlpiService.create] called with no data issues no HTTP call and
    returns the literal string ["{ 'error_message' : 'Object not found.'}"],
    a string and not a dictionary: the object and the world (the request
    log in particular) are as before. *)
Theorem create_without_data (s : GlpiService) (w : World) :
  Service.create None s w
    = (Ok (PStr "{ 'error_message' : 'Object not found.'}"), s, w)
  /\ isinstance_dict (PStr "{ 'error_message' : 'Object not found.'}") = false
  /\ isinstance_str (PStr "{ 'error_message' : 'Object not found.'}") = true.
Proof. repeat split. Qed.

(** C8. Constructing a [GlpiService] with a [token_auth] that is not [None]
    together with a [username] or a [password] that is not [None] raises
    [GlpiInvalidArgument], a [GlpiException]: no object is returned, no
    request is issued, and the [session] attribute of the object under
    construction is still [None]. *)
Theorem init_rejects_token_with_credentials
    (url_apirest token_app : PyVal) (uri_ : option string)
    (username_ password_ token_auth_ : PyVal)
    (use_vcap_services : bool) (vcap_services_name : PyVal)
    (sslverify_ writable_ : bool) (obj : GlpiService) (w : World) :
  token_auth_ <> PNone ->
  username_ <> PNone \/ password_ <> PNone ->
  exists e obj',
    Service.__init__ url_apirest token_app uri_ username_ password_
      token_auth_ use_vcap_services vcap_services_name sslverify_ writable_
      obj w = (Raise e, obj', w)
    /\ e = GlpiInvalidArgument
             "Cannot set token_auth and username and password together"
    /\ is_GlpiException e = true
    /\ session obj' = PNone
    /\ forall (S : Type) (st : S),
         Service.new url_apirest token_app uri_ username_ password_
           token_auth_ use_vcap_services vcap_services_name sslverify_
           writable_ st w = (Raise e, st, w).
Proof.
  intros Htok Hcred.
  apply is_None_false in Htok.
  assert (Hc : (negb (is_None username_) || negb (is_None password_))%bool = true).
  { destruct Hcred as [Hu|Hp]; [apply is_None_false in Hu; rewrite Hu
                                | apply is_None_false in Hp; rewrite Hp];
      simpl; [reflexivity | apply orb_true_r]. }
  eexists _, _. split; [|split; [reflexivity|split; [reflexivity|split]]].
  - unfold Service.__init__. unfold_monad. rewrite Htok, Hc. simpl. reflexivity.
  - reflexivity.
  - intros S st. unfold Service.new, Service.__init__. unfold_monad.
    rewrite Htok, Hc. simpl. reflexivity.
Qed.

(** A stored token is returned as it is: the object and the world do not
    change, so no request is issued. *)
Lemma get_session_token_stored (s : GlpiService) (w : World) :
  session s <> PNone ->
  Service.get_session_token s w = (Ok (session s), s, w).
Proof.
  intros Hs. apply is_None_false in Hs.
  unfold Service.get_session_token. unfold_monad. rewrite Hs. reflexivity.
Qed.

(** A successful [initSession]: one request, the token of the answer stored. *)
Lemma set_session_token_accepted (s : GlpiService) (w : World) u resp body tok :
  url s = PStr u ->
  http_server (http_log w) (initSession_request s u) = Some resp ->
  status_code resp = 200 ->
  json_body resp = Some body ->
  getitem body (PStr "session_token") = Ok tok ->
  Service.set_session_token s w
    = (Ok true, Service.with_session s tok,
       add_request w (initSession_request s u)).
Proof.
  intros Hu Hsrv Hst Hj Htok.
  unfold Service.set_session_token, requests_request, initSession_request in *.
  unfold_monad. rewrite Hu.
  destruct (writable s); rewrite Hsrv; cbv beta iota; rewrite Hst;
    unfold json; rewrite Hj; cbv beta iota; rewrite Htok; reflexivity.
Qed.

(** C2. Once a token is stored, any number of calls of [get_session_token]
    in a row return that token and leave the client and the world (so the
    request log) unchanged.  With no token stored, [get_session_token]
    performs [set_session_token]: when the server answers the
    [initSession] request with status 200 and a JSON body holding
    [session_token], that one request is issued, the token is stored and
    it is the value returned. *)
Theorem get_session_token_lazy_and_cached (s : GlpiService) (w : World) :
  (session s <> PNone ->
   forall n : nat,
     get_session_token_times n s w = (Ok (repeat (session s) n), s, w))
  /\ (session s = PNone ->
      forall u resp body tok,
        url s = PStr u ->
        http_server (http_log w) (initSession_request s u) = Some resp ->
        status_code resp = 200 ->
        json_body resp = Some body ->
        getitem body (PStr "session_token") = Ok tok ->
        Service.get_session_token s w
          = (Ok tok, Service.with_session s tok,
             add_request w (initSession_request s u))
        /\ session (Service.with_session s tok) = tok).
Proof.
  split.
  - intros Hs n. induction n as [|n IH]; [reflexivity|].
    simpl. rewrite (bind_Ok _ _ _ _ _ _ _ (get_session_token_stored s w Hs)).
    rewrite (bind_Ok _ _ _ _ _ _ _ IH). reflexivity.
  - intros Hs u resp body tok Hu Hsrv Hst Hj Htok. split; [|reflexivity].
    unfold Service.get_session_token.
    apply is_None_true in Hs.
    rewrite (bind_Ok _ _ s w s s w eq_refl). rewrite Hs. cbn [negb].
    rewrite try_except_Glpi_reraise.
    rewrite (bind_Ok _ _ _ _ _ _ _
               (set_session_token_accepted s w u resp body tok Hu Hsrv Hst Hj Htok)).
    reflexivity.
Qed.

End ServiceFacts.

(** ** The item map *)

Lemma split_aux_cons (sep : ascii) (s cur : string) :
  exists x l, PyString.split_aux sep cur s = x :: l.
Proof.
  revert cur. induction s as [|c s IH]; intros cur; simpl.
  - eauto.
  - destruct (Ascii.eqb c sep); [eauto | apply IH].
Qed.

Lemma startswith_slash (s : string) :
  PyString.startswith s "/" = true -> exists rest, s = String "/"%char rest.
Proof.
  destruct s as [|c rest]; cbn [PyString.startswith]; [discriminate|].
  rewrite andb_true_r. intros Hc. apply Ascii.eqb_eq in Hc. subst c. eauto.
Qed.

(** A name that starts with a slash always has a second segment. *)
Lemma split_second (s : string) :
  PyString.startswith s "/" = true ->
  exists r, nth_error (PyString.split "/"%char s) 1 = Some r.
Proof.
  intros Hs. destruct (startswith_slash s Hs) as [rest ->].
  unfold PyString.split. simpl.
  destruct (split_aux_cons "/"%char rest EmptyString) as (x & l & ->).
  simpl. eauto.
Qed.


Section ItemMap.
Implicit Types (g : GLPI) (w : World) (m : gmap string string).

(** What [update_uri] does when the router has a service object. *)
Lemma update_uri_run g w svc item_name :
  api_rest g = Some svc ->
  Router.update_uri item_name g w = (Ok tt, after_update_uri g item_name svc, w).
Proof.
  intros Hsvc. destruct g as [u a t sv wr iu m ar ss]. simpl in Hsvc. subst ar.
  unfold Router.update_uri, after_update_uri, item_map_after,
    Router.set_item, Router.set_api_uri, Service.set_uri, registered_key,
    registered_path.
  unfold_monad. cbn [item_map].
  destruct (m !! item_name) as [p|] eqn:Hm.
  - cbn [item_map]. rewrite Hm. reflexivity.
  - destruct (PyString.startswith item_name "/") eqn:Hs.
    + destruct (split_second item_name Hs) as [r ->].
      cbn [item_map Router.with_item_map]. rewrite !lookup_insert_eq.
      reflexivity.
    + cbn [item_map Router.with_item_map]. rewrite !lookup_insert_eq.
      reflexivity.
Qed.

(** The map after [update_uri], whether it succeeds or not. *)
Lemma update_uri_item_map g w item_name :
  item_map (snd (fst (Router.update_uri item_name g w)))
    = item_map_after (item_map g) item_name.
Proof.
  destruct (api_rest g) as [svc|] eqn:Hsvc.
  - rewrite (update_uri_run g w svc item_name Hsvc). reflexivity.
  - destruct g as [u a t sv wr iu m ar ss]. simpl in Hsvc. subst ar.
    unfold Router.update_uri, item_map_after, Router.set_item,
      Router.set_api_uri, registered_key, registered_path.
    unfold_monad. cbn [item_map].
    destruct (m !! item_name) as [p|] eqn:Hm.
    + cbn [item_map]. rewrite Hm. reflexivity.
    + destruct (PyString.startswith item_name "/") eqn:Hs.
      * destruct (split_second item_name Hs) as [r ->].
        cbn [item_map Router.with_item_map]. rewrite !lookup_insert_eq.
        reflexivity.
      * cbn [item_map Router.with_item_map]. rewrite !lookup_insert_eq.
        reflexivity.
Qed.


Lemma item_map_after_present m item_name :
  is_Some (m !! item_name) -> item_map_after m item_name = m.
Proof. intros [p Hp]. unfold item_map_after. rewrite Hp. reflexivity. Qed.

Lemma item_map_after_other m item_name k :
  k <> registered_key item_name ->
  item_map_after m item_name !! k = m !! k.
Proof.
  intros Hk. unfold item_map_after.
  destruct (m !! item_name); [reflexivity|].
  apply lookup_insert_ne. congruence.
Qed.

Lemma item_map_after_keeps_keys m item_name k :
  is_Some (m !! k) -> is_Some (item_map_after m item_name !! k).
Proof.
  intros Hk. unfold item_map_after.
  destruct (m !! item_name); [assumption|].
  destruct (decide (registered_key item_name = k)) as [->|Hne].
  - rewrite lookup_insert_eq. eauto.
  - rewrite lookup_insert_ne; assumption.
Qed.


(** C10, as the code has it.  [update_uri] never removes a key, and it
    touches no binding other than that of the key it registers.  Called
    with a name that is in the map it changes nothing, and called with a
    name that has no leading slash it leaves every existing binding as it
    was.  Called with an absent name that starts with a slash it binds the
    segment after that slash to the whole name, whether or not the segment
    was bound before. *)
Theorem update_uri_keeps_bindings g w item_name r g' w' :
  Router.update_uri item_name g w = (r, g', w') ->
  (forall k, is_Some (item_map g !! k) -> is_Some (item_map g' !! k))
  /\ (forall k, k <> registered_key item_name ->
                item_map g' !! k = item_map g !! k)
  /\ (is_Some (item_map g !! item_name) -> item_map g' = item_map g)
  /\ (PyString.startswith item_name "/" = false ->
      forall k p, item_map g !! k = Some p -> item_map g' !! k = Some p)
  /\ (PyString.startswith item_name "/" = true ->
      item_map g !! item_name = None ->
      item_map g' !! registered_key item_name = Some item_name).
Proof.
  intros Hrun.
  pose proof (update_uri_item_map g w item_name) as Hmap.
  rewrite Hrun in Hmap. cbn [fst snd] in Hmap. rewrite Hmap.
  split; [|split; [|split; [|split]]].
  - intros k. apply item_map_after_keeps_keys.
  - intros k. apply item_map_after_other.
  - apply item_map_after_present.
  - intros Hs k p Hk. unfold item_map_after.
    destruct (item_map g !! item_name) eqn:Hn; [exact Hk|].
    unfold registered_key. rewrite Hs.
    rewrite lookup_insert_ne; [exact Hk|]. congruence.
  - intros Hs Hn. unfold item_map_after. rewrite Hn.
    unfold registered_path. rewrite Hs. apply lookup_insert_eq.
Qed.

End ItemMap.

(** ** The search engine *)

Lemma getitem_dict (d : list (string * PyVal)) (k : string) :
  getitem (PDict d) (PStr k)
  = match dict_get d k with Some x => Ok x | None => Raise (KeyError k) end.
Proof. reflexivity. Qed.

Section SearchEngine.
Context `{Platform}.

(** A round of the loop on a well-formed criterion either goes through or
    stops on a [LookupError]. *)
Lemma search_engine_step_well_formed (c : PyVal) (acc : Z * string) :
  well_formed_criterion c = true ->
  (exists acc', Router.search_engine_step acc c = Ok acc')
  \/ (exists e, Router.search_engine_step acc c = Raise e
                /\ is_LookupError e = true).
Proof.
  destruct c as [| | | | |d| |]; try discriminate. intros Hwf.
  unfold well_formed_criterion in Hwf. destruct acc as [s_index uri_query].
  unfold Router.search_engine_step. rewrite !getitem_dict.
  destruct (dict_get d "field") as [f|]; cbn [res_bind];
    [|right; eexists; split; reflexivity].
  destruct f as [| | |f| | | |]; try discriminate.
  unfold Router.field_code.
  destruct (dict_get Router.field_map f); cbn [res_bind];
    [|right; eexists; split; reflexivity].
  destruct (dict_get d "value"); cbn [res_bind];
    [|right; eexists; split; reflexivity].
  destruct (dict_get d "searchtype"); cbn [res_bind];
    [|right; eexists; split; reflexivity].
  destruct (dict_get d "link"); cbn [res_bind];
    [|right; eexists; split; reflexivity].
  left. eexists. reflexivity.
Qed.

(** On a criterion with an unmapped field name the round stops on a
    [KeyError]. *)
Lemma search_engine_step_unmapped (c : PyVal) (acc : Z * string) :
  unmapped_field c = true ->
  exists f, Router.search_engine_step acc c = Raise (KeyError f).
Proof.
  destruct c as [| | | | |d| |]; try discriminate. intros Hbad.
  unfold unmapped_field in Hbad. destruct acc as [s_index uri_query].
  unfold Router.search_engine_step. rewrite getitem_dict.
  destruct (dict_get d "field") as [f|]; [|discriminate].
  destruct f as [| | |f| | | |]; try discriminate.
  cbn [res_bind]. unfold Router.field_code.
  destruct (dict_get Router.field_map f); [discriminate|].
  exists f. reflexivity.
Qed.

Lemma search_engine_loop_stops (cs : list PyVal) :
  forallb well_formed_criterion cs = true ->
  existsb unmapped_field cs = true ->
  forall acc, exists e,
    fold_res cs Router.search_engine_step acc = Raise e
    /\ is_LookupError e = true.
Proof.
  induction cs as [|c cs IH]; [discriminate|].
  cbn [forallb existsb fold_res]. intros Hwf Hbad acc.
  apply andb_true_iff in Hwf as [Hc Hcs].
  destruct (unmapped_field c) eqn:Hu.
  - destruct (search_engine_step_unmapped c acc Hu) as [f ->].
    eexists. split; reflexivity.
  - cbn [orb] in Hbad.
    destruct (search_engine_step_well_formed c acc Hc) as [[acc' ->]|(e & -> & He)].
    + apply IH; assumption.
    + exists e. split; [reflexivity | exact He].
Qed.

(** C5. When the criteria list holds a criterion whose field name is not
    in the static table, [search_engine] raises a [LookupError] (a
    [KeyError]) while it builds the query: the router and the world are
    as before, so no session was initialised and no request was issued. *)
Theorem search_engine_unmapped_field (g : GLPI) (w : World)
    (item_name : string) (criteria : PyVal) (cs : list PyVal) :
  getitem criteria (PStr "criteria") = Ok (PList cs) ->
  forallb well_formed_criterion cs = true ->
  existsb unmapped_field cs = true ->
  exists e,
    Router.search_engine item_name criteria g w = (Raise e, g, w)
    /\ is_LookupError e = true.
Proof.
  intros Hcrit Hwf Hbad.
  destruct (search_engine_loop_stops cs Hwf Hbad (0, item_name +:+ "?"))
    as (e & Hloop & He).
  exists e. split; [|exact He].
  unfold Router.search_engine, Router.search_engine_query.
  rewrite Hcrit. cbn [res_bind iterate]. rewrite Hloop.
  reflexivity.
Qed.

End SearchEngine.

(** ** The query string of [get_all] *)

Lemma append_assoc (a b c : string) : (a +:+ b) +:+ c = a +:+ (b +:+ c).
Proof.
  induction a as [|x a IH]; [reflexivity|].
  change (String x ((a +:+ b) +:+ c) = String x (a +:+ (b +:+ c))).
  rewrite IH. reflexivity.
Qed.

Lemma append_empty_r (a : string) : a +:+ "" = a.
Proof.
  induction a as [|x a IH]; [reflexivity|].
  change (String x (a +:+ "") = String x a). rewrite IH. reflexivity.
Qed.

Section GetAllQuery.
Context `{Platform}.

Lemma get_all_query_loop (pairs : list (string * string)) (i : Z) (q : string) :
  fold_res
    (map (fun fv => PDict [("field", PStr (fst fv)); ("value", PStr (snd fv))])
         pairs)
    (fun (acc : Z * string) c =>
       let '(s_index, uri_query) := acc in
       let uri := if s_index =? 0 then "" else "&" in
       res_bind (getitem c (PStr "field")) (fun f =>
       res_bind (getitem c (PStr "value")) (fun v =>
       let uri_query :=
         uri_query +:+ "searchText[" +:+ py_str f +:+ "]=" +:+ py_str v in
       Ok (s_index + 1, uri_query))))
    (i, q)
  = Ok (i + Z.of_nat (length pairs),
        q +:+ join_strings (map searchText_pair pairs)).
Proof.
  revert i q. induction pairs as [|[f v] pairs IH]; intros i q.
  - cbn [map fold_res length join_strings fold_right].
    rewrite append_empty_r. f_equal. f_equal. lia.
  - cbn [map fold_res]. rewrite !getitem_dict.
    cbn [dict_get String.eqb Ascii.eqb Bool.eqb fst snd res_bind py_str].
    change (dict_get [("field", PStr f); ("value", PStr v)] "field")
      with (Some (PStr f)).
    change (dict_get [("field", PStr f); ("value", PStr v)] "value")
      with (Some (PStr v)).
    cbn [res_bind py_str]. rewrite IH.
    cbn [length join_strings fold_right map].
    unfold searchText_pair at 2. cbn [fst snd].
    rewrite !append_assoc.
    f_equal. f_equal. lia.
Qed.

(** Whatever the pairs, the query is the question mark followed by the
    pairs one after the other, with nothing between them. *)
Lemma get_all_query_concatenates (pairs : list (string * string)) :
  Router.get_all_query (searchText_of pairs)
  = Ok ("?" +:+ join_strings (map searchText_pair pairs)).
Proof.
  unfold Router.get_all_query, searchText_of.
  cbn [is_None negb]. rewrite getitem_dict.
  change (dict_get [("criteria", ?x)] "criteria") with (Some x).
  cbn [res_bind iterate]. rewrite get_all_query_loop. reflexivity.
Qed.

Lemma get_all_query_default : Router.get_all_query PNone = Ok "?range=0-5000".
Proof. reflexivity. Qed.

End GetAllQuery.

(** C7, evaluated.  With no [searchText], [get_all] sends its GET to
    [<uri>?range=0-5000].  With the two criteria (name, a) and (id, 1) the
    query string it builds is [?searchText[name]=asearchText[id]=1]: the
    pairs follow one another with no ["&"] between them, and that is the
    URL requested. *)
Theorem get_all_query_strings :
  urls_requested
    (@Router.get_all Demo.up "ticket" false PNone Demo.router1 Demo.world0)
    = ["http://glpi/apirest.php/Ticket?range=0-5000"]
  /\ @Router.get_all_query Demo.up (searchText_of [("name", "a"); ("id", "1")])
     = Ok "?searchText[name]=asearchText[id]=1"
  /\ urls_requested
       (@Router.get_all Demo.up "ticket" false
          (searchText_of [("name", "a"); ("id", "1")])
          Demo.router1 Demo.world0)
     = ["http://glpi/apirest.php/Ticket?searchText[name]=asearchText[id]=1"]
  /\ @Router.get_all_query Demo.up (searchText_of [("name", "a"); ("id", "1")])
     <> Ok "?searchText[name]=a&searchText[id]=1".
Proof.
  split; [vm_compute; reflexivity|].
  split; [vm_compute; reflexivity|].
  split; [vm_compute; reflexivity|].
  vm_compute. discriminate.
Qed.

(** ** Session failures under the router *)

(** What the values' own operations raise is never a [GlpiException]. *)
Lemma getitem_not_Glpi (v k : PyVal) (e : PyExn) :
  getitem v k = Raise e -> is_GlpiException e = false.
Proof.
  unfold getitem. intros E.
  repeat match type of E with
         | context [match ?x with _ => _ end] => destruct x
         | context [if ?x then _ else _] => destruct x
         end;
    inversion E; reflexivity.
Qed.

Lemma iterate_not_Glpi (v : PyVal) (e : PyExn) :
  iterate v = Raise e -> is_GlpiException e = false.
Proof. destruct v; simpl; intros E; inversion E; reflexivity. Qed.

Lemma field_code_not_Glpi (v : PyVal) (e : PyExn) :
  Router.field_code v = Raise e -> is_GlpiException e = false.
Proof.
  unfold Router.field_code. intros E.
  repeat match type of E with
         | context [match ?x with _ => _ end] => destruct x
         end;
    inversion E; reflexivity.
Qed.

Lemma fold_res_not_Glpi {A B} (body : A -> B -> Res A) (l : list B) :
  (forall acc x e, body acc x = Raise e -> is_GlpiException e = false) ->
  forall acc e, fold_res l body acc = Raise e -> is_GlpiException e = false.
Proof.
  intros Hbody. induction l as [|x l IH]; intros acc e; cbn [fold_res].
  - discriminate.
  - destruct (body acc x) as [acc'|e'] eqn:Hb.
    + apply IH.
    + intros [= <-]. eapply Hbody. exact Hb.
Qed.

Lemma res_bind_not_Glpi {A B} (r : Res A) (k : A -> Res B) (e : PyExn) :
  (forall e, r = Raise e -> is_GlpiException e = false) ->
  (forall a e, k a = Raise e -> is_GlpiException e = false) ->
  res_bind r k = Raise e -> is_GlpiException e = false.
Proof.
  intros Hr Hk. destruct r as [a|e']; cbn [res_bind].
  - apply Hk.
  - intros [= <-]. apply Hr. reflexivity.
Qed.

Section RouterCatch.
Context `{Platform}.

Lemma get_all_query_not_Glpi (searchText : PyVal) (e : PyExn) :
  Router.get_all_query searchText = Raise e -> is_GlpiException e = false.
Proof.
  unfold Router.get_all_query.
  destruct (negb (is_None searchText)); [|discriminate].
  apply res_bind_not_Glpi; [apply getitem_not_Glpi|]. intros crit e1.
  apply res_bind_not_Glpi; [apply iterate_not_Glpi|]. intros cs e2.
  apply res_bind_not_Glpi; [|discriminate]. intros e3.
  apply fold_res_not_Glpi. intros [s_index uri_query] c e4.
  apply res_bind_not_Glpi; [apply getitem_not_Glpi|]. intros f e5.
  apply res_bind_not_Glpi; [apply getitem_not_Glpi|]. discriminate.
Qed.

Lemma search_engine_query_not_Glpi (item_name : string) (criteria : PyVal)
    (e : PyExn) :
  Router.search_engine_query item_name criteria = Raise e ->
  is_GlpiException e = false.
Proof.
  unfold Router.search_engine_query.
  apply res_bind_not_Glpi; [apply getitem_not_Glpi|]. intros crit e1.
  apply res_bind_not_Glpi; [apply iterate_not_Glpi|]. intros cs e2.
  apply res_bind_not_Glpi; [|discriminate]. intros e3.
  apply fold_res_not_Glpi. intros [s_index uri_query] c e4.
  unfold Router.search_engine_step.
  apply res_bind_not_Glpi; [apply getitem_not_Glpi|]. intros f e5.
  apply res_bind_not_Glpi; [apply field_code_not_Glpi|]. intros code e6.
  apply res_bind_not_Glpi; [apply getitem_not_Glpi|]. intros v e7.
  apply res_bind_not_Glpi; [apply getitem_not_Glpi|]. intros t e8.
  apply res_bind_not_Glpi; [apply getitem_not_Glpi|]. discriminate.
Qed.

(** An operation that ends with the router's handler lets no
    [GlpiException] out, and what it returns for one is the set holding the
    message, never a dictionary. *)
Lemma handler_catches (m : M GLPI PyVal) g w r g' w' :
  try_except_Glpi m Router.on_GlpiException g w = (r, g', w') ->
  (forall e, r = Raise e -> is_GlpiException e = false)
  /\ (forall e g1 w1, m g w = (Raise e, g1, w1) -> is_GlpiException e = true ->
       r = Ok (PSet [PStr (exn_str e)])).
Proof.
  intros E. split.
  - apply try_except_Glpi_inv in E
      as [(a & _ & ->)|[(e & _ & -> & He)|(e & g1 & w1 & _ & _ & Eh)]].
    + discriminate.
    + intros e' [= <-]. exact He.
    + unfold Router.on_GlpiException, ret in Eh. inversion Eh. discriminate.
  - intros e g1 w1 Em He.
    rewrite (try_except_Glpi_caught _ _ _ _ _ _ _ Em He) in E.
    unfold Router.on_GlpiException, ret in E. inversion E. reflexivity.
Qed.

(** No [GlpiException] leaves any of the operations that carry the handler. *)
Lemma no_GlpiException_escapes g w r g' w' :
  (forall name data, Router.create name data g w = (r, g', w') ->
     forall e, r = Raise e -> is_GlpiException e = false)
  /\ (forall name expand st, Router.get_all name expand st g w = (r, g', w') ->
     forall e, r = Raise e -> is_GlpiException e = false)
  /\ (forall name id expand, Router.get name id expand g w = (r, g', w') ->
     forall e, r = Raise e -> is_GlpiException e = false)
  /\ (forall name, Router.search_options name g w = (r, g', w') ->
     forall e, r = Raise e -> is_GlpiException e = false)
  /\ (forall name crit, Router.search_engine name crit g w = (r, g', w') ->
     forall e, r = Raise e -> is_GlpiException e = false)
  /\ (forall name data, Router.update name data g w = (r, g', w') ->
     forall e, r = Raise e -> is_GlpiException e = false)
  /\ (forall name id purge, Router.delete name id purge g w = (r, g', w') ->
     forall e, r = Raise e -> is_GlpiException e = false).
Proof.
  repeat split; intros.
  - eapply handler_catches; eassumption.
  - unfold Router.get_all in *.
    match goal with E : bind _ _ _ _ = _ |- _ =>
      apply bind_inv in E as [(q & g1 & w1 & E1 & E)|(e' & E1 & ->)] end.
    + eapply handler_catches; eassumption.
    + match goal with E : Raise _ = Raise _ |- _ => injection E as <- end.
      unfold lift_res in E1.
      destruct (Router.get_all_query st) as [q|e0] eqn:Hq;
        unfold ret, raise in E1; inversion E1; subst.
      eapply get_all_query_not_Glpi. exact Hq.
  - eapply handler_catches; eassumption.
  - eapply handler_catches; eassumption.
  - unfold Router.search_engine in *.
    match goal with E : bind _ _ _ _ = _ |- _ =>
      apply bind_inv in E as [(q & g1 & w1 & E1 & E)|(e' & E1 & ->)] end.
    + eapply handler_catches; eassumption.
    + match goal with E : Raise _ = Raise _ |- _ => injection E as <- end.
      unfold lift_res in E1.
      destruct (Router.search_engine_query name crit) as [q|e0] eqn:Hq;
        unfold ret, raise in E1; inversion E1; subst.
      eapply search_engine_query_not_Glpi. exact Hq.
  - eapply handler_catches; eassumption.
  - eapply handler_catches; eassumption.
Qed.

End RouterCatch.

(** C1, evaluated.  On a router whose [initSession] is refused (status 401,
    with a body the parser takes), each of [create], [get_all], [get],
    [search_options], [search_engine], [update] and [delete] catches the
    [GlpiException] and returns the set holding its message, which is not a
    dictionary and has no ["message_error"] key; [search] hands that set to
    [search_criteria], which raises a [TypeError] on its element.  The same
    on a router that was given no application token, whatever the server:
    the constructor of the service object raises the [GlpiException], no
    request is issued, and each operation returns the set holding its
    message.  And where the parser refuses the body of the refusal (a body
    of bytes), no [GlpiException] is raised at all: the parser's
    [TypeError] leaves each operation. *)
Theorem session_failure_results :
  let msg := "ERROR when try to init session in GLPI"
             +:+ PyString.spaces 32 +:+ "server:['Unauthorized']" in
  let caught := Ok (PSet [PStr msg]) in
  let crit := PDict [("criteria",
                PList [PDict [("field", PStr "name"); ("value", PStr "server");
                              ("searchtype", PStr "contains");
                              ("link", PStr "AND")]])] in
  result_of (@Router.create Demo.down "ticket" (Some [("name", PStr "x")])
               Demo.router0 Demo.world0) = caught
  /\ result_of (@Router.get_all Demo.down "ticket" false PNone
                  Demo.router0 Demo.world0) = caught
  /\ result_of (@Router.get Demo.down "ticket" (PInt 1) false
                  Demo.router0 Demo.world0) = caught
  /\ result_of (@Router.search_options Demo.down "Ticket"
                  Demo.router0 Demo.world0) = caught
  /\ result_of (@Router.search_engine Demo.down "Ticket" crit
                  Demo.router0 Demo.world0) = caught
  /\ result_of (@Router.update Demo.down "ticket"
                  [("id", PInt 1); ("name", PStr "x")]
                  Demo.router0 Demo.world0) = caught
  /\ result_of (@Router.delete Demo.down "ticket" (PInt 1) false
                  Demo.router0 Demo.world0) = caught
  /\ result_of (@Router.search Demo.down "ticket" crit false
                  Demo.router0 Demo.world0) = Raise TypeError
  /\ isinstance_dict (PSet [PStr msg]) = false
  /\ getitem (PSet [PStr msg]) (PStr "message_error") = Raise TypeError
  /\ (let g := Demo.router_without_app_token in
      let told :=
        (Ok (PSet [PStr ("You must specify GLPI API-Token(app_token) "
                         +:+ "to make API calls")]),
         g, Demo.world0) in
      @Router.create Demo.up "ticket" (Some [("name", PStr "x")])
        g Demo.world0 = told
      /\ @Router.get_all Demo.up "ticket" false PNone g Demo.world0 = told
      /\ @Router.get Demo.up "ticket" (PInt 1) false g Demo.world0 = told
      /\ @Router.search_options Demo.up "Ticket" g Demo.world0 = told
      /\ @Router.search_engine Demo.up "Ticket" crit g Demo.world0 = told
      /\ @Router.update Demo.up "ticket" [("id", PInt 1); ("name", PStr "x")]
           g Demo.world0 = told
      /\ @Router.delete Demo.up "ticket" (PInt 1) false g Demo.world0 = told
      /\ result_of (@Router.search Demo.up "ticket" crit false g Demo.world0)
         = Raise TypeError)
  /\ (let escaped := Raise TypeError in
      result_of (@Router.create Demo.down_bytes "ticket"
                   (Some [("name", PStr "x")]) Demo.router0 Demo.world0)
      = escaped
      /\ result_of (@Router.get_all Demo.down_bytes "ticket" false PNone
                      Demo.router0 Demo.world0) = escaped
      /\ result_of (@Router.get Demo.down_bytes "ticket" (PInt 1) false
                      Demo.router0 Demo.world0) = escaped
      /\ result_of (@Router.search_options Demo.down_bytes "Ticket"
                      Demo.router0 Demo.world0) = escaped
      /\ result_of (@Router.search_engine Demo.down_bytes "Ticket" crit
                      Demo.router0 Demo.world0) = escaped
      /\ result_of (@Router.update Demo.down_bytes "ticket"
                      [("id", PInt 1); ("name", PStr "x")]
                      Demo.router0 Demo.world0) = escaped
      /\ result_of (@Router.delete Demo.down_bytes "ticket" (PInt 1) false
                      Demo.router0 Demo.world0) = escaped
      /\ result_of (@Router.search Demo.down_bytes "ticket" crit false
                      Demo.router0 Demo.world0) = escaped).
Proof. vm_compute. repeat split. Qed.

(** ** [get] with an id that is not an integer *)


Section RouterGet.
Context `{Platform}.









End RouterGet.

(** ** Client-side search *)

Lemma append_cons (c : ascii) (a b : string) :
  String c a +:+ b = String c (a +:+ b).
Proof. reflexivity. Qed.

Lemma startswith_spec (s p : string) :
  PyString.startswith s p = true <-> exists post, s = p +:+ post.
Proof.
  revert s. induction p as [|a p IH]; intros s; cbn [PyString.startswith].
  - split; [intros _; exists s; reflexivity | reflexivity].
  - destruct s as [|b s].
    + split; [discriminate | intros [post Hp]; discriminate Hp].
    + rewrite andb_true_iff, Ascii.eqb_eq, IH. split.
      * intros [-> [post ->]]. exists post. reflexivity.
      * intros [post Hp]. rewrite append_cons in Hp.
        injection Hp as -> ->. eauto.
Qed.

Lemma contains_spec (sub s : string) :
  PyString.contains sub s = true <-> exists pre post, s = pre +:+ sub +:+ post.
Proof.
  induction s as [|c s IH]; cbn [PyString.contains];
    rewrite orb_true_iff, startswith_spec.
  - split.
    + intros [[post Hp]|Hf]; [|discriminate]. exists "", post. exact Hp.
    + intros (pre & post & Hp). left.
      destruct pre as [|x pre]; [|discriminate Hp]. exists post. exact Hp.
  - rewrite IH. split.
    + intros [[post Hp]|(pre & post & ->)].
      * exists "", post. exact Hp.
      * exists (String c pre), post. reflexivity.
    + intros (pre & post & Hp). destruct pre as [|x pre].
      * left. exists post. exact Hp.
      * right. rewrite append_cons in Hp. injection Hp as -> ->. eauto.
Qed.

Section Search.
Context `{Platform}.

(** The test the code makes is the case-insensitive substring relation. *)
Lemma contains_lower_spec (v x : string) :
  PyString.contains (str_lower v) (str_lower x) = true <-> ci_substring v x.
Proof. rewrite contains_spec. reflexivity. Qed.

Lemma record_selected_b_spec (cs : list PyVal) (d : PyVal) :
  record_selected_b cs d = true <-> record_selected cs d.
Proof.
  unfold record_selected_b, record_selected. rewrite existsb_exists. split.
  - intros (c & Hin & Hc).
    destruct (criterion_field_value c) as [[f v]|] eqn:Hfv; [|discriminate].
    destruct (record_field d f) as [x|] eqn:Hx; [|discriminate].
    exists c, f, v, x. rewrite <- contains_lower_spec. auto.
  - intros (c & f & v & x & Hin & Hfv & Hx & Hsub).
    exists c. split; [exact Hin|]. rewrite Hfv, Hx.
    apply contains_lower_spec. exact Hsub.
Qed.

Lemma criterion_matches_run (d c : PyVal) f v x :
  criterion_field_value c = Some (f, v) ->
  record_field d f = Some x ->
  Router.criterion_matches d c
  = Ok (PyString.contains (str_lower v) (str_lower x)).
Proof.
  intros Hc Hd. unfold criterion_field_value in Hc. unfold record_field in Hd.
  destruct c as [| | | | |dc| |]; try discriminate.
  destruct (dict_get dc "field") as [[| | |f'| | | |]|] eqn:Hf; try discriminate.
  destruct (dict_get dc "value") as [[| | |v'| | | |]|] eqn:Hv; try discriminate.
  injection Hc as -> ->.
  destruct d as [| | | | |r| |]; try discriminate.
  destruct (dict_get r f) as [[| | |x'| | | |]|] eqn:Hx; try discriminate.
  injection Hd as ->.
  unfold Router.criterion_matches. rewrite !getitem_dict, Hv, Hf.
  cbn [res_bind lower_method]. rewrite getitem_dict, Hx. reflexivity.
Qed.

(** The inner loop: [find] ends up true exactly when some criterion hits. *)
Lemma search_criteria_inner (cs : list PyVal) (d : PyVal) (find : bool) :
  criteria_apply_to cs d = true ->
  fold_res cs
    (fun find c =>
       res_bind (Router.criterion_matches d c) (fun hit =>
       Ok (if hit then true else find)))
    find
  = Ok (find || record_selected_b cs d)%bool.
Proof.
  revert find. induction cs as [|c cs IH]; intros find Hwf.
  - cbn [fold_res record_selected_b existsb]. rewrite orb_false_r. reflexivity.
  - unfold criteria_apply_to in Hwf. cbn [forallb] in Hwf.
    apply andb_true_iff in Hwf as [Hc Hcs].
    destruct (criterion_field_value c) as [[f v]|] eqn:Hfv; [|discriminate].
    destruct (record_field d f) as [x|] eqn:Hx; [|discriminate].
    cbn [fold_res]. rewrite (criterion_matches_run d c f v x Hfv Hx).
    cbn [res_bind]. rewrite (IH _ Hcs).
    unfold record_selected_b. cbn [existsb]. rewrite Hfv, Hx.
    destruct (PyString.contains (str_lower v) (str_lower x)), find;
      reflexivity.
Qed.

(** The outer loop keeps the selected records, in their order. *)
Lemma search_criteria_outer (cs ds : list PyVal) (result : list PyVal) :
  forallb (criteria_apply_to cs) ds = true ->
  fold_res ds
    (fun result d =>
       res_bind (iterate (PList cs)) (fun cs =>
       res_bind
         (fold_res cs
            (fun find c =>
               res_bind (Router.criterion_matches d c) (fun hit =>
               Ok (if hit then true else find)))
            false)
         (fun find => Ok (if find then (result ++ [d])%list else result))))
    result
  = Ok (result ++ List.filter (record_selected_b cs) ds)%list.
Proof.
  revert result. induction ds as [|d ds IH]; intros result Hwf.
  - cbn [fold_res List.filter]. rewrite app_nil_r. reflexivity.
  - cbn [forallb] in Hwf. apply andb_true_iff in Hwf as [Hd Hds].
    cbn [fold_res iterate res_bind].
    rewrite (search_criteria_inner cs d false Hd). cbn [res_bind orb].
    rewrite (IH _ Hds). cbn [List.filter].
    destruct (record_selected_b cs d); [|reflexivity].
    rewrite <- app_assoc. reflexivity.
Qed.

Lemma search_criteria_run (cs ds : list PyVal) :
  forallb (criteria_apply_to cs) ds = true ->
  Router.search_criteria (PList ds) (PList cs)
  = Ok (PList (List.filter (record_selected_b cs) ds)).
Proof.
  intros Hwf. pose proof (search_criteria_outer cs ds [] Hwf) as Hloop.
  unfold Router.search_criteria. cbn [iterate res_bind] in *.
  rewrite Hloop. reflexivity.
Qed.

(** C4, as the code has it.  When [get_all] delivers a list of records and
    every criterion is a (field, value) pair of strings whose field every
    record holds as a string, [search] with a ["criteria"] key returns, in
    their order, exactly the records in which the value of at least one
    criterion is a case-insensitive substring of the field that criterion
    names. *)
Theorem search_by_criteria (g : GLPI) (w : World) (item_name : string)
    (expand : bool) (criteria : PyVal) (cs ds : list PyVal)
    (g' : GLPI) (w' : World) :
  Router.has_key criteria "criteria" = Ok true ->
  getitem criteria (PStr "criteria") = Ok (PList cs) ->
  Router.get_all item_name expand PNone g w = (Ok (PList ds), g', w') ->
  forallb (criteria_apply_to cs) ds = true ->
  Router.search item_name criteria expand g w
    = (Ok (PList (List.filter (record_selected_b cs) ds)), g', w')
  /\ forall d, In d (List.filter (record_selected_b cs) ds)
               <-> In d ds /\ record_selected cs d.
Proof.
  intros Hkey Hcrit Hall Hwf. split.
  - unfold Router.search. rewrite Hkey. cbn [lift_res].
    rewrite (bind_Ok _ _ g w true g w eq_refl).
    rewrite (bind_Ok _ _ _ _ _ _ _ Hall).
    rewrite Hcrit. cbn [lift_res].
    rewrite (bind_Ok _ _ g' w' (PList cs) g' w' eq_refl).
    rewrite (search_criteria_run cs ds Hwf). reflexivity.
  - intros d. rewrite filter_In, record_selected_b_spec. reflexivity.
Qed.

End Search.

(** * The headers of a request *)

Section Headers.
Context `{Platform}.

Lemma ci_get_ci_set (h : list (string * PyVal)) (k k' : string) (v : PyVal) :
  ci_get (ci_set h k v) k'
  = if String.eqb (str_lower k) (str_lower k') then Some v else ci_get h k'.
Proof.
  induction h as [|[k0 v0] h IH]; cbn [ci_set ci_get]; [reflexivity|].
  destruct (String.eqb (str_lower k0) (str_lower k)) eqn:H0; cbn [ci_get].
  - destruct (String.eqb (str_lower k) (str_lower k')) eqn:H1; [reflexivity|].
    apply String.eqb_eq in H0. rewrite H0, H1. reflexivity.
  - rewrite IH.
    destruct (String.eqb (str_lower k0) (str_lower k')) eqn:H2; [|reflexivity].
    destruct (String.eqb (str_lower k) (str_lower k')) eqn:H1; [|reflexivity].
    apply String.eqb_eq in H1, H2. rewrite <- H1 in H2.
    rewrite H2, String.eqb_refl in H0. discriminate.
Qed.

(** After [h.update(upd)] a header is the last one [upd] has under that
    name, and the one of [h] when [upd] has none. *)
Lemma ci_get_ci_update (upd h : list (string * PyVal)) (k : string) :
  ci_get (ci_update h upd) k
  = match ci_last upd k with
    | Some v => Some v
    | None => ci_get h k
    end.
Proof.
  unfold ci_update. revert h.
  induction upd as [|[k' v] upd IH]; intros h; cbn [fold_left ci_last fst snd];
    [reflexivity|].
  rewrite IH, ci_get_ci_set.
  destruct (ci_last upd k); [reflexivity|].
  destruct (String.eqb (str_lower k') (str_lower k)); reflexivity.
Qed.

Lemma lower_Session_Token : str_lower "Session-Token" = "session-token".
Proof. rewrite str_lower_ascii; reflexivity. Qed.

Lemma lower_App_Token : str_lower "App-Token" = "app-token".
Proof. rewrite str_lower_ascii; reflexivity. Qed.

Lemma lower_user_agent : str_lower "user-agent" = "user-agent".
Proof. rewrite str_lower_ascii; reflexivity. Qed.

Lemma lower_User_Agent : str_lower "User-Agent" = "user-agent".
Proof. rewrite str_lower_ascii; reflexivity. Qed.

Lemma lower_accept : str_lower "accept" = "accept".
Proof. rewrite str_lower_ascii; reflexivity. Qed.

Lemma lower_Accept : str_lower "Accept" = "accept".
Proof. rewrite str_lower_ascii; reflexivity. Qed.

Lemma lower_Authorization : str_lower "Authorization" = "authorization".
Proof. rewrite str_lower_ascii; reflexivity. Qed.

(** The headers [request] builds before it merges the caller's. *)
Lemma session_request_header (s : GlpiService) (method path : string)
    (accept_json : bool) (params : list (string * PyVal))
    (data : option string) (k : string) :
  ci_get (req_headers (session_request s method path accept_json params data))
         k
  = own_header s accept_json k.
Proof.
  unfold session_request, own_header, ci_update. cbn [req_headers].
  destruct accept_json, (is_None (app_token s));
    cbn [negb fold_left fst snd]; rewrite !ci_get_ci_set; cbn [ci_get];
    rewrite ?lower_Session_Token, ?lower_App_Token, ?lower_user_agent,
      ?lower_accept;
    rewrite ?(String.eqb_sym _ (str_lower k));
    rewrite ?andb_true_r, ?andb_false_r; reflexivity.
Qed.

Lemma own_header_Session_Token (s : GlpiService) (accept_json : bool) :
  own_header s accept_json "Session-Token" = Some (session s).
Proof. unfold own_header. rewrite lower_Session_Token. reflexivity. Qed.

Lemma own_header_App_Token (s : GlpiService) (accept_json : bool) :
  own_header s accept_json "App-Token"
  = if is_None (app_token s) then None else Some (app_token s).
Proof.
  unfold own_header. rewrite lower_App_Token.
  destruct (is_None (app_token s)); reflexivity.
Qed.

Lemma own_header_User_Agent (s : GlpiService) (accept_json : bool) :
  own_header s accept_json "User-Agent"
  = Some (PStr ("glpi-sdk-python-" +:+ sdk_version)).
Proof. unfold own_header. rewrite lower_User_Agent. reflexivity. Qed.

Lemma own_header_Accept (s : GlpiService) (accept_json : bool) :
  own_header s accept_json "Accept"
  = if accept_json then Some (PStr "application/json") else None.
Proof.
  unfold own_header. rewrite lower_Accept. destruct accept_json; reflexivity.
Qed.

End Headers.

(** * Further properties of the transport layer *)

Section TransportFacts.
Context `{Platform}.

(** With a token stored, [request] sends [session_request] and leaves the
    client as it is. *)
Lemma request_with_session_run (s : GlpiService) (w : World)
    (method path : string) (accept_json : bool)
    (params : list (string * PyVal)) (data : option string) :
  session s <> PNone ->
  let rq := session_request s method path accept_json params data in
  Service.request method (Some path) accept_json [] params data s w
  = (answer w rq, s, add_request w rq).
Proof.
  intros Hs rq. apply is_None_false in Hs.
  unfold Service.request, requests_request, answer, add_request.
  unfold_monad. rewrite Hs. subst rq. unfold session_request.
  cbv beta iota zeta.
  destruct (http_server (http_log w) _); reflexivity.
Qed.

Lemma cleaned_params_are_plain (params : list (string * PyVal)) :
  Forall (fun kv => snd kv <> PNone /\ forall b, snd kv <> PBool b)
         (_cleanup_param_values (_remove_null_values params)).
Proof.
  unfold _cleanup_param_values, _remove_null_values.
  induction params as [|[k v] params IH]; cbn [List.filter map]; [constructor|].
  cbn [snd]. destruct v; cbn [is_None negb map]; try exact IH;
    constructor; try exact IH; cbn [fst snd _cleanup_param_value];
    (split; [|intros b']); discriminate.
Qed.

(** The same with headers of the caller's: they are merged last. *)
Lemma request_with_headers_run (s : GlpiService) (w : World)
    (method path : string) (accept_json : bool)
    (headers params : list (string * PyVal)) (data : option string) :
  session s <> PNone ->
  let rq0 := session_request s method path accept_json params data in
  let rq :=
    {| req_method := method; req_url := req_url rq0; req_auth := None;
       req_headers := ci_update (req_headers rq0) (_remove_null_values headers);
       req_params := req_params rq0; req_data := data;
       req_verify := sslverify s |} in
  Service.request method (Some path) accept_json headers params data s w
  = (answer w rq, s, add_request w rq).
Proof.
  intros Hs rq0 rq. apply is_None_false in Hs.
  unfold Service.request, requests_request, answer, add_request.
  unfold_monad. rewrite Hs. subst rq rq0. unfold session_request.
  cbv beta iota zeta. cbn [req_url req_headers req_params].
  destruct headers as [|kv headers];
    destruct (http_server (http_log w) _); reflexivity.
Qed.

(** X1. A client that holds a session token sends exactly one request per
    call of [request] and is left unchanged by it.  The request goes to the
    base URL, a slash, and the path without its leading and trailing
    slashes; it has no [auth] argument; none of its query parameters is
    [None] or a boolean.  Each of its headers, looked up in any letter
    case, is the caller's when the caller passes one under that name that
    is not [None] (the last such one), also for [Session-Token] and
    [App-Token]; otherwise it is the stored token under [Session-Token],
    the user agent, the application token when there is one, [accept]
    exactly when JSON was asked for, and nothing under any other name. *)
Theorem request_with_session (s : GlpiService) (w : World)
    (method path : string) (accept_json : bool)
    (headers params : list (string * PyVal)) (data : option string) :
  session s <> PNone ->
  exists rq,
    Service.request method (Some path) accept_json headers params data s w
    = (answer w rq, s, add_request w rq)
    /\ req_method rq = method
    /\ req_url rq
       = py_str (url s) +:+ "/" +:+ PyString.strip PyString.is_slash path
    /\ req_data rq = data
    /\ req_auth rq = None
    /\ (forall k,
          ci_get (req_headers rq) k
          = match caller_header headers k with
            | Some v => Some v
            | None => own_header s accept_json k
            end)
    /\ own_header s accept_json "Session-Token" = Some (session s)
    /\ own_header s accept_json "User-Agent"
       = Some (PStr ("glpi-sdk-python-" +:+ sdk_version))
    /\ own_header s accept_json "App-Token"
       = (if is_None (app_token s) then None else Some (app_token s))
    /\ own_header s accept_json "Accept"
       = (if accept_json then Some (PStr "application/json") else None)
    /\ Forall (fun kv => snd kv <> PNone /\ forall b, snd kv <> PBool b)
              (req_params rq).
Proof.
  intros Hs. eexists.
  split; [apply request_with_headers_run; exact Hs|].
  cbn [req_method req_url req_data req_auth req_headers req_params].
  repeat match goal with |- _ /\ _ => split end; try reflexivity.
  - intros k. rewrite ci_get_ci_update, session_request_header. reflexivity.
  - apply own_header_Session_Token.
  - apply own_header_User_Agent.
  - apply own_header_App_Token.
  - apply own_header_Accept.
  - apply cleaned_params_are_plain.
Qed.

(** What [set_session_token] does with the server's answer. *)
Lemma set_session_token_run (s : GlpiService) (w : World) (u : string)
    (resp : HttpResponse) :
  url s = PStr u ->
  http_server (http_log w) (initSession_request s u) = Some resp ->
  Service.set_session_token s w
  = (match accepted_token resp with
     | Some tok => (Ok true, Service.with_session s tok)
     | None => (Raise (initSession_failure resp), s)
     end, add_request w (initSession_request s u)).
Proof.
  intros Hu Hsrv.
  unfold Service.set_session_token, requests_request, initSession_request,
    accepted_token, initSession_failure in *.
  unfold_monad. rewrite Hu.
  destruct (writable s); rewrite Hsrv; cbv beta iota;
    (destruct (status_code resp =? 200);
     [|destruct (_glpi_html_parser (content resp)); reflexivity]);
    unfold json;
    (destruct (json_body resp) as [body|];
     [|destruct (_glpi_html_parser (content resp)); reflexivity]);
    cbv beta iota;
    (destruct (getitem body (PStr "session_token"));
     [|destruct (_glpi_html_parser (content resp))]); reflexivity.
Qed.

(** X2. When the server answers [initSession] with anything but a status
    200 whose JSON body can be indexed with ["session_token"],
    [set_session_token] raises, leaves the stored session as it was, and
    has issued the [initSession] request and no other.  What it raises
    depends on the parser of the body: where the parser takes the body, a
    [GlpiException] whose message is
    ["ERROR when try to init session in GLPI ... server:"] followed by the
    tokens scraped from the body, the message built for a status other
    than 200 never being the one raised; where the parser refuses the body
    (a body of bytes), the parser's [TypeError], raised once more by the
    handler. *)
Theorem set_session_token_refused (s : GlpiService) (w : World) (u : string)
    (resp : HttpResponse) :
  url s = PStr u ->
  http_server (http_log w) (initSession_request s u) = Some resp ->
  accepted_token resp = None ->
  (forall err,
     _glpi_html_parser (content resp) = Ok err ->
     Service.set_session_token s w
     = (Raise (GlpiException (initSession_error err)), s,
        add_request w (initSession_request s u)))
  /\ (html_feed (content resp) = None ->
      Service.set_session_token s w
      = (Raise TypeError, s, add_request w (initSession_request s u))).
Proof.
  intros Hu Hsrv Hno.
  rewrite (set_session_token_run s w u resp Hu Hsrv), Hno.
  unfold initSession_failure. split.
  - intros err ->. reflexivity.
  - intros Hfeed. unfold _glpi_html_parser. rewrite Hfeed. reflexivity.
Qed.

(** X3. On a client with no token stored, [request] first runs [initSession];
    when the server refuses it, [request] raises and the request it was
    asked to send is never sent: the only request issued is the
    [initSession] one.  Where the parser takes the body of the refusal,
    [request] raises a [GlpiException] whose message is
    ["Unable to get Session token. ... ERROR: "] followed by the message of
    the refusal; where the parser refuses the body, its [TypeError] passes
    through [request] as it is. *)
Theorem request_without_session_refused (s : GlpiService) (w : World)
    (u : string) (resp : HttpResponse) (method path : string)
    (accept_json : bool) (headers params : list (string * PyVal))
    (data : option string) :
  session s = PNone ->
  url s = PStr u ->
  http_server (http_log w) (initSession_request s u) = Some resp ->
  accepted_token resp = None ->
  (forall err,
     _glpi_html_parser (content resp) = Ok err ->
     Service.request method (Some path) accept_json headers params data s w
     = (Raise (GlpiException
                 ("Unable to get Session token. " +:+ PyString.spaces 32
                  +:+ "ERROR: " +:+ initSession_error err)),
        s, add_request w (initSession_request s u)))
  /\ (html_feed (content resp) = None ->
      Service.request method (Some path) accept_json headers params data s w
      = (Raise TypeError, s, add_request w (initSession_request s u))).
Proof.
  intros Hs Hu Hsrv Hno. apply is_None_true in Hs.
  pose proof (set_session_token_run s w u resp Hu Hsrv) as Hrun.
  rewrite Hno in Hrun. unfold initSession_failure in Hrun. split.
  - intros err Herr. rewrite Herr in Hrun.
    unfold Service.request. unfold_monad. rewrite Hs, Hrun. reflexivity.
  - intros Hfeed. unfold _glpi_html_parser in Hrun. rewrite Hfeed in Hrun.
    unfold Service.request. unfold_monad. rewrite Hs, Hrun. reflexivity.
Qed.

(** X4. Without the environment's credential bundle, construction leaves
    the world alone and either fails with a [GlpiException] or yields a
    client whose application token is set, whose session is [None], and
    which holds exactly one way to authenticate: a token and neither user
    name nor password, or a user name and a password and no token, none of
    them one of the placeholder texts. *)
Theorem constructed_client_credentials {S : Type}
    (url_apirest token_app : PyVal) (uri_ : option string)
    (username_ password_ token_auth_ vcap_services_name : PyVal)
    (sslverify_ writable_ : bool) (st : S) (w : World) :
  exists r,
    Service.new url_apirest token_app uri_ username_ password_ token_auth_
      false vcap_services_name sslverify_ writable_ st w = (r, st, w)
    /\ match r with
       | Raise e => is_GlpiException e = true
       | Ok svc =>
           url svc = url_apirest /\ uri svc = uri_
           /\ app_token svc = token_app /\ token_app <> PNone
           /\ session svc = PNone
           /\ ((token_auth svc = token_auth_ /\ token_auth_ <> PNone
                /\ eq_str token_auth_ "YOUR AUTH TOKEN" = false
                /\ username svc = PNone /\ password svc = PNone)
               \/ (token_auth svc = PNone
                   /\ username svc = username_ /\ username_ <> PNone
                   /\ eq_str username_ "YOUR SERVICE USERNAME" = false
                   /\ password svc = password_ /\ password_ <> PNone
                   /\ eq_str password_ "YOUR SERVICE PASSWORD" = false))
       end.
Proof.
  unfold Service.new, Service.__init__, Service.set_token_auth,
    Service.set_username_and_password.
  unfold_monad. cbn [andb].
  destruct (is_None token_auth_) eqn:Ht; cbn [negb].
  - destruct (eq_str username_ "YOUR SERVICE USERNAME") eqn:Hup,
      (eq_str password_ "YOUR SERVICE PASSWORD") eqn:Hpp;
      cbn [app_token username password token_auth Service.with_username
           Service.with_password is_None orb andb];
      destruct (is_None token_app) eqn:Ha; try (eexists; split; reflexivity);
      try rewrite Ht; try rewrite orb_true_r; cbn [andb orb];
      try (eexists; split; reflexivity).
    destruct (is_None username_) eqn:Hu; cbn [orb andb];
      [eexists; split; reflexivity|].
    destruct (is_None password_) eqn:Hp; cbn [orb andb];
      [eexists; split; reflexivity|].
    eexists; split; [reflexivity|]. cbn.
    apply is_None_false in Ha, Hu, Hp. apply is_None_true in Ht.
    repeat split; try assumption. right. repeat split; assumption.
  - destruct (is_None username_) eqn:Hu, (is_None password_) eqn:Hp;
      cbn [negb orb]; try (eexists; split; reflexivity).
    destruct (eq_str token_auth_ "YOUR AUTH TOKEN") eqn:Htp;
      cbn [app_token username password token_auth Service.with_token_auth
           is_None orb andb];
      destruct (is_None token_app) eqn:Ha; try (eexists; split; reflexivity);
      rewrite ?Hu, ?Hp, ?Ht; cbn [andb orb];
      try (eexists; split; reflexivity).
    eexists; split; [reflexivity|]. cbn.
    apply is_None_false in Ha, Ht. apply is_None_true in Hu, Hp.
    repeat split; try assumption. left. repeat split; assumption.
Qed.

(** X5. [update_session_token] replaces the stored token only by a value
    that counts as true: after such a call [get_session_token] returns the
    new token without any request; a value that counts as false ([None],
    the empty string) leaves the stored token in place, so a session cannot
    be cleared this way. *)
Theorem update_session_token_then_get (s : GlpiService) (w : World)
    (session_id : PyVal) :
  (truthy session_id = true ->
     (Service.update_session_token session_id ;;; Service.get_session_token)
       s w
     = (Ok session_id, Service.with_session s session_id, w))
  /\ (truthy session_id = false ->
      Service.update_session_token session_id s w = (Ok (session s), s, w)).
Proof.
  split; intros Ht.
  - assert (Hn : is_None session_id = false) by (destruct session_id; easy).
    unfold Service.update_session_token, Service.get_session_token.
    unfold_monad. rewrite Ht. cbn [session Service.with_session].
    rewrite Hn. reflexivity.
  - unfold Service.update_session_token. unfold_monad. rewrite Ht.
    reflexivity.
Qed.

End TransportFacts.

(** ** The payload of [create] and [update] *)

Lemma has_char_app (c : ascii) (a b : string) :
  has_char c (a +:+ b) = (has_char c a || has_char c b)%bool.
Proof.
  unfold has_char. induction a as [|x a IH]; [reflexivity|].
  rewrite append_cons. cbn [list_ascii_of_string existsb].
  rewrite IH, orb_assoc. reflexivity.
Qed.

Lemma has_char_replace_same (c : ascii) (new s : string) :
  has_char c new = false ->
  has_char c (PyString.replace_char c new s) = false.
Proof.
  intros Hnew. induction s as [|a s IH]; [reflexivity|].
  cbn [PyString.replace_char]. destruct (Ascii.eqb a c) eqn:Hac.
  - rewrite has_char_app, Hnew, IH. reflexivity.
  - unfold has_char in *. cbn [list_ascii_of_string existsb].
    rewrite Ascii.eqb_sym, Hac, IH. reflexivity.
Qed.

Lemma has_char_replace_other (c c2 : ascii) (new s : string) :
  has_char c new = false -> has_char c s = false ->
  has_char c (PyString.replace_char c2 new s) = false.
Proof.
  intros Hnew. induction s as [|a s IH]; [reflexivity|].
  unfold has_char at 1. cbn [list_ascii_of_string existsb].
  intros Hs. apply orb_false_iff in Hs as [Ha Hs].
  cbn [PyString.replace_char]. destruct (Ascii.eqb a c2).
  - rewrite has_char_app, Hnew. apply IH. exact Hs.
  - unfold has_char in *. cbn [list_ascii_of_string existsb].
    rewrite Ha. apply IH. exact Hs.
Qed.

Lemma escape_payload_clean (data_str : string) :
  has_char newline (escape_payload data_str) = false
  /\ has_char carriage_return (escape_payload data_str) = false.
Proof.
  unfold escape_payload. split.
  - apply has_char_replace_other; [reflexivity|].
    apply has_char_replace_same. reflexivity.
  - apply has_char_replace_same. reflexivity.
Qed.

Lemma dict_get_key {A} (d : list (string * A)) (k : string) :
  In k (map fst d) -> is_Some (dict_get d k).
Proof.
  induction d as [|[k' v] d IH]; [intros []|].
  cbn [map fst dict_get]. intros [->|Hin].
  - rewrite String.eqb_refl. eauto.
  - destruct (String.eqb k' k); [eauto | apply IH; exact Hin].
Qed.

Lemma dict_get_NoDup {A} (d : list (string * A)) (k : string) (v : A) :
  List.NoDup (map fst d) -> In (k, v) d -> dict_get d k = Some v.
Proof.
  induction d as [|[k' v'] d IH]; [intros _ []|].
  cbn [map fst dict_get]. intros Hnd Hin.
  apply NoDup_cons_iff in Hnd as [Hk' Hnd].
  destruct Hin as [[= -> ->]|Hin].
  - rewrite String.eqb_refl. reflexivity.
  - destruct (String.eqb k' k) eqn:Hk.
    + apply String.eqb_eq in Hk. subst k'. exfalso. apply Hk'.
      apply in_map_iff. exists (k, v). auto.
    + apply IH; assumption.
Qed.

Section Payload.
Context `{Platform}.

Lemma payload_loop (d rest : list (string * PyVal)) (acc : string) :
  Forall (fun kv => dict_get d (fst kv) = Some (snd kv)) rest ->
  fold_res (map fst rest)
    (payload_round d)
    acc
  = Ok (fold_left payload_step rest acc).
Proof.
  revert acc. induction rest as [|[k v] rest IH]; intros acc Hall;
    [reflexivity|].
  apply Forall_cons_iff in Hall as [Hk Hall]. cbn [fst snd] in Hk.
  cbn [map fst fold_res fold_left].
  assert (Hround : payload_round d acc k = Ok (payload_step acc (k, v))).
  { unfold payload_round, payload_step, payload_entry. rewrite Hk.
    cbn [fst snd]. destruct v; reflexivity. }
  rewrite Hround. apply IH. exact Hall.
Qed.

Lemma payload_loop_total (d : list (string * PyVal)) (ks : list string)
    (acc : string) :
  Forall (fun k => is_Some (dict_get d k)) ks ->
  exists raw,
    fold_res ks
      (payload_round d)
      acc = Ok raw.
Proof.
  revert acc. induction ks as [|k ks IH]; intros acc Hall; [eexists; reflexivity|].
  apply Forall_cons_iff in Hall as [[v Hk] Hall].
  cbn [fold_res]. unfold payload_round at 1. rewrite Hk.
  destruct v; apply IH; exact Hall.
Qed.

Lemma get_payload_unfold (data_json : list (string * PyVal)) :
  Service.get_payload data_json
  = res_bind (fold_res (map fst data_json) (payload_round data_json) "")
      (fun data_str => Ok (escape_payload data_str)).
Proof. reflexivity. Qed.

Lemma get_payload_total (data_json : list (string * PyVal)) :
  exists raw, Service.get_payload data_json = Ok (escape_payload raw).
Proof.
  rewrite get_payload_unfold.
  destruct (payload_loop_total data_json (map fst data_json) "") as [raw Hraw].
  { apply List.Forall_forall. intros k Hk. apply dict_get_key. exact Hk. }
  exists raw. rewrite Hraw. reflexivity.
Qed.

(** X6. [get_payload] never raises, whatever dictionary it is given (the
    lookups of its loop are on the dictionary's own keys), and the text it
    returns holds no newline and no carriage return character. *)
Theorem get_payload_one_line (data_json : list (string * PyVal)) :
  exists payload,
    Service.get_payload data_json = Ok payload
    /\ has_char newline payload = false
    /\ has_char carriage_return payload = false.
Proof.
  destruct (get_payload_total data_json) as [raw Hraw].
  exists (escape_payload raw). split; [exact Hraw|].
  apply escape_payload_clean.
Qed.

Lemma payload_entry_not_empty (kv : string * PyVal) (a : string) :
  String.eqb (a +:+ payload_entry kv) "" = false.
Proof.
  unfold payload_entry. destruct a as [|x a]; reflexivity.
Qed.

Lemma payload_steps_joined (rest : list (string * PyVal)) (acc : string) :
  String.eqb acc "" = false ->
  fold_left payload_step rest acc
  = acc +:+ join_strings (map (fun kv => "," +:+ payload_entry kv) rest).
Proof.
  revert acc. induction rest as [|kv rest IH]; intros acc Hacc.
  - cbn [fold_left map join_strings fold_right]. rewrite append_empty_r.
    reflexivity.
  - cbn [fold_left map join_strings fold_right].
    unfold payload_step at 2. rewrite Hacc. cbn [negb].
    rewrite IH by apply payload_entry_not_empty.
    rewrite !append_assoc. reflexivity.
Qed.

Lemma concat_sep (sep e : string) (es : list string) :
  String.concat sep (e :: es)
  = e +:+ join_strings (map (fun x => sep +:+ x) es).
Proof.
  revert e. induction es as [|e' es IH]; intros e.
  - cbn [String.concat map join_strings fold_right]. rewrite append_empty_r.
    reflexivity.
  - change (String.concat sep (e :: e' :: es))
      with (e +:+ sep +:+ String.concat sep (e' :: es)).
    rewrite IH. cbn [map join_strings fold_right].
    rewrite !append_assoc. reflexivity.
Qed.

Lemma get_payload_joined (data_json : list (string * PyVal)) :
  List.NoDup (map fst data_json) ->
  Service.get_payload data_json
  = Ok (escape_payload (String.concat "," (map payload_entry data_json))).
Proof.
  intros Hnd. rewrite get_payload_unfold.
  rewrite (payload_loop data_json data_json "").
  2:{ apply List.Forall_forall. intros [k v] Hin. apply dict_get_NoDup; assumption. }
  cbn [res_bind]. do 2 f_equal.
  destruct data_json as [|kv rest]; [reflexivity|].
  cbn [fold_left map]. unfold payload_step at 2. cbn [String.eqb negb].
  rewrite payload_steps_joined by (apply (payload_entry_not_empty kv "")).
  rewrite concat_sep, map_map. reflexivity.
Qed.

(** X7. For a dictionary (keys pairwise distinct), the payload is the
    entries [ "key": value] in the dictionary's order, separated by single
    commas with none in front or behind, and then escaped; a value [None]
    is written [null], a string is put between double quotes, anything
    else is written as [str] gives it.  For the empty dictionary it is the
    empty text. *)
Theorem get_payload_entries (data_json : list (string * PyVal)) :
  List.NoDup (map fst data_json) ->
  Service.get_payload data_json
  = Ok (escape_payload (String.concat "," (map payload_entry data_json)))
  /\ Service.get_payload [] = Ok "".
Proof.
  intros Hnd. split; [apply get_payload_joined; exact Hnd | reflexivity].
Qed.

End Payload.



(** * One session, one request *)

Lemma requests_between_nil (w : World) : requests_between w w [].
Proof. unfold requests_between. rewrite app_nil_r. reflexivity. Qed.

Lemma at_most_one_after_nothing `{Platform} tok (w w1 w2 : World) :
  requests_between w w1 [] ->
  at_most_one_plain_request tok w1 w2 ->
  at_most_one_plain_request tok w w2.
Proof.
  unfold at_most_one_plain_request, requests_between.
  rewrite app_nil_r. intros H1 [H2|(rq & H2 & Hp)].
  - left. rewrite H2, H1, !app_nil_r. reflexivity.
  - right. exists rq. split; [|exact Hp]. rewrite H2, H1. reflexivity.
Qed.

Lemma bind_lift_res {S A B} (r0 : Res A) (k : A -> M S B) s w :
  bind (lift_res r0) k s w
  = match r0 with Ok a => k a s w | Raise e => (Raise e, s, w) end.
Proof. destruct r0; reflexivity. Qed.

Lemma bind_get_state {S B} (k : S -> M S B) s w :
  bind get_state k s w = k s s w.
Proof. reflexivity. Qed.

Section Quiet.
Context `{Platform}.

Lemma session_request_plain (s : GlpiService) method path accept_json params data :
  plain_request (session s)
    (session_request s method path accept_json params data).
Proof.
  split; [reflexivity|].
  rewrite session_request_header. apply own_header_Session_Token.
Qed.

Lemma request_quiet method url_ accept_json params data :
  quiet (Service.request method url_ accept_json [] params data).
Proof.
  intros s w r s' w' Hs E. destruct url_ as [path|].
  - rewrite (request_with_session_run s w method path accept_json params data Hs)
      in E.
    inversion E; subst. split; [reflexivity|]. right.
    eexists. split; [reflexivity | apply session_request_plain].
  - unfold Service.request in E. unfold_monad. inversion E; subst.
    split; [reflexivity|]. left. apply requests_between_nil.
Qed.

Lemma request_json_quiet method url_ accept_json params data :
  quiet (response <- Service.request method url_ accept_json [] params data ;;
         lift_res (json response)).
Proof.
  intros s w r s' w' Hs E.
  apply bind_inv in E as [(resp & s1 & w1 & E1 & E)|(e & E1 & ->)].
  - apply (request_quiet _ _ _ _ _ _ _ _ _ _ Hs) in E1 as [-> Hw].
    unfold lift_res in E. destruct (json resp); unfold ret, raise in E;
      inversion E; subst; auto.
  - apply (request_quiet _ _ _ _ _ _ _ _ _ _ Hs) in E1. exact E1.
Qed.

Lemma quiet_pure {A} (r0 : Res A) : quiet (lift_res r0).
Proof.
  intros s w r s' w' _ E. unfold lift_res in E.
  destruct r0; unfold ret, raise in E; inversion E; subst;
    (split; [reflexivity | left; apply requests_between_nil]).
Qed.

Lemma create_quiet data_json : quiet (Service.create data_json).
Proof.
  intros s w r s' w' Hs E. unfold Service.create in E.
  destruct data_json as [d|].
  - destruct (get_payload_total d) as [raw Hraw].
    rewrite bind_lift_res, Hraw in E.
    apply bind_inv in E as [([] & s1 & w1 & E1 & E)|(e & E1 & _)];
      [|inversion E1].
    unfold print in E1. inversion E1; subst s1 w1; clear E1.
    rewrite bind_get_state in E.
    apply (request_json_quiet _ _ _ _ _ _ _ _ _ _ Hs) in E as [-> Hw].
    split; [reflexivity|].
    eapply at_most_one_after_nothing; [|exact Hw].
    unfold requests_between. cbn [http_log]. rewrite app_nil_r. reflexivity.
  - unfold ret in E. inversion E; subst.
    split; [reflexivity | left; apply requests_between_nil].
Qed.

Lemma get_all_quiet expand uri_query : quiet (Service.get_all expand uri_query).
Proof.
  intros s w r s' w' Hs E. unfold Service.get_all in E.
  rewrite bind_get_state in E.
  destruct (uri s) as [u|].
  - apply bind_inv in E as [(t & s1 & w1 & E1 & E)|(e & E1 & _)];
      [|inversion E1].
    unfold ret in E1. inversion E1; subst t s1 w1; clear E1.
    apply (request_json_quiet _ _ _ _ _ _ _ _ _ _ Hs) in E. exact E.
  - unfold bind, raise in E. inversion E; subst.
    split; [reflexivity | left; apply requests_between_nil].
Qed.

Lemma get_quiet item_id expand : quiet (Service.get item_id expand).
Proof.
  intros s w r s' w' Hs E. unfold Service.get in E.
  rewrite bind_get_state in E.
  destruct (isinstance_int item_id).
  - rewrite bind_lift_res in E. destruct (format_d item_id) as [id|e].
    + apply (request_json_quiet _ _ _ _ _ _ _ _ _ _ Hs) in E. exact E.
    + inversion E; subst.
      split; [reflexivity | left; apply requests_between_nil].
  - unfold ret in E. inversion E; subst.
    split; [reflexivity | left; apply requests_between_nil].
Qed.

Lemma get_path_quiet path : quiet (Service.get_path path).
Proof. apply request_json_quiet. Qed.

Lemma search_options_quiet item_name : quiet (Service.search_options item_name).
Proof.
  intros s w r s' w' Hs E. unfold Service.search_options in E.
  rewrite bind_get_state in E.
  apply (request_json_quiet _ _ _ _ _ _ _ _ _ _ Hs) in E. exact E.
Qed.

Lemma update_quiet data : quiet (Service.update data).
Proof.
  intros s w r s' w' Hs E. unfold Service.update in E.
  destruct (get_payload_total data) as [raw Hraw].
  rewrite bind_lift_res, Hraw, bind_get_state, bind_lift_res in E.
  destruct (res_bind (getitem (PDict data) (PStr "id")) format_d) as [id|e].
  - apply (request_json_quiet _ _ _ _ _ _ _ _ _ _ Hs) in E. exact E.
  - inversion E; subst.
    split; [reflexivity | left; apply requests_between_nil].
Qed.

Lemma delete_quiet item_id force_purge :
  quiet (Service.delete item_id force_purge).
Proof.
  intros s w r s' w' Hs E. unfold Service.delete in E.
  destruct (negb (isinstance_int item_id)).
  - unfold ret in E. inversion E; subst.
    split; [reflexivity | left; apply requests_between_nil].
  - rewrite bind_lift_res in E. destruct (format_d item_id) as [id|e].
    + rewrite bind_get_state in E.
      apply (request_json_quiet _ _ _ _ _ _ _ _ _ _ Hs) in E. exact E.
    + inversion E; subst.
      split; [reflexivity | left; apply requests_between_nil].
Qed.

Lemma get_session_token_returns_stored s w tok s' w' :
  Service.get_session_token s w = (Ok tok, s', w') -> session s' = tok.
Proof.
  unfold Service.get_session_token. rewrite bind_get_state.
  destruct (negb (is_None (session s))).
  - unfold ret. intros E. inversion E; subst. reflexivity.
  - rewrite try_except_Glpi_reraise. intros E.
    apply bind_inv in E as [(b & s1 & w1 & _ & E)|(e & _ & ?)]; [|discriminate].
    rewrite bind_get_state in E. unfold ret in E. inversion E; subst.
    reflexivity.
Qed.

(** X9. When [init_api] returns and has recorded a token, the router's
    session is open: the service object it installed holds that very
    token, and what [init_api] returns is [{"session_token": <token>}]. *)
Theorem init_api_opens_session (g : GLPI) (w : World) (v : PyVal)
    (g' : GLPI) (w' : World) :
  Router.init_api g w = (Ok v, g', w') ->
  api_session g' <> PNone ->
  session_open g' /\ v = PDict [("session_token", api_session g')].
Proof.
  unfold Router.init_api. rewrite bind_get_state. intros E Htok.
  apply bind_inv in E as [(svc & g1 & w1 & _ & E)|(e & _ & ?)]; [|discriminate].
  apply bind_inv in E as [([] & g2 & w2 & E1 & E)|(e & _ & ?)]; [|discriminate].
  unfold Router.modify in E1. inversion E1; subst g2 w2; clear E1.
  apply bind_inv in E as [([] & g2 & w2 & E1 & E)|(e & _ & ?)]; [|discriminate].
  rewrite try_except_Glpi_reraise in E1.
  apply bind_inv in E1 as [(tok & g3 & w3 & E2 & E1)|(e & _ & ?)];
    [|discriminate].
  unfold Router.on_api_rest in E2. cbn [api_rest Router.with_api_rest] in E2.
  destruct (Service.get_session_token svc w1) as [[rt svc'] wt] eqn:Ht.
  inversion E2; subst rt g3 w3; clear E2.
  apply get_session_token_returns_stored in Ht.
  unfold Router.modify in E1. inversion E1; subst g2 w2; clear E1.
  rewrite bind_get_state in E.
  cbn [api_session Router.with_api_session] in E.
  destruct (negb (is_None tok)) eqn:Hn; unfold ret in E; inversion E; subst;
    cbn [api_session Router.with_api_session] in *.
  - split; [|reflexivity]. split; [exact Htok|].
    eexists. split; reflexivity.
  - apply negb_false_iff, is_None_true in Hn. contradiction.
Qed.

(** The part of an operation that sits in the [try], on an open session. *)
Lemma router_body_quiet (op : M GlpiService PyVal) (item_name : string)
    (g : GLPI) (w : World) r g' w' :
  quiet op -> session_open g ->
  (Router.ensure_session ;;;
   Router.update_uri item_name ;;;
   Router.on_api_rest op) g w = (r, g', w') ->
  session_open g' /\ api_session g' = api_session g
  /\ at_most_one_plain_request (api_session g) w w'.
Proof.
  intros Hq [Hsess (svc & Hsvc & Htok)] E.
  assert (Hens : Router.ensure_session g w = (Ok tt, g, w)).
  { unfold Router.ensure_session, Router.api_has_session. unfold_monad.
    apply is_None_false in Hsess. rewrite Hsess. reflexivity. }
  rewrite (bind_Ok _ _ _ _ _ _ _ Hens) in E.
  rewrite (bind_Ok _ _ _ _ _ _ _ (update_uri_run g w svc item_name Hsvc)) in E.
  unfold Router.on_api_rest in E. cbn [api_rest after_update_uri] in E.
  match type of E with
  | context [op ?s1 w] => destruct (op s1 w) as [[r1 s1'] w1] eqn:Hop
  end.
  apply Hq in Hop as [-> Hw];
    [|cbn [session Service.with_uri]; rewrite Htok; exact Hsess].
  cbn [session Service.with_uri] in Hw. rewrite Htok in Hw.
  inversion E; subst. split; [|split; [reflexivity | exact Hw]].
  split; [exact Hsess|]. eexists. split; [reflexivity | exact Htok].
Qed.

Lemma router_handled_quiet (op : M GlpiService PyVal) (item_name : string)
    (g : GLPI) (w : World) r g' w' :
  quiet op -> session_open g ->
  try_except_Glpi
    (Router.ensure_session ;;;
     Router.update_uri item_name ;;;
     Router.on_api_rest op) Router.on_GlpiException g w = (r, g', w') ->
  session_open g' /\ api_session g' = api_session g
  /\ at_most_one_plain_request (api_session g) w w'.
Proof.
  intros Hq Hopen E.
  apply try_except_Glpi_inv in E
    as [(a & E & _)|[(e & E & _ & _)|(e & g1 & w1 & E & _ & Eh)]].
  - eapply router_body_quiet; eassumption.
  - eapply router_body_quiet; eassumption.
  - unfold Router.on_GlpiException, ret in Eh. inversion Eh; subst.
    eapply router_body_quiet; eassumption.
Qed.

Lemma unchanged_quiet (g : GLPI) (w : World) :
  session_open g ->
  session_open g /\ api_session g = api_session g
  /\ at_most_one_plain_request (api_session g) w w.
Proof.
  intros Hopen. split; [exact Hopen|]. split; [reflexivity|].
  left. apply requests_between_nil.
Qed.

Lemma get_all_call_quiet item_name expand searchText g w r g' w' :
  session_open g ->
  Router.get_all item_name expand searchText g w = (r, g', w') ->
  session_open g' /\ api_session g' = api_session g
  /\ at_most_one_plain_request (api_session g) w w'.
Proof.
  intros Hopen E. unfold Router.get_all in E. rewrite bind_lift_res in E.
  destruct (Router.get_all_query searchText) as [q|e].
  - eapply router_handled_quiet; [apply get_all_quiet | exact Hopen | exact E].
  - inversion E; subst. apply unchanged_quiet. exact Hopen.
Qed.

(** One call on an open session. *)
Lemma run_call_quiet (c : RouterCall) (g : GLPI) (w : World) r g' w' :
  session_open g ->
  run_call c g w = (r, g', w') ->
  session_open g' /\ api_session g' = api_session g
  /\ at_most_one_plain_request (api_session g) w w'.
Proof.
  intros Hopen E. destruct c; cbn [run_call] in E.
  - eapply router_handled_quiet; [apply create_quiet | exact Hopen | exact E].
  - eapply get_all_call_quiet; eassumption.
  - unfold Router.get in E. destruct (is_None item_id).
    + eapply router_handled_quiet; [apply get_path_quiet | exact Hopen | exact E].
    + eapply router_handled_quiet; [apply get_quiet | exact Hopen | exact E].
  - eapply router_handled_quiet;
      [apply search_options_quiet | exact Hopen | exact E].
  - unfold Router.search in E. rewrite bind_lift_res in E.
    destruct (Router.has_key criteria "criteria") as [[|]|e].
    + apply bind_inv in E as [(data & g1 & w1 & E1 & E)|(e & E1 & ->)].
      * apply (get_all_call_quiet _ _ _ _ _ _ _ _ Hopen) in E1.
        rewrite bind_lift_res in E.
        destruct (getitem criteria (PStr "criteria")) as [crit|e];
          [|inversion E; subst; exact E1].
        unfold lift_res in E.
        destruct (Router.search_criteria data crit); unfold ret, raise in E;
          inversion E; subst; exact E1.
      * eapply get_all_call_quiet; eassumption.
    + rewrite bind_lift_res in E.
      destruct (Router.has_key criteria "metacriteria") as [[|]|e].
      * rewrite bind_lift_res in E.
        destruct (getitem criteria (PStr "metacriteria"));
          unfold ret in E; inversion E; subst; apply unchanged_quiet;
          exact Hopen.
      * unfold ret in E. inversion E; subst. apply unchanged_quiet.
        exact Hopen.
      * inversion E; subst. apply unchanged_quiet. exact Hopen.
    + inversion E; subst. apply unchanged_quiet. exact Hopen.
  - unfold Router.search_engine in E. rewrite bind_lift_res in E.
    destruct (Router.search_engine_query item_name criteria) as [q|e].
    + eapply router_handled_quiet;
        [apply search_options_quiet | exact Hopen | exact E].
    + inversion E; subst. apply unchanged_quiet. exact Hopen.
  - eapply router_handled_quiet; [apply update_quiet | exact Hopen | exact E].
  - eapply router_handled_quiet; [apply delete_quiet | exact Hopen | exact E].
Qed.

(** X10. Once the router's session is open, no sequence of calls of its
    operations ([create], [get_all], [get], [search_options], [search],
    [search_engine], [update], [delete]) opens another: the session stays
    open with the same token, the calls issue at most one request each, and
    every request issued is a plain one carrying that token in its
    [Session-Token] header, never an [initSession]. *)
Theorem calls_reuse_session (cs : list RouterCall) (g : GLPI) (w : World)
    (g' : GLPI) (w' : World) :
  session_open g ->
  run_calls cs g w = (g', w') ->
  session_open g' /\ api_session g' = api_session g
  /\ exists l, requests_between w w' l
       /\ (length l <= length cs)%nat
       /\ Forall (plain_request (api_session g)) l.
Proof.
  revert g w. induction cs as [|c cs IH]; intros g w Hopen E.
  - cbn [run_calls] in E. inversion E; subst.
    split; [exact Hopen|]. split; [reflexivity|].
    exists []. split; [apply requests_between_nil|]. split; [reflexivity|].
    constructor.
  - cbn [run_calls] in E.
    destruct (run_call c g w) as [[r g1] w1] eqn:Hc.
    apply (run_call_quiet c g w r g1 w1 Hopen) in Hc as (Hopen1 & Heq1 & Hone).
    destruct (IH g1 w1 Hopen1 E) as (Hopen' & Heq' & l & Hl & Hlen & Hall).
    rewrite Heq1 in Heq', Hall.
    split; [exact Hopen'|]. split; [exact Heq'|].
    unfold requests_between in *.
    destruct Hone as [Hn|(rq & Hrq & Hplain)].
    + exists l. rewrite Hl, Hn, app_nil_r. split; [reflexivity|].
      split; [cbn [length]; lia | exact Hall].
    + exists (rq :: l). rewrite Hl, Hrq, <- app_assoc.
      split; [reflexivity|]. split; [cbn [length]; lia|].
      constructor; assumption.
Qed.

End Quiet.

(** * What the operations send *)

Section Sent.
Context `{Platform}.

Lemma request_json_run (s : GlpiService) (w : World) method path accept_json
    params data :
  session s <> PNone ->
  let rq := session_request s method path accept_json params data in
  (response <- Service.request method (Some path) accept_json [] params data ;;
   lift_res (json response)) s w
  = (res_bind (answer w rq) json, s, add_request w rq).
Proof.
  intros Hs rq.
  unfold bind. rewrite (request_with_session_run s w _ _ _ _ _ Hs).
  fold rq. destruct (answer w rq) as [resp|e]; [|reflexivity].
  cbn [res_bind]. unfold lift_res. destruct (json resp); reflexivity.
Qed.

Lemma answer_json_not_Glpi (w : World) (rq : HttpRequest) (e : PyExn) :
  res_bind (answer w rq) json = Raise e -> is_GlpiException e = false.
Proof.
  unfold answer, json. destruct (http_server (http_log w) rq) as [resp|];
    cbn [res_bind]; [destruct (json_body resp)|]; intros [= <-]; reflexivity.
Qed.

(** An operation on an open session whose service method leaves the
    service object as it is and raises no [GlpiException]. *)
Lemma router_run (op : M GlpiService PyVal) (item_name : string)
    (g : GLPI) (w : World) (svc : GlpiService) r w' :
  api_session g <> PNone -> api_rest g = Some svc ->
  let g1 := after_update_uri g item_name svc in
  op (Service.with_uri svc (item_uri g1)) w
    = (r, Service.with_uri svc (item_uri g1), w') ->
  (forall e, r = Raise e -> is_GlpiException e = false) ->
  try_except_Glpi
    (Router.ensure_session ;;;
     Router.update_uri item_name ;;;
     Router.on_api_rest op) Router.on_GlpiException g w = (r, g1, w').
Proof.
  intros Hsess Hsvc g1 Hop Hr.
  assert (Hens : Router.ensure_session g w = (Ok tt, g, w)).
  { unfold Router.ensure_session, Router.api_has_session. unfold_monad.
    apply is_None_false in Hsess. rewrite Hsess. reflexivity. }
  assert (Hbody : (Router.ensure_session ;;;
                   Router.update_uri item_name ;;;
                   Router.on_api_rest op) g w = (r, g1, w')).
  { rewrite (bind_Ok _ _ _ _ _ _ _ Hens).
    rewrite (bind_Ok _ _ _ _ _ _ _ (update_uri_run g w svc item_name Hsvc)).
    unfold Router.on_api_rest. cbn [api_rest after_update_uri].
    unfold g1, after_update_uri in Hop. cbn [item_uri] in Hop.
    rewrite Hop. reflexivity. }
  destruct r as [a|e].
  - apply try_except_Glpi_Ok. exact Hbody.
  - apply try_except_Glpi_escapes; [exact Hbody | apply Hr; reflexivity].
Qed.

(** The resolved path is always there. *)
Lemma after_update_uri_resolved (g : GLPI) (item_name : string)
    (svc : GlpiService) :
  is_Some (item_uri (after_update_uri g item_name svc)).
Proof.
  unfold after_update_uri, item_map_after. cbn [item_uri].
  destruct (item_map g !! item_name) as [p|] eqn:Hm.
  - rewrite Hm. eauto.
  - rewrite lookup_insert_eq. eauto.
Qed.

(** X11. On an open session, [get] without an id sends one GET to the base
    URL followed by the name itself (its outer slashes removed), not to the
    path the item map gives for the name; it sends no query parameters, so
    [expand_dropdowns] has no effect; and the name is resolved in the item
    map all the same. *)
Theorem get_without_id_fetches_the_name (g : GLPI) (w : World)
    (svc : GlpiService) (item_name : string) (expand : bool) :
  api_session g <> PNone -> api_rest g = Some svc -> session svc <> PNone ->
  exists rq,
    Router.get item_name PNone expand g w
    = (res_bind (answer w rq) json, after_update_uri g item_name svc,
       add_request w rq)
    /\ req_method rq = "GET"
    /\ req_url rq
       = py_str (url svc) +:+ "/" +:+ PyString.strip PyString.is_slash item_name
    /\ req_params rq = []
    /\ req_data rq = None.
Proof.
  intros Hsess Hsvc Htok.
  set (g1 := after_update_uri g item_name svc).
  set (svc1 := Service.with_uri svc (item_uri g1)).
  exists (session_request svc1 "GET" item_name false [] None).
  split; [|repeat split].
  unfold Router.get. cbn [is_None].
  apply (router_run (Service.get_path item_name) item_name g w svc _ _ Hsess Hsvc).
  - unfold Service.get_path. apply (request_json_run svc1 w). exact Htok.
  - apply answer_json_not_Glpi.
Qed.

(** X12. On an open session, [get_all] without search text sends one GET to
    the base URL followed by the resolved path and [?range=0-5000]; its one
    query parameter, present exactly when [expand_dropdowns] is set, is
    [expand_dropdowns] with the text ["true"], not a boolean. *)
Theorem get_all_request (g : GLPI) (w : World) (svc : GlpiService)
    (item_name : string) (expand : bool) :
  api_session g <> PNone -> api_rest g = Some svc -> session svc <> PNone ->
  exists rq path,
    item_uri (after_update_uri g item_name svc) = Some path
    /\ Router.get_all item_name expand PNone g w
       = (res_bind (answer w rq) json, after_update_uri g item_name svc,
          add_request w rq)
    /\ req_method rq = "GET"
    /\ req_url rq
       = py_str (url svc) +:+ "/"
         +:+ PyString.strip PyString.is_slash (path +:+ "?range=0-5000")
    /\ req_params rq
       = (if expand then [("expand_dropdowns", PStr "true")] else []).
Proof.
  intros Hsess Hsvc Htok.
  set (g1 := after_update_uri g item_name svc).
  destruct (after_update_uri_resolved g item_name svc) as [path Hpath].
  fold g1 in Hpath.
  set (svc1 := Service.with_uri svc (item_uri g1)).
  exists (session_request svc1 "GET" (path +:+ "?range=0-5000") false
            (Service.expand_payload expand) None), path.
  split; [exact Hpath|]. split; [|repeat split; destruct expand; reflexivity].
  unfold Router.get_all. cbn [Router.get_all_query is_None negb lift_res].
  rewrite (bind_Ok _ _ g w "?range=0-5000" g w eq_refl).
  apply (router_run (Service.get_all expand "?range=0-5000") item_name g w svc
           _ _ Hsess Hsvc).
  - unfold Service.get_all. rewrite bind_get_state.
    fold g1. fold svc1.
    assert (Huri : uri svc1 = Some path) by (unfold svc1; cbn; exact Hpath).
    rewrite Huri.
    rewrite (bind_Ok _ _ svc1 w (path +:+ "?range=0-5000") svc1 w eq_refl).
    apply (request_json_run svc1 w). exact Htok.
  - apply answer_json_not_Glpi.
Qed.

(** X13. On a client that holds a token, [delete] with an integer id sends
    one DELETE to the collection, the base URL followed by the resource
    path with no id in it; the id travels in the body only, which is
    [{"input": { "id": <id> }}], or with [force_purge] that text with
    [ "force_purge": true] put after the inner object without a comma. *)
Theorem delete_request (s : GlpiService) (w : World) (z : Z)
    (force_purge : bool) (u : string) :
  session s <> PNone -> uri s = Some u ->
  exists rq,
    Service.delete (PInt z) force_purge s w
    = (res_bind (answer w rq) json, s, add_request w rq)
    /\ req_method rq = "DELETE"
    /\ req_url rq = py_str (url s) +:+ "/" +:+ PyString.strip PyString.is_slash u
    /\ req_data rq
       = Some ("{" +:+ dq +:+ "input" +:+ dq +:+ ": { " +:+ dq +:+ "id" +:+ dq
               +:+ ": " +:+ PyString.of_Z z
               +:+ (if force_purge
                    then " } " +:+ dq +:+ "force_purge" +:+ dq +:+ ": true}"
                    else " }}")).
Proof.
  intros Hs Hu.
  eexists (session_request s "DELETE" u false [] _).
  split; [|split; [reflexivity|split; [reflexivity|]]].
  - unfold Service.delete. cbn [isinstance_int negb format_d lift_res].
    rewrite (bind_Ok _ _ s w (PyString.of_Z z) s w eq_refl).
    rewrite bind_get_state, Hu.
    apply (request_json_run s w). exact Hs.
  - cbn [req_data session_request]. destruct force_purge; reflexivity.
Qed.

(** X14. On a client that holds a token, [update] of data with distinct
    keys and an integer ["id"] sends one PUT to the base URL followed by
    the resource path, a slash and the id; the body is the payload of the
    data inside [{"input": { ... }}]. *)
Theorem update_request (s : GlpiService) (w : World)
    (data : list (string * PyVal)) (z : Z) :
  session s <> PNone ->
  List.NoDup (map fst data) ->
  dict_get data "id" = Some (PInt z) ->
  exists rq,
    Service.update data s w
    = (res_bind (answer w rq) json, s, add_request w rq)
    /\ req_method rq = "PUT"
    /\ req_url rq
       = py_str (url s) +:+ "/"
         +:+ PyString.strip PyString.is_slash
               (str_opt (uri s) +:+ "/" +:+ PyString.of_Z z)
    /\ req_data rq
       = Some (Service.input_envelope
                 (escape_payload
                    (String.concat "," (map payload_entry data)))).
Proof.
  intros Hs Hnd Hid.
  eexists (session_request s "PUT" _ true [] _).
  split; [|repeat split].
  unfold Service.update.
  pose proof (get_payload_joined data Hnd) as Hp.
  rewrite bind_lift_res, Hp, bind_get_state, bind_lift_res.
  rewrite getitem_dict, Hid. cbn [res_bind format_d].
  apply (request_json_run s w). exact Hs.
Qed.

(** X8. [update] sends nothing unless the data hold, under ["id"], a number
    that has an integer part: without that key it raises [KeyError], with
    a value there that is not a number [TypeError], with an infinity
    [OverflowError], with a NaN [ValueError], and in each case the client
    and the world are as before, whether or not a session is open.  A
    float that has an integer part is not refused: on a client that holds
    a token the PUT goes to the resource path followed by that integer
    part, so an id of 7.9 updates the item 7. *)
Theorem update_needs_numeric_id (data : list (string * PyVal))
    (s : GlpiService) (w : World) :
  (dict_get data "id" = None ->
   Service.update data s w = (Raise (KeyError "id"), s, w))
  /\ (forall v, dict_get data "id" = Some v -> is_number v = false ->
      Service.update data s w = (Raise TypeError, s, w))
  /\ (forall negative,
        dict_get data "id" = Some (PFloat (Infinity negative)) ->
        Service.update data s w = (Raise OverflowError, s, w))
  /\ (dict_get data "id" = Some (PFloat NaN) ->
      Service.update data s w = (Raise ValueError, s, w))
  /\ (forall z zero text,
        dict_get data "id" = Some (PFloat (Finite z zero text)) ->
        session s <> PNone ->
        exists rq,
          Service.update data s w
          = (res_bind (answer w rq) json, s, add_request w rq)
          /\ req_method rq = "PUT"
          /\ req_url rq
             = py_str (url s) +:+ "/"
               +:+ PyString.strip PyString.is_slash
                     (str_opt (uri s) +:+ "/" +:+ PyString.of_Z z)).
Proof.
  unfold Service.update.
  destruct (get_payload_total data) as [raw Hraw].
  rewrite bind_lift_res, Hraw, bind_get_state, bind_lift_res, getitem_dict.
  repeat match goal with |- _ /\ _ => split end.
  - intros ->. reflexivity.
  - intros v -> Hv. destruct v; try discriminate; reflexivity.
  - intros negative ->. reflexivity.
  - intros ->. reflexivity.
  - intros z zero text -> Hs. cbn [res_bind format_d].
    eexists (session_request s "PUT" _ true [] _).
    split; [|split; reflexivity].
    apply (request_json_run s w). exact Hs.
Qed.

(** X21. On a client that holds a token and a resource path, [create] with
    data never fails before the request: it prints the body, the payload of
    the data inside [{"input": { ... }}], and sends that same text in one
    POST to the base URL followed by the resource path, asking for JSON. *)
Theorem create_request (s : GlpiService) (w : World)
    (data_json : list (string * PyVal)) (u : string) :
  session s <> PNone -> uri s = Some u ->
  exists payload rq,
    Service.get_payload data_json = Ok payload
    /\ Service.create (Some data_json) s w
       = (res_bind (answer w rq) json, s,
          add_request (printed w (Service.input_envelope payload)) rq)
    /\ req_method rq = "POST"
    /\ req_url rq = py_str (url s) +:+ "/" +:+ PyString.strip PyString.is_slash u
    /\ req_data rq = Some (Service.input_envelope payload)
    /\ ci_get (req_headers rq) "Accept" = Some (PStr "application/json").
Proof.
  intros Hs Hu. destruct (get_payload_total data_json) as [raw Hraw].
  exists (escape_payload raw).
  eexists (session_request s "POST" u true [] _).
  split; [exact Hraw|]. split; [|split; [reflexivity|split; [reflexivity|split]]].
  - unfold Service.create. rewrite bind_lift_res, Hraw.
    unfold bind at 1, print. rewrite bind_get_state, Hu.
    apply (request_json_run s (printed w _)). exact Hs.
  - reflexivity.
  - rewrite session_request_header. apply own_header_Accept.
Qed.

End Sent.

(** * Credentials from the environment *)

Section Bundle.
Context `{Platform}.

(** X22. Credentials given explicitly keep the environment's bundle out:
    with a token that counts as true (and is not the placeholder), or with
    no token and a user name that counts as true (and is not the
    placeholder), construction does exactly what it does without
    [use_vcap_services], whatever the environment holds. *)
Theorem explicit_credentials_win
    (url_apirest token_app : PyVal) (uri_ : option string)
    (username_ password_ token_auth_ vcap_services_name : PyVal)
    (sslverify_ writable_ : bool) (obj : GlpiService) (w : World) :
  (truthy token_auth_ = true /\ eq_str token_auth_ "YOUR AUTH TOKEN" = false)
  \/ (token_auth_ = PNone /\ truthy username_ = true
      /\ eq_str username_ "YOUR SERVICE USERNAME" = false) ->
  Service.__init__ url_apirest token_app uri_ username_ password_ token_auth_
    true vcap_services_name sslverify_ writable_ obj w
  = Service.__init__ url_apirest token_app uri_ username_ password_ token_auth_
      false vcap_services_name sslverify_ writable_ obj w.
Proof.
  intros [[Ht Hp]|(-> & Hu & Hp)];
    unfold Service.__init__, Service.set_token_auth,
      Service.set_username_and_password; unfold_monad.
  - assert (Hn : is_None token_auth_ = false) by (destruct token_auth_; easy).
    rewrite Hn, Hp. cbn [negb].
    destruct (negb (is_None username_) || negb (is_None password_))%bool;
      [reflexivity|].
    cbn [username token_auth Service.with_token_auth]. rewrite Ht.
    cbn [negb andb]. rewrite andb_false_r. reflexivity.
  - cbn [is_None negb]. rewrite Hp.
    cbn [username token_auth Service.with_username Service.with_password].
    rewrite Hu. reflexivity.
Qed.

(** X23. With [use_vcap_services], no token and no user name, and a bundle
    in the environment that holds a credentials dictionary for the service
    name: the [url] of the credentials replaces the client's base URL, and
    each of [username], [password], [token_auth] and [app_token] that the
    credentials hold replaces the client's; the others stay as the
    arguments set them.  Credentials without [url] make construction raise
    a [KeyError], which is not a [GlpiException]. *)
Theorem bundle_supplies_credentials
    (url_apirest token_app : PyVal) (uri_ : option string)
    (username_ password_ : PyVal) (name : string)
    (sslverify_ writable_ : bool) (obj : GlpiService) (w : World)
    (services creds : list (string * PyVal)) (entry first : PyVal) :
  vcap_services_env = Some services ->
  dict_get services name = Some entry ->
  getitem entry (PInt 0) = Ok first ->
  getitem first (PStr "credentials") = Ok (PDict creds) ->
  truthy username_ = false ->
  exists r obj',
    Service.__init__ url_apirest token_app uri_ username_ password_ PNone
      true (PStr name) sslverify_ writable_ obj w = (r, obj', w)
    /\ match dict_get creds "url" with
       | None => r = Raise (KeyError "url")
       | Some u =>
           url obj' = u
           /\ username obj' = default username_ (dict_get creds "username")
           /\ password obj'
              = default (if eq_str password_ "YOUR SERVICE PASSWORD"
                         then PNone else password_)
                        (dict_get creds "password")
           /\ token_auth obj' = default PNone (dict_get creds "token_auth")
           /\ app_token obj' = default token_app (dict_get creds "app_token")
           /\ session obj' = PNone
       end.
Proof.
  intros Henv Hentry Hfirst Hcreds Hu.
  assert (Hup : eq_str username_ "YOUR SERVICE USERNAME" = false).
  { destruct username_; try reflexivity. cbn in Hu |- *.
    destruct (String.eqb s "YOUR SERVICE USERNAME") eqn:E; [|reflexivity].
    apply String.eqb_eq in E. subst s. discriminate. }
  unfold Service.__init__, Service.set_token_auth,
    Service.set_username_and_password, load_from_vcap_services,
    Service.apply_vcap_credentials.
  unfold_monad. cbn [is_None negb]. rewrite Hup.
  cbn [username token_auth Service.with_username Service.with_password truthy].
  rewrite Hu. cbn [negb andb]. rewrite Henv, Hentry, Hfirst.
  cbn [res_bind]. rewrite Hcreds. rewrite getitem_dict.
  destruct (dict_get creds "url") as [u|]; [|eexists _, _; split; reflexivity].
  destruct (dict_get creds "username"), (dict_get creds "password"),
    (dict_get creds "token_auth"), (dict_get creds "app_token");
    cbn [app_token username password token_auth url session
         Service.with_url Service.with_username Service.with_password
         Service.with_token_auth Service.with_app_token default];
    match goal with
    | |- context [if is_None ?a then _ else _] => destruct (is_None a)
    end;
    try match goal with
    | |- context [if ?c then _ else _] =>
        match c with
        | andb _ _ => destruct c
        end
    end;
    eexists _, _; (split; [reflexivity|]); cbn; repeat split; reflexivity.
Qed.

End Bundle.


(** * Searching *)

Lemma fold_res_sublist {A} (body : list A -> A -> Res (list A)) (ds : list A) :
  (forall acc d acc', body acc d = Ok acc' ->
                      acc' = (acc ++ [d])%list \/ acc' = acc) ->
  forall acc res, fold_res ds body acc = Ok res ->
  exists extra, res = (acc ++ extra)%list /\ sublist extra ds.
Proof.
  intros Hbody. induction ds as [|d ds IH]; intros acc res; cbn [fold_res].
  - intros [= <-]. exists []. rewrite app_nil_r. split; constructor.
  - destruct (body acc d) as [acc'|e] eqn:Hb; [|discriminate].
    intros Hf. destruct (IH _ _ Hf) as (extra & -> & Hsub).
    destruct (Hbody _ _ _ Hb) as [->| ->].
    + exists (d :: extra). rewrite <- app_assoc. split; [reflexivity|].
      constructor. exact Hsub.
    + exists extra. split; [reflexivity|]. constructor. exact Hsub.
Qed.

Lemma fold_res_unchanged {A B} (body : A -> B -> Res A) (ds : list B) (acc : A) :
  (forall d, body acc d = Ok acc) -> fold_res ds body acc = Ok acc.
Proof.
  intros Hbody. induction ds as [|d ds IH]; [reflexivity|].
  cbn [fold_res]. rewrite Hbody. exact IH.
Qed.

Section Searching.
Context `{Platform}.

(** X15. Whatever the records and the criteria look like, when
    [search_criteria] returns, what it returns is a list of records taken
    from the data in their order: it drops records, and never adds,
    repeats, changes or reorders one. *)
Theorem search_criteria_sublist (data criteria v : PyVal) (ds : list PyVal) :
  iterate data = Ok ds ->
  Router.search_criteria data criteria = Ok v ->
  exists res, v = PList res /\ sublist res ds.
Proof.
  intros Hds E. unfold Router.search_criteria in E. rewrite Hds in E.
  cbn [res_bind] in E.
  match type of E with
  | res_bind (fold_res ds ?body []) _ = _ =>
      destruct (fold_res ds body []) as [res|e] eqn:Hf; [|discriminate];
      apply (fold_res_sublist body) in Hf
  end.
  - destruct Hf as (extra & -> & Hsub). cbn [res_bind] in E.
    injection E as <-. exists extra. split; [reflexivity | exact Hsub].
  - intros acc d acc' Hb.
    destruct (iterate criteria) as [cs|]; [|discriminate]. cbn [res_bind] in Hb.
    match type of Hb with
    | res_bind ?f _ = _ => destruct f as [[|]|]
    end; cbn [res_bind] in Hb; inversion Hb; auto.
Qed.

(** X16. With an empty list of criteria no record is selected: for any
    data that can be iterated the result is the empty list, and no record
    is even looked at, so none can make the search raise.  Likewise empty
    data give the empty list whatever the criteria are. *)
Theorem search_criteria_empty (data criteria : PyVal) (ds : list PyVal) :
  iterate data = Ok ds ->
  iterate criteria = Ok [] \/ ds = [] ->
  Router.search_criteria data criteria = Ok (PList []).
Proof.
  intros Hds [Hcs| ->]; unfold Router.search_criteria; rewrite Hds;
    cbn [res_bind]; [|reflexivity].
  rewrite fold_res_unchanged; [reflexivity|].
  intros d. rewrite Hcs. reflexivity.
Qed.

(** X17. [search] with a dictionary that has no ["criteria"] key touches
    neither the router nor the world, on a fresh router as well: no session
    is opened and no request is issued.  It returns
    [{"message_info": "Not implemented yet"}] when there is a
    ["metacriteria"] key and
    [{"message_error": "Unable to find a valid criteria."}] when there is
    neither. *)
Theorem search_without_criteria (g : GLPI) (w : World) (item_name : string)
    (d : list (string * PyVal)) (expand : bool) :
  dict_get d "criteria" = None ->
  Router.search item_name (PDict d) expand g w
  = (Ok (match dict_get d "metacriteria" with
         | Some _ => PDict [("message_info", PStr "Not implemented yet")]
         | None =>
             PDict [("message_error",
                     PStr "Unable to find a valid criteria.")]
         end), g, w).
Proof.
  intros Hc. unfold Router.search. cbn [Router.has_key]. rewrite Hc.
  rewrite !bind_lift_res. rewrite getitem_dict.
  destruct (dict_get d "metacriteria"); reflexivity.
Qed.

Lemma search_engine_step_run (n : nat) (q : string)
    (c : string * PyVal * PyVal * PyVal) :
  mapped_field c = true ->
  Router.search_engine_step (Z.of_nat n, q) (engine_criterion c)
  = Ok (Z.of_nat (S n),
        q +:+ (if Nat.eqb n 0 then "" else "&")
          +:+ render_engine_criterion n c).
Proof.
  destruct c as [[[f v] t] l]. unfold mapped_field, engine_criterion.
  intros Hf. unfold Router.search_engine_step, render_engine_criterion.
  rewrite !getitem_dict.
  change (dict_get [("field", PStr f); ("value", v); ("searchtype", t);
                    ("link", l)] "field") with (Some (PStr f)).
  change (dict_get [("field", PStr f); ("value", v); ("searchtype", t);
                    ("link", l)] "value") with (Some v).
  change (dict_get [("field", PStr f); ("value", v); ("searchtype", t);
                    ("link", l)] "searchtype") with (Some t).
  change (dict_get [("field", PStr f); ("value", v); ("searchtype", t);
                    ("link", l)] "link") with (Some l).
  cbn [res_bind Router.field_code].
  destruct (dict_get Router.field_map f) as [code|]; [|discriminate].
  cbn [res_bind]. f_equal. f_equal; [lia|].
  assert (Hz : (Z.of_nat n =? 0) = Nat.eqb n 0) by (destruct n; reflexivity).
  rewrite Hz. destruct (Nat.eqb n 0), (is_None v);
    rewrite ?append_assoc; reflexivity.
Qed.

Lemma search_engine_loop_run (cs : list (string * PyVal * PyVal * PyVal))
    (n : nat) (q : string) :
  forallb mapped_field cs = true ->
  fold_res (map engine_criterion cs) Router.search_engine_step
    (Z.of_nat (S n), q)
  = Ok (Z.of_nat (S n + length cs),
        q +:+ join_strings
                (map (fun x => "&" +:+ x) (render_engine_criteria (S n) cs))).
Proof.
  revert n q. induction cs as [|c cs IH]; intros n q Hall.
  - cbn [map fold_res length render_engine_criteria join_strings fold_right].
    rewrite append_empty_r, Nat.add_0_r. reflexivity.
  - cbn [forallb] in Hall. apply andb_true_iff in Hall as [Hc Hall].
    cbn [map fold_res]. rewrite (search_engine_step_run (S n) q c Hc).
    cbn [Nat.eqb]. rewrite (IH (S n) _ Hall).
    cbn [length render_engine_criteria map join_strings fold_right].
    rewrite !append_assoc. f_equal. f_equal. lia.
Qed.

(** X18. For criteria that carry the four keys and whose field names are in
    the table, the query [search_engine] builds is the item name, a
    question mark, the criteria numbered from 0 in their order and
    separated by ["&"], and ["&range=0-5000"] at the end; each criterion
    gives its field's code, its value (nothing for [None]), its search type
    and its link.  With no criteria the query is [<item>?&range=0-5000]. *)
Theorem search_engine_query_text (item_name : string)
    (cs : list (string * PyVal * PyVal * PyVal)) :
  forallb mapped_field cs = true ->
  Router.search_engine_query item_name
    (PDict [("criteria", PList (map engine_criterion cs))])
  = Ok (item_name +:+ "?"
        +:+ String.concat "&" (render_engine_criteria 0 cs)
        +:+ "&range=0-5000").
Proof.
  intros Hall. unfold Router.search_engine_query. rewrite getitem_dict.
  change (dict_get [("criteria", ?x)] "criteria") with (Some x).
  cbn [res_bind iterate].
  destruct cs as [|c cs].
  - cbn [map fold_res res_bind snd render_engine_criteria String.concat].
    rewrite !append_assoc. reflexivity.
  - cbn [forallb] in Hall. apply andb_true_iff in Hall as [Hc Hall].
    cbn [map fold_res].
    change (0, item_name +:+ "?") with (Z.of_nat 0, item_name +:+ "?").
    rewrite (search_engine_step_run 0 (item_name +:+ "?") c Hc).
    cbn [Nat.eqb]. rewrite (search_engine_loop_run cs 0 _ Hall).
    cbn [res_bind snd render_engine_criteria]. rewrite concat_sep.
    rewrite !append_assoc. reflexivity.
Qed.

End Searching.

(** * The item map, again *)

Lemma item_map_after_twice (m : gmap string string) (item_name : string) :
  let m1 := item_map_after m item_name in
  item_map_after m1 item_name = m1
  /\ m1 !! (match m1 !! item_name with
            | Some _ => item_name
            | None => registered_key item_name
            end)
     = m1 !! (match m !! item_name with
              | Some _ => item_name
              | None => registered_key item_name
              end).
Proof.
  unfold item_map_after.
  destruct (m !! item_name) as [p|] eqn:Hm; cbn zeta.
  - split; [rewrite Hm; reflexivity|].
    replace (match m !! item_name with
             | Some _ => item_name
             | None => registered_key item_name
             end) with item_name by (rewrite Hm; reflexivity).
    reflexivity.
  - set (k := registered_key item_name). set (v := registered_path item_name).
    destruct (decide (k = item_name)) as [Hk|Hk].
    + rewrite Hk, !lookup_insert_eq. split; reflexivity.
    + rewrite lookup_insert_ne by exact Hk. rewrite Hm.
      rewrite insert_insert_eq. split; reflexivity.
Qed.

(** X19. Resolving a name twice in a row is the same as resolving it once:
    the second [update_uri] finds what the first one left and changes
    nothing, whether the name was in the map, was registered as it is, or
    was registered from a path. *)
Theorem update_uri_twice (item_name : string) (g : GLPI) (w : World) :
  (Router.update_uri item_name ;;; Router.update_uri item_name) g w
  = Router.update_uri item_name g w.
Proof.
  destruct (api_rest g) as [svc|] eqn:Hsvc.
  - rewrite (bind_Ok _ _ _ _ _ _ _ (update_uri_run g w svc item_name Hsvc)).
    rewrite (update_uri_run g w svc item_name Hsvc).
    rewrite (update_uri_run (after_update_uri g item_name svc) w _ item_name
               eq_refl).
    f_equal. f_equal.
    destruct (item_map_after_twice (item_map g) item_name) as [Hm Hk].
    unfold after_update_uri.
    cbn [item_map item_uri api_session glpi_url glpi_app_token auth_token
         glpi_sslverify glpi_writable].
    cbn zeta in Hm, Hk. rewrite Hm, Hk. reflexivity.
  - destruct (Router.update_uri item_name g w) as [[[[]|e] g1] w1] eqn:E.
    + exfalso. destruct g as [u a t sv wr iu m ar ss]. simpl in Hsvc. subst ar.
      unfold Router.update_uri, Router.set_item, Router.set_api_uri in E.
      unfold_monad. cbn [item_map] in E.
      destruct (m !! item_name) as [p|] eqn:Hm.
      * cbn [item_map] in E. rewrite Hm in E. discriminate.
      * destruct (PyString.startswith item_name "/") eqn:Hs.
        -- destruct (split_second item_name Hs) as [r Hr]. rewrite Hr in E.
           cbn [item_map Router.with_item_map] in E.
           rewrite !lookup_insert_eq in E. discriminate.
        -- cbn [item_map Router.with_item_map] in E.
           rewrite !lookup_insert_eq in E. discriminate.
    + apply bind_Raise. exact E.
Qed.

(** * The authorisation header *)

(** X20. After a [GLpiAuth] object has been applied to a request, the
    request's [Authorization] header, looked up in any letter case, is
    ["user_token "] followed by the token, whatever it was before; every
    other header is as it was; and applying the object again changes
    nothing. *)
Theorem GLpiAuth_sets_authorization `{Platform} (auth_token : string)
    (headers : list (string * PyVal)) (k : string) :
  ci_get (GLpiAuth_call auth_token headers) k
  = (if String.eqb (str_lower k) "authorization"
     then Some (PStr ("user_token " +:+ auth_token))
     else ci_get headers k)
  /\ forall k', ci_get (GLpiAuth_call auth_token
                          (GLpiAuth_call auth_token headers)) k'
                = ci_get (GLpiAuth_call auth_token headers) k'.
Proof.
  unfold GLpiAuth_call. split.
  - rewrite ci_get_ci_set, lower_Authorization, String.eqb_sym. reflexivity.
  - intros k'. rewrite !ci_get_ci_set.
    destruct (String.eqb (str_lower "Authorization") (str_lower k'));
      reflexivity.
Qed.

(** * The first call on a fresh router *)

Section FirstCall.
Context `{Platform}.

Lemma Service_new_fresh {S : Type} (g : GLPI) (st : S) (w : World) :
  glpi_app_token g <> PNone ->
  auth_token g <> PNone ->
  eq_str (auth_token g) "YOUR AUTH TOKEN" = false ->
  Service.new (glpi_url g) (glpi_app_token g) None PNone PNone (auth_token g)
    false PNone (glpi_sslverify g) (glpi_writable g) st w
  = (Ok (fresh_service g), st, w).
Proof.
  intros Ha Ht Hp. apply is_None_false in Ha, Ht.
  unfold Service.new, Service.__init__, Service.set_token_auth. unfold_monad.
  rewrite Ht, Hp. cbn [is_None negb orb andb app_token username password
    token_auth Service.with_token_auth].
  rewrite Ha, Ht. reflexivity.
Qed.

(** [init_api] on a router that has no session, whose server accepts:
    the router ends up with the service object and the token. *)
Lemma init_api_accepted (g : GLPI) (w : World) (u : string)
    (resp : HttpResponse) (tok : PyVal) :
  glpi_app_token g <> PNone ->
  auth_token g <> PNone ->
  eq_str (auth_token g) "YOUR AUTH TOKEN" = false ->
  glpi_url g = PStr u ->
  http_server (http_log w) (initSession_request (fresh_service g) u)
    = Some resp ->
  accepted_token resp = Some tok ->
  exists r,
    Router.init_api g w
    = (Ok r, opened g tok,
       add_request w (initSession_request (fresh_service g) u))
    /\ (tok <> PNone -> r = PDict [("session_token", tok)]).
Proof.
  intros Ha Ht Hp Hu Hsrv Hacc.
  pose proof (set_session_token_run (fresh_service g) w u resp Hu Hsrv) as Hset.
  rewrite Hacc in Hset.
  assert (Hget : Service.get_session_token (fresh_service g) w
                 = (Ok tok, Service.with_session (fresh_service g) tok,
                    add_request w (initSession_request (fresh_service g) u))).
  { unfold Service.get_session_token. rewrite bind_get_state.
    cbn [session fresh_service is_None negb].
    rewrite try_except_Glpi_reraise.
    rewrite (bind_Ok _ _ _ _ _ _ _ Hset). reflexivity. }
  set (w1 := add_request w (initSession_request (fresh_service g) u)) in *.
  set (g2 := Router.with_api_rest g (Some (fresh_service g))).
  assert (Hon : Router.on_api_rest Service.get_session_token g2 w
                = (Ok tok,
                   Router.with_api_rest g2
                     (Some (Service.with_session (fresh_service g) tok)), w1)).
  { unfold Router.on_api_rest. cbn [api_rest g2 Router.with_api_rest].
    rewrite Hget. reflexivity. }
  assert (Htry :
    try_except_Glpi
      (tok0 <- Router.on_api_rest Service.get_session_token ;;
       Router.modify (fun g0 => Router.with_api_session g0 tok0))
      (fun e => raise e) g2 w = (Ok tt, opened g tok, w1)).
  { rewrite try_except_Glpi_reraise. rewrite (bind_Ok _ _ _ _ _ _ _ Hon).
    reflexivity. }
  unfold Router.init_api. rewrite bind_get_state.
  rewrite (bind_Ok _ _ _ _ _ _ _ (Service_new_fresh g g w Ha Ht Hp)).
  rewrite (bind_Ok _ _ g w tt g2 w eq_refl).
  rewrite (bind_Ok _ _ _ _ _ _ _ Htry).
  rewrite bind_get_state. cbn [api_session opened Router.with_api_session].
  destruct (is_None tok) eqn:Htok; cbn [negb]; eexists; (split; [reflexivity|]).
  - intros Hn. apply is_None_false in Hn. congruence.
  - reflexivity.
Qed.

Lemma ensure_session_accepted (g : GLPI) (w : World) (u : string)
    (resp : HttpResponse) (tok : PyVal) :
  api_session g = PNone ->
  glpi_app_token g <> PNone ->
  auth_token g <> PNone ->
  eq_str (auth_token g) "YOUR AUTH TOKEN" = false ->
  glpi_url g = PStr u ->
  http_server (http_log w) (initSession_request (fresh_service g) u)
    = Some resp ->
  accepted_token resp = Some tok ->
  Router.ensure_session g w
  = (Ok tt, opened g tok,
     add_request w (initSession_request (fresh_service g) u)).
Proof.
  intros Hsess Ha Ht Hp Hu Hsrv Hacc.
  destruct (init_api_accepted g w u resp tok Ha Ht Hp Hu Hsrv Hacc)
    as (r & Hinit & _).
  unfold Router.ensure_session, Router.api_has_session.
  rewrite bind_get_state, Hsess. cbn [is_None negb].
  rewrite (bind_Ok _ _ _ _ _ _ _ Hinit). reflexivity.
Qed.

Lemma init_api_run (g : GLPI) (w : World) (u : string) (resp : HttpResponse)
    (tok : PyVal) :
  api_session g = PNone ->
  glpi_app_token g <> PNone ->
  auth_token g <> PNone ->
  eq_str (auth_token g) "YOUR AUTH TOKEN" = false ->
  glpi_url g = PStr u ->
  http_server (http_log w) (initSession_request (fresh_service g) u)
    = Some resp ->
  accepted_token resp = Some tok ->
  tok <> PNone ->
  Router.ensure_session g w
  = (Ok tt, opened g tok,
     add_request w (initSession_request (fresh_service g) u)).
Proof.
  intros Hsess Ha Ht Hp Hu Hsrv Hacc _.
  apply (ensure_session_accepted g w u resp tok); assumption.
Qed.

Lemma router_rest_run (op : M GlpiService PyVal) (item_name : string)
    (g : GLPI) (w : World) (svc : GlpiService) r w' :
  api_rest g = Some svc ->
  let g1 := after_update_uri g item_name svc in
  op (Service.with_uri svc (item_uri g1)) w
    = (r, Service.with_uri svc (item_uri g1), w') ->
  (Router.update_uri item_name ;;; Router.on_api_rest op) g w = (r, g1, w').
Proof.
  intros Hsvc g1 Hop.
  rewrite (bind_Ok _ _ _ _ _ _ _ (update_uri_run g w svc item_name Hsvc)).
  unfold Router.on_api_rest. cbn [api_rest after_update_uri].
  unfold g1, after_update_uri in Hop. cbn [item_uri] in Hop.
  rewrite Hop. reflexivity.
Qed.


(** X24. The first [get_all] on a router that has no session, given an
    application token, a user token and a server that accepts
    [initSession] with a token: exactly two requests are issued, the
    [initSession] one and then the GET, which carries the token just
    received; afterwards the router's session is open with that token. *)
Theorem first_get_all_opens_session (g : GLPI) (w : World) (u : string)
    (resp : HttpResponse) (tok : PyVal) (item_name : string) (expand : bool) :
  api_session g = PNone ->
  glpi_app_token g <> PNone ->
  auth_token g <> PNone ->
  eq_str (auth_token g) "YOUR AUTH TOKEN" = false ->
  glpi_url g = PStr u ->
  http_server (http_log w) (initSession_request (fresh_service g) u)
    = Some resp ->
  accepted_token resp = Some tok ->
  tok <> PNone ->
  exists rq g',
    let w1 := add_request w (initSession_request (fresh_service g) u) in
    Router.get_all item_name expand PNone g w
    = (res_bind (answer w1 rq) json, g', add_request w1 rq)
    /\ req_method rq = "GET"
    /\ plain_request tok rq
    /\ session_open g' /\ api_session g' = tok.
Proof.
  intros Hsess Ha Ht Hp Hu Hsrv Hacc Htok.
  pose proof (init_api_run g w u resp tok Hsess Ha Ht Hp Hu Hsrv Hacc Htok)
    as Hens.
  set (w1 := add_request w (initSession_request (fresh_service g) u)) in *.
  set (svc := Service.with_session (fresh_service g) tok).
  set (g1 := after_update_uri (opened g tok) item_name svc).
  destruct (after_update_uri_resolved (opened g tok) item_name svc)
    as [path Hpath]. fold g1 in Hpath.
  set (svc1 := Service.with_uri svc (item_uri g1)).
  exists (session_request svc1 "GET" (path +:+ "?range=0-5000") false
            (Service.expand_payload expand) None), g1.
  cbn zeta. split; [|split; [reflexivity|split; [|split]]].
  - unfold Router.get_all. cbn [Router.get_all_query is_None negb lift_res].
    rewrite (bind_Ok _ _ g w "?range=0-5000" g w eq_refl).
    assert (Hbody :
      (Router.ensure_session ;;;
       Router.update_uri item_name ;;;
       Router.on_api_rest (Service.get_all expand "?range=0-5000")) g w
      = (res_bind (answer w1 (session_request svc1 "GET"
                                (path +:+ "?range=0-5000") false
                                (Service.expand_payload expand) None)) json,
         g1, add_request w1 (session_request svc1 "GET"
                               (path +:+ "?range=0-5000") false
                               (Service.expand_payload expand) None))).
    { rewrite (bind_Ok _ _ _ _ _ _ _ Hens).
      apply (router_rest_run _ item_name (opened g tok) w1 svc _ _ eq_refl).
      fold g1. fold svc1.
      unfold Service.get_all. rewrite bind_get_state.
      assert (Huri : uri svc1 = Some path) by (unfold svc1; cbn; exact Hpath).
      rewrite Huri.
      rewrite (bind_Ok _ _ svc1 w1 (path +:+ "?range=0-5000") svc1 w1 eq_refl).
      apply (request_json_run svc1 w1). exact Htok. }
    destruct (res_bind (answer w1 _) json) as [a|e] eqn:Hr.
    + apply try_except_Glpi_Ok. exact Hbody.
    + apply try_except_Glpi_escapes; [exact Hbody|].
      eapply answer_json_not_Glpi. exact Hr.
  - apply (session_request_plain svc1).
  - split; [exact Htok|]. eexists. split; reflexivity.
  - reflexivity.
Qed.

End FirstCall.

(** * The statements on concrete runs *)

(** [Demo.router1] is the router [init_api] leaves behind on [Demo.up]. *)
Lemma init_api_reaches_router1 :
  @Router.init_api Demo.up Demo.router0 Demo.world0
  = (Ok (PDict [("session_token", PStr "tok-1")]), Demo.router1,
     add_request Demo.world0
       (initSession_request Demo.service0 "http://glpi/apirest.php")).
Proof. vm_compute. reflexivity. Qed.

Lemma init_rejects_token_with_credentials_witness :
  exists e obj',
    @Service.__init__ Demo.up (PStr "http://glpi/apirest.php") (PStr "app") None
      (PStr "admin") PNone (PStr "user-token") false PNone true false
      Service.blank Demo.world0 = (Raise e, obj', Demo.world0)
    /\ e = GlpiInvalidArgument
             "Cannot set token_auth and username and password together"
    /\ is_GlpiException e = true
    /\ session obj' = PNone
    /\ forall (S : Type) (st : S),
         @Service.new Demo.up S (PStr "http://glpi/apirest.php") (PStr "app") None
           (PStr "admin") PNone (PStr "user-token") false PNone true false
           st Demo.world0 = (Raise e, st, Demo.world0).
Proof.
  apply (@init_rejects_token_with_credentials Demo.up).
  - discriminate.
  - left. discriminate.
Defined.

Lemma get_session_token_lazy_and_cached_witness :
  let w1 := add_request Demo.world0
              (initSession_request Demo.service0 "http://glpi/apirest.php") in
  @Service.get_session_token Demo.up Demo.service0 Demo.world0
    = (Ok (PStr "tok-1"), Demo.service1, w1)
  /\ @get_session_token_times Demo.up 3 Demo.service1 w1
       = (Ok [PStr "tok-1"; PStr "tok-1"; PStr "tok-1"], Demo.service1, w1).
Proof.
  intros w1. split.
  - destruct (@get_session_token_lazy_and_cached Demo.up Demo.service0 Demo.world0)
      as [_ Hlazy].
    apply (Hlazy eq_refl "http://glpi/apirest.php" Demo.ok_response
             (PDict [("session_token", PStr "tok-1")]) (PStr "tok-1"));
      reflexivity.
  - destruct (@get_session_token_lazy_and_cached Demo.up Demo.service1 w1)
      as [Hcached _].
    apply (Hcached ltac:(discriminate) 3%nat).
Defined.


(** C10 as stated fails: the seeded router binds ["ticket"] to ["/Ticket"];
    after [update_uri "/ticket"] the same key is bound to ["/ticket"], and a
    later [update_uri "ticket"] resolves to that new path. *)
Lemma update_uri_rebinds_ticket :
  let g' := snd (fst (Router.update_uri "/ticket" Demo.router1 Demo.world0)) in
  let g'' := snd (fst (Router.update_uri "ticket" g' Demo.world0)) in
  item_map Demo.router1 !! "ticket" = Some "/Ticket"
  /\ item_map g' !! "ticket" = Some "/ticket"
  /\ item_uri g'' = Some "/ticket".
Proof. vm_compute. repeat split. Qed.

Lemma update_uri_keeps_bindings_witness :
  let run := Router.update_uri "/ticket" Demo.router1 Demo.world0 in
  item_map (snd (fst run)) !! "user" = item_map Demo.router1 !! "user"
  /\ item_map (snd (fst run)) !! "ticket" = Some "/ticket".
Proof.
  intros run.
  destruct (update_uri_keeps_bindings Demo.router1 Demo.world0 "/ticket"
              (fst (fst run)) (snd (fst run)) (snd run) eq_refl)
    as (_ & Hother & _ & _ & Hbound).
  split.
  - apply Hother. vm_compute. discriminate.
  - apply Hbound; reflexivity.
Defined.

Lemma search_engine_unmapped_field_witness :
  exists e,
    @Router.search_engine Demo.up "Ticket"
      (PDict [("criteria",
               PList [PDict [("field", PStr "name"); ("value", PStr "srv");
                             ("searchtype", PStr "contains");
                             ("link", PStr "AND")];
                      PDict [("field", PStr "owner"); ("value", PStr "bob");
                             ("searchtype", PStr "contains");
                             ("link", PStr "AND")]])])
      Demo.router0 Demo.world0 = (Raise e, Demo.router0, Demo.world0)
    /\ is_LookupError e = true.
Proof.
  apply (@search_engine_unmapped_field Demo.up Demo.router0 Demo.world0 "Ticket" _
           [PDict [("field", PStr "name"); ("value", PStr "srv");
                   ("searchtype", PStr "contains"); ("link", PStr "AND")];
            PDict [("field", PStr "owner"); ("value", PStr "bob");
                   ("searchtype", PStr "contains"); ("link", PStr "AND")]]);
    reflexivity.
Defined.



(** C4 as stated fails on a dataset in which a record lacks the field: the
    first ticket's name contains ["server"], the second ticket has no name,
    and [search] raises the [KeyError] of the failed lookup instead of
    returning the first ticket. *)
Lemma search_by_criteria_missing_field :
  result_of
    (@Router.search Demo.sparse "ticket"
       (PDict [("criteria",
                PList [PDict [("field", PStr "name");
                              ("value", PStr "server")]])])
       false Demo.router1 Demo.world0)
  = Raise (KeyError "name").
Proof. vm_compute. reflexivity. Qed.

Lemma search_by_criteria_witness :
  (let crit := [PDict [("field", PStr "name"); ("value", PStr "server")]] in
   let fetched := @Router.get_all Demo.up "ticket" false PNone
                    Demo.router1 Demo.world0 in
   @Router.search Demo.up "ticket" (PDict [("criteria", PList crit)]) false
     Demo.router1 Demo.world0
   = (Ok (PList [PDict [("id", PInt 1); ("name", PStr "Mail Server down")];
                 PDict [("id", PInt 3); ("name", PStr "new SERVER rack")]]),
      snd (fst fetched), snd fetched))
  /\ (let crit := [PDict [("field", PStr "name");
                          ("value", PStr ("caf" +:+ Demo.e_acute))]] in
      let fetched := @Router.get_all Demo.latin "ticket" false PNone
                       Demo.router1 Demo.world0 in
      @Router.search Demo.latin "ticket" (PDict [("criteria", PList crit)])
        false Demo.router1 Demo.world0
      = (Ok (PList [PDict [("name", PStr ("CAF" +:+ Demo.E_acute
                                          +:+ " server"))];
                    PDict [("name", PStr ("caf" +:+ Demo.e_acute))]]),
         snd (fst fetched), snd fetched)).
Proof.
  split; intros crit fetched.
  - destruct (@search_by_criteria Demo.up Demo.router1 Demo.world0 "ticket"
                false (PDict [("criteria", PList crit)]) crit
                [PDict [("id", PInt 1); ("name", PStr "Mail Server down")];
                 PDict [("id", PInt 2); ("name", PStr "Printer jam")];
                 PDict [("id", PInt 3); ("name", PStr "new SERVER rack")]]
                (snd (fst fetched)) (snd fetched)
                eq_refl eq_refl eq_refl eq_refl) as [Hrun _].
    exact Hrun.
  - destruct (@search_by_criteria Demo.latin Demo.router1 Demo.world0 "ticket"
                false (PDict [("criteria", PList crit)]) crit
                [PDict [("name", PStr ("CAF" +:+ Demo.E_acute +:+ " server"))];
                 PDict [("name", PStr ("caf" +:+ Demo.e_acute))];
                 PDict [("name", PStr "tea")]]
                (snd (fst fetched)) (snd fetched)
                eq_refl eq_refl eq_refl eq_refl) as [Hrun _].
    exact Hrun.
Defined.

(** ** The further properties on concrete runs *)

Lemma session_open_router1 : session_open Demo.router1.
Proof. split; [discriminate|]. eexists. split; reflexivity. Defined.

Lemma request_with_session_witness :
  let headers := [("session-token", PStr "mine"); ("X-Trace", PNone)] in
  exists rq,
    @Service.request Demo.up "GET" (Some "/Ticket/") true headers
      [("expand_dropdowns", PBool true); ("range", PNone)] None
      Demo.service1 Demo.world0
    = (@answer Demo.up Demo.world0 rq, Demo.service1,
       add_request Demo.world0 rq)
    /\ req_method rq = "GET"
    /\ req_url rq = "http://glpi/apirest.php/Ticket"
    /\ req_data rq = None
    /\ req_auth rq = None
    /\ (forall k,
          @ci_get Demo.up (req_headers rq) k
          = match @caller_header Demo.up headers k with
            | Some v => Some v
            | None => @own_header Demo.up Demo.service1 true k
            end)
    /\ @own_header Demo.up Demo.service1 true "Session-Token"
       = Some (PStr "tok-1")
    /\ @own_header Demo.up Demo.service1 true "User-Agent"
       = Some (PStr "glpi-sdk-python-0.3.1")
    /\ @own_header Demo.up Demo.service1 true "App-Token" = Some (PStr "app")
    /\ @own_header Demo.up Demo.service1 true "Accept"
       = Some (PStr "application/json")
    /\ Forall (fun kv => snd kv <> PNone /\ forall b, snd kv <> PBool b)
              (req_params rq).
Proof.
  intros headers.
  apply (@request_with_session Demo.up Demo.service1 Demo.world0 "GET"
           "/Ticket/" true headers
           [("expand_dropdowns", PBool true); ("range", PNone)] None).
  discriminate.
Defined.

Lemma set_session_token_refused_witness :
  @Service.set_session_token Demo.down Demo.service0 Demo.world0
  = (Raise (GlpiException (@initSession_error Demo.down ["Unauthorized"])),
     Demo.service0,
     add_request Demo.world0
       (initSession_request Demo.service0 "http://glpi/apirest.php"))
  /\ @Service.set_session_token Demo.down_bytes Demo.service0 Demo.world0
     = (Raise TypeError, Demo.service0,
        add_request Demo.world0
          (initSession_request Demo.service0 "http://glpi/apirest.php")).
Proof.
  split.
  - destruct (@set_session_token_refused Demo.down Demo.service0 Demo.world0
                "http://glpi/apirest.php" Demo.refusal eq_refl eq_refl eq_refl)
      as [Htext _].
    apply Htext. reflexivity.
  - destruct (@set_session_token_refused Demo.down_bytes Demo.service0
                Demo.world0 "http://glpi/apirest.php" Demo.refusal
                eq_refl eq_refl eq_refl)
      as [_ Hbytes].
    apply Hbytes. reflexivity.
Defined.

Lemma request_without_session_refused_witness :
  @Service.request Demo.down "GET" (Some "/Ticket") false [] [] None
    Demo.service0 Demo.world0
  = (Raise (GlpiException
              ("Unable to get Session token. " +:+ PyString.spaces 32
               +:+ "ERROR: " +:+ @initSession_error Demo.down ["Unauthorized"])),
     Demo.service0,
     add_request Demo.world0
       (initSession_request Demo.service0 "http://glpi/apirest.php"))
  /\ @Service.request Demo.down_bytes "GET" (Some "/Ticket") false [] [] None
       Demo.service0 Demo.world0
     = (Raise TypeError, Demo.service0,
        add_request Demo.world0
          (initSession_request Demo.service0 "http://glpi/apirest.php")).
Proof.
  split.
  - destruct (@request_without_session_refused Demo.down Demo.service0
                Demo.world0 "http://glpi/apirest.php" Demo.refusal
                "GET" "/Ticket" false [] [] None
                eq_refl eq_refl eq_refl eq_refl)
      as [Htext _].
    apply Htext. reflexivity.
  - destruct (@request_without_session_refused Demo.down_bytes Demo.service0
                Demo.world0 "http://glpi/apirest.php" Demo.refusal
                "GET" "/Ticket" false [] [] None
                eq_refl eq_refl eq_refl eq_refl)
      as [_ Hbytes].
    apply Hbytes. reflexivity.
Defined.

Lemma update_session_token_then_get_witness :
  (@Service.update_session_token (PStr "tok-2") ;;;
   @Service.get_session_token Demo.unreachable) Demo.service1 Demo.world0
  = (Ok (PStr "tok-2"), Service.with_session Demo.service1 (PStr "tok-2"),
     Demo.world0)
  /\ Service.update_session_token (PStr "") Demo.service1 Demo.world0
     = (Ok (PStr "tok-1"), Demo.service1, Demo.world0).
Proof.
  destruct (@update_session_token_then_get Demo.unreachable Demo.service1
              Demo.world0 (PStr "tok-2")) as [Hnew _].
  destruct (@update_session_token_then_get Demo.unreachable Demo.service1
              Demo.world0 (PStr "")) as [_ Hkeep].
  split; [apply Hnew | apply Hkeep]; reflexivity.
Defined.

Lemma get_payload_entries_witness :
  @Service.get_payload Demo.up
    [("name", PStr "x"); ("n", PInt 3); ("z", PNone)]
  = Ok (escape_payload
          (String.concat ","
             (map (@payload_entry Demo.up)
                  [("name", PStr "x"); ("n", PInt 3); ("z", PNone)])))
  /\ @Service.get_payload Demo.up [] = Ok "".
Proof.
  apply (@get_payload_entries Demo.up).
  repeat constructor; cbn; intuition discriminate.
Defined.

Lemma update_needs_numeric_id_witness :
  @Service.update Demo.up [("name", PStr "x")] Demo.service2 Demo.world0
  = (Raise (KeyError "id"), Demo.service2, Demo.world0)
  /\ @Service.update Demo.up [("id", PStr "7")] Demo.service2 Demo.world0
     = (Raise TypeError, Demo.service2, Demo.world0)
  /\ exists rq,
       @Service.update Demo.up [("id", PFloat (Finite 7 false "7.9"))]
         Demo.service2 Demo.world0
       = (res_bind (@answer Demo.up Demo.world0 rq) json, Demo.service2,
          add_request Demo.world0 rq)
       /\ req_method rq = "PUT"
       /\ req_url rq = "http://glpi/apirest.php/Ticket/7".
Proof.
  split; [|split].
  - destruct (@update_needs_numeric_id Demo.up [("name", PStr "x")]
                Demo.service2 Demo.world0) as (Hkey & _).
    apply Hkey. reflexivity.
  - destruct (@update_needs_numeric_id Demo.up [("id", PStr "7")]
                Demo.service2 Demo.world0) as (_ & Htype & _).
    apply (Htype (PStr "7")); reflexivity.
  - destruct (@update_needs_numeric_id Demo.up
                [("id", PFloat (Finite 7 false "7.9"))]
                Demo.service2 Demo.world0) as (_ & _ & _ & _ & Hfloat).
    apply (Hfloat 7 false "7.9"); [reflexivity | discriminate].
Defined.

Lemma init_api_opens_session_witness :
  session_open Demo.router1
  /\ PDict [("session_token", PStr "tok-1")]
     = PDict [("session_token", api_session Demo.router1)].
Proof.
  apply (@init_api_opens_session Demo.up Demo.router0 Demo.world0
           (PDict [("session_token", PStr "tok-1")]) Demo.router1
           (add_request Demo.world0
              (initSession_request Demo.service0 "http://glpi/apirest.php")));
    [reflexivity | discriminate].
Defined.

Lemma calls_reuse_session_witness :
  let calls := [CallGetAll "ticket" false PNone;
                CallGet "ticket" (PStr "abc") false;
                CallDelete "ticket" (PInt 2) false] in
  let run := @run_calls Demo.up calls Demo.router1 Demo.world0 in
  session_open (fst run) /\ api_session (fst run) = PStr "tok-1"
  /\ exists l, requests_between Demo.world0 (snd run) l
       /\ (length l <= 3)%nat
       /\ Forall (@plain_request Demo.up (PStr "tok-1")) l.
Proof.
  intros calls run.
  apply (@calls_reuse_session Demo.up calls Demo.router1 Demo.world0
           (fst run) (snd run) session_open_router1).
  apply surjective_pairing.
Defined.

Lemma get_without_id_fetches_the_name_witness :
  exists rq,
    @Router.get Demo.up "ticket" PNone true Demo.router1 Demo.world0
    = (res_bind (@answer Demo.up Demo.world0 rq) json,
       after_update_uri Demo.router1 "ticket" Demo.service1,
       add_request Demo.world0 rq)
    /\ req_method rq = "GET"
    /\ req_url rq = "http://glpi/apirest.php/ticket"
    /\ req_params rq = []
    /\ req_data rq = None.
Proof.
  apply (@get_without_id_fetches_the_name Demo.up Demo.router1 Demo.world0
           Demo.service1 "ticket" true); [discriminate | reflexivity | discriminate].
Defined.

Lemma get_all_request_witness :
  exists rq path,
    item_uri (after_update_uri Demo.router1 "ticket" Demo.service1) = Some path
    /\ @Router.get_all Demo.up "ticket" true PNone Demo.router1 Demo.world0
       = (res_bind (@answer Demo.up Demo.world0 rq) json,
          after_update_uri Demo.router1 "ticket" Demo.service1,
          add_request Demo.world0 rq)
    /\ req_method rq = "GET"
    /\ req_url rq
       = "http://glpi/apirest.php" +:+ "/"
         +:+ PyString.strip PyString.is_slash (path +:+ "?range=0-5000")
    /\ req_params rq = [("expand_dropdowns", PStr "true")].
Proof.
  apply (@get_all_request Demo.up Demo.router1 Demo.world0 Demo.service1
           "ticket" true); [discriminate | reflexivity | discriminate].
Defined.

Lemma delete_request_witness :
  exists rq,
    @Service.delete Demo.up (PInt 7) true Demo.service2 Demo.world0
    = (res_bind (@answer Demo.up Demo.world0 rq) json, Demo.service2,
       add_request Demo.world0 rq)
    /\ req_method rq = "DELETE"
    /\ req_url rq = "http://glpi/apirest.php/Ticket"
    /\ req_data rq
       = Some ("{" +:+ dq +:+ "input" +:+ dq +:+ ": { " +:+ dq +:+ "id" +:+ dq
               +:+ ": " +:+ "7"
               +:+ " } " +:+ dq +:+ "force_purge" +:+ dq +:+ ": true}").
Proof.
  apply (@delete_request Demo.up Demo.service2 Demo.world0 7 true "/Ticket");
    [discriminate | reflexivity].
Defined.

Lemma update_request_witness :
  exists rq,
    @Service.update Demo.up [("id", PInt 7); ("name", PStr "x")]
      Demo.service2 Demo.world0
    = (res_bind (@answer Demo.up Demo.world0 rq) json, Demo.service2,
       add_request Demo.world0 rq)
    /\ req_method rq = "PUT"
    /\ req_url rq = "http://glpi/apirest.php/Ticket/7"
    /\ req_data rq
       = Some (Service.input_envelope
                 (escape_payload
                    (String.concat ","
                       (map (@payload_entry Demo.up)
                            [("id", PInt 7); ("name", PStr "x")])))).
Proof.
  apply (@update_request Demo.up Demo.service2 Demo.world0
           [("id", PInt 7); ("name", PStr "x")] 7);
    [discriminate | repeat constructor; cbn; intuition discriminate
     | reflexivity].
Defined.

Lemma search_criteria_sublist_witness :
  exists res,
    PList [PDict [("name", PStr "Mail Server down")]] = PList res
    /\ sublist res [PDict [("name", PStr "Mail Server down")];
                    PDict [("name", PStr "Printer jam")]].
Proof.
  apply (@search_criteria_sublist Demo.up
           (PList [PDict [("name", PStr "Mail Server down")];
                   PDict [("name", PStr "Printer jam")]])
           (PList [PDict [("field", PStr "name"); ("value", PStr "server")]]));
    reflexivity.
Defined.

Lemma search_criteria_empty_witness :
  @Router.search_criteria Demo.up (PList [PInt 1; PNone]) (PList [])
  = Ok (PList []).
Proof.
  apply (@search_criteria_empty Demo.up (PList [PInt 1; PNone]) (PList [])
           [PInt 1; PNone]); [reflexivity | left; reflexivity].
Defined.

Lemma search_without_criteria_witness :
  @Router.search Demo.unreachable "ticket"
    (PDict [("metacriteria", PList [])]) false Demo.router0 Demo.world0
  = (Ok (PDict [("message_info", PStr "Not implemented yet")]),
     Demo.router0, Demo.world0).
Proof.
  apply (@search_without_criteria Demo.unreachable Demo.router0 Demo.world0
           "ticket" [("metacriteria", PList [])] false).
  reflexivity.
Defined.

Lemma search_engine_query_text_witness :
  @Router.search_engine_query Demo.up "Ticket"
    (PDict [("criteria",
             PList (map engine_criterion
                      [("name", PNone, PStr "contains", PStr "AND");
                       ("id", PInt 3, PStr "equals", PStr "OR")]))])
  = Ok ("Ticket" +:+ "?"
        +:+ String.concat "&"
              (@render_engine_criteria Demo.up 0
                 [("name", PNone, PStr "contains", PStr "AND");
                  ("id", PInt 3, PStr "equals", PStr "OR")])
        +:+ "&range=0-5000").
Proof.
  apply (@search_engine_query_text Demo.up "Ticket"
           [("name", PNone, PStr "contains", PStr "AND");
            ("id", PInt 3, PStr "equals", PStr "OR")]).
  reflexivity.
Defined.

Lemma create_request_witness :
  exists payload rq,
    @Service.get_payload Demo.up [("name", PStr "x")] = Ok payload
    /\ @Service.create Demo.up (Some [("name", PStr "x")])
         Demo.service2 Demo.world0
       = (res_bind (@answer Demo.up Demo.world0 rq) json, Demo.service2,
          add_request (printed Demo.world0 (Service.input_envelope payload)) rq)
    /\ req_method rq = "POST"
    /\ req_url rq = "http://glpi/apirest.php/Ticket"
    /\ req_data rq = Some (Service.input_envelope payload)
    /\ @ci_get Demo.up (req_headers rq) "Accept"
       = Some (PStr "application/json").
Proof.
  apply (@create_request Demo.up Demo.service2 Demo.world0
           [("name", PStr "x")] "/Ticket"); [discriminate | reflexivity].
Defined.

Lemma explicit_credentials_win_witness :
  @Service.__init__ Demo.cloud (PStr "http://glpi/apirest.php") (PStr "app")
    None PNone PNone (PStr "user-token") true (PStr "glpi") true false
    Service.blank Demo.world0
  = @Service.__init__ Demo.cloud (PStr "http://glpi/apirest.php") (PStr "app")
      None PNone PNone (PStr "user-token") false (PStr "glpi") true false
      Service.blank Demo.world0.
Proof.
  apply (@explicit_credentials_win Demo.cloud).
  left. split; reflexivity.
Defined.

Lemma bundle_supplies_credentials_witness :
  exists r obj',
    @Service.__init__ Demo.cloud (PStr "http://glpi/apirest.php") (PStr "app")
      None PNone PNone PNone true (PStr "glpi") true false
      Service.blank Demo.world0 = (r, obj', Demo.world0)
    /\ url obj' = PStr "http://cloud/apirest.php"
    /\ username obj' = PStr "svc"
    /\ password obj' = PStr "secret"
    /\ token_auth obj' = PNone
    /\ app_token obj' = PStr "app"
    /\ session obj' = PNone.
Proof.
  apply (@bundle_supplies_credentials Demo.cloud
           (PStr "http://glpi/apirest.php") (PStr "app") None PNone PNone
           "glpi" true false Service.blank Demo.world0
           [("glpi", PList [PDict [("credentials",
                                    PDict Demo.cloud_credentials)]])]
           Demo.cloud_credentials
           (PList [PDict [("credentials", PDict Demo.cloud_credentials)]])
           (PDict [("credentials", PDict Demo.cloud_credentials)]));
    reflexivity.
Defined.

Lemma first_get_all_opens_session_witness :
  exists rq g',
    let w1 := add_request Demo.world0
                (initSession_request (fresh_service Demo.router0)
                   "http://glpi/apirest.php") in
    @Router.get_all Demo.up "ticket" false PNone Demo.router0 Demo.world0
    = (res_bind (@answer Demo.up w1 rq) json, g', add_request w1 rq)
    /\ req_method rq = "GET"
    /\ @plain_request Demo.up (PStr "tok-1") rq
    /\ session_open g' /\ api_session g' = PStr "tok-1".
Proof.
  apply (@first_get_all_opens_session Demo.up Demo.router0 Demo.world0
           "http://glpi/apirest.php" Demo.ok_response (PStr "tok-1")
           "ticket" false);
    try reflexivity; discriminate.
Defined.
